(** * The AMP custom-element runtime (src/custom-element.js)

    A shallow embedding of the element lifecycle implemented by
    [createAmpElementProto], of the layout resolver [applyLayout_] and of
    the registry function [upgradeOrRegisterElement], followed by the
    properties of the lifecycle that the specification states.

    Conventions of the embedding.
    - A custom element is a record [Element] of the instance variables that
      [createdCallback] installs, together with the part of the DOM node the
      code reads or writes (tag name, attributes, class list, inline style,
      children).
    - A method of [ElementProto] is a computation [M A]: it receives the
      element ([this]), and yields an outcome (a value, or a thrown error),
      the element as the method left it, and the list of the effects it had
      on its collaborators, oldest first.  A throw keeps the mutations made
      before it, as in JavaScript.
    - The hosted implementation ([this.implementation_]) is described by an
      [ImplClass]: for every hook, what a call of the hook yields.  A hook
      call is recorded as an [EvHook] event.  Hooks are modelled by their
      outcome only: they do not call back into the element.
    - Closures handed to [timer.delay], [vsync.mutate] or [Promise.then]
      are defunctionalised as [Task]s; [runTask] is their body. *)

From Stdlib Require Import ZArith Lia String Ascii List Bool.
From stdpp Require Import base option list strings gmap.

Local Open Scope Z_scope.
Local Open Scope string_scope.
Local Open Scope list_scope.

(** ** Values *)

(** [Layout] of ./layout. *)
Inductive Layout : Type :=
| NODISPLAY | FIXED | FIXED_HEIGHT | RESPONSIVE | CONTAINER | FILL | FLEX_ITEM.

#[global] Instance Layout_eq_dec : EqDecision Layout.
Proof. solve_decision. Defined.

(** What a [throw] carries. *)
Inductive JsError : Type :=
| HookError (code : nat)
    (* an exception raised by a hosted implementation *)
| DevAssertError (msg : string)
    (* a failed [dev.assert] *)
| UserAssertError (msg : string)
    (* a failed [user.assert] *)
| LayoutNotSupported (msg : string) (l : Layout)
    (* [new Error(msg + layout)] *)
| TypeError (msg : string).
    (* a property read on null *)

#[global] Instance JsError_eq_dec : EqDecision JsError.
Proof. solve_decision. Defined.

Inductive Outcome (A : Type) : Type :=
| Ok (a : A)
| Throw (e : JsError).
Arguments Ok {A} a.
Arguments Throw {A} e.

(** An action invocation: the fields [executionAction_] reads, and the
    arguments as an opaque string. *)
Record ActionInvocation : Type := {
  inv_target_tagName : string;
  inv_method : string;
  inv_args : string
}.

#[global] Instance ActionInvocation_eq_dec : EqDecision ActionInvocation.
Proof. solve_decision. Defined.

(** A plain DOM node: a child of the element, the loading container or the
    loader. *)
Record Node : Type := {
  node_tagName : string;
  node_attributes : gmap string string;
  node_classList : list string
}.

(** [sizer.style.paddingTop].  The quotient of the two numerals is a
    floating point number; it is kept symbolic. *)
Inductive PaddingTop : Type :=
| RatioPercent (height width : string)
| PaddingLiteral (s : string).

Record Sizer : Type := {
  sizer_display : string;
  sizer_paddingTop : PaddingTop
}.

Record LayoutRect : Type := {
  rect_width : Z;
  rect_top : Z
}.

(** JavaScript truthiness of a string that may be null. *)
Definition truthy (v : option string) : bool :=
  match v with
  | Some s => negb (bool_decide (s = EmptyString))
  | None => false
  end.

(** Truthiness of a boolean that may be undefined. *)
Definition truthyb (v : option bool) : bool :=
  match v with
  | Some b => b
  | None => false
  end.

Definition is_auto (v : option string) : bool :=
  bool_decide (v = Some "auto").

(** [DOMTokenList]: [add], [remove] and [toggle(name, force)]. *)
Definition classList_add (c : string) (l : list string) : list string :=
  if bool_decide (c ∈ l) then l else l ++ [c].

Definition classList_remove (c : string) (l : list string) : list string :=
  filter (λ x, x ≠ c) l.

Definition classList_toggle (c : string) (force : bool) (l : list string)
  : list string :=
  if force then classList_add c l else classList_remove c l.

Definition classList_contains (c : string) (l : list string) : bool :=
  bool_decide (c ∈ l).

(** [String.prototype.toLowerCase] on the ASCII letters of a tag name. *)
Definition lower_ascii (a : ascii) : ascii :=
  let n := nat_of_ascii a in
  if (Nat.leb 65 n && Nat.leb n 90)%bool then ascii_of_nat (n + 32) else a.

Fixpoint toLowerCase (s : string) : string :=
  match s with
  | EmptyString => EmptyString
  | String a r => String (lower_ascii a) (toLowerCase r)
  end.

(** ** Hooks, tasks and events *)

Inductive Hook : Type :=
| H_constructor
| H_createdCallback
| H_firstAttachedCallback
| H_buildCallback
| H_preconnectCallback (onLayout : bool)
| H_onLayoutMeasure
| H_detachedCallback
| H_layoutCallback
| H_firstLayoutCompleted
| H_viewportCallback (inViewport : bool)
| H_pauseCallback
| H_resumeCallback
| H_unlayoutCallback
| H_createPlaceholderCallback
| H_executeAction (invocation : ActionInvocation) (deferred : bool).

(** The closures of the file. *)
Inductive Task : Type :=
| T_dequeueActions
    (* [timer.delay(this.dequeueActions_.bind(this), 1)] in [build] *)
| T_preconnect
    (* the delayed early preconnect of [preconnect] *)
| T_viewportLoading
    (* the 100ms callback of [viewportCallback] *)
| T_prepareLoading
    (* the mutate callback of [updateLayoutBox] *)
| T_toggleLoading (opt_cleanup : bool)
    (* the mutate callback of [toggleLoading_] *)
| T_layoutResolved
    (* the fulfilment callback of [layoutCallback] *)
| T_layoutRejected (reason : JsError).
    (* the rejection callback of [layoutCallback] *)

#[global] Instance Task_eq_dec : EqDecision Task.
Proof. solve_decision. Defined.

Inductive Event : Type :=
| EvHook (h : Hook)
| EvReportError (e : JsError)
    (* [reportError(e, this)] *)
| EvRethrowAsync (msg : string) (e : JsError) (tagName method : string)
| EvDispatch (name : string)
    (* [dispatchCustomEvent] *)
| EvTimerDelay (t : Task) (ms : nat)
| EvVsyncMutate (t : Task)
| EvPromiseThen (t : Task)
| EvDeferRemove (n : Node)
    (* [resources_.deferMutate(this, () => dom.removeElement(n))] *)
| EvResourcesAdd
| EvResourcesRemove
| EvResourcesUpgraded
| EvDocumentRegisterElement (name : string).

(** ** The hosted implementation *)

(** What each hook of an implementation class yields when it is called.
    [isElementStub] tells the class [ElementStub] apart. *)
Record ImplClass : Type := {
  isElementStub : bool;
  constructor_hook : Outcome unit;
  createdCallback_hook : Outcome unit;
  isLayoutSupported_hook : Layout -> bool;
  firstAttachedCallback_hook : Outcome unit;
  buildCallback_hook : Outcome unit;
  preconnectCallback_hook : bool -> Outcome unit;
  onLayoutMeasure_hook : Outcome unit;
  detachedCallback_hook : Outcome unit;
  layoutCallback_hook : Outcome (Outcome unit);
    (* the promise returned, as the way it settles *)
  firstLayoutCompleted_hook : Outcome unit;
  viewportCallback_hook : bool -> Outcome unit;
  pauseCallback_hook : Outcome unit;
  resumeCallback_hook : Outcome unit;
  unlayoutCallback_hook : Outcome bool;
  createPlaceholderCallback_hook : Outcome (option Node);
  executeAction_hook : ActionInvocation -> bool -> Outcome unit
}.

(** An implementation object: its class and the fields the element writes
    into it ([None]: as the constructor left it). *)
Record Impl : Type := {
  impl_class : ImplClass;
  impl_layout_ : option Layout;
  impl_layoutWidth_ : option Z;
  impl_inViewport_ : option bool
}.

Definition new_Impl (c : ImplClass) : Impl :=
  {| impl_class := c; impl_layout_ := None; impl_layoutWidth_ := None;
     impl_inViewport_ := None |}.

Inductive ReadyState : Type := RS_loading | RS_complete.

(** ** The element *)

Record Element : Type := {
  tagName : string;
  attributes : gmap string string;
  classList : list string;
  style : gmap string string;
  childNodes : list Node;
  built_ : bool;
  readyState : ReadyState;
  everAttached : bool;
  layout_ : Layout;
  layoutWidth_ : Z;
  layoutCount_ : nat;
  isInViewport_ : bool;
  sizerElement_ : option Sizer;
  loadingDisabled_ : option bool;
  loadingState_ : option bool;
  loadingContainer_ : option Node;
  loadingElement_ : option Node;
  implementation_ : Impl;
  actionQueue_ : option (list ActionInvocation);
  isInTemplate_ : option bool
}.

(** Assignments [this.f = v], one per instance variable that is written. *)
Definition set_classList (v : list string) (e : Element) : Element :=
  {| tagName := tagName e; attributes := attributes e; classList := v;
     style := style e; childNodes := childNodes e; built_ := built_ e;
     readyState := readyState e; everAttached := everAttached e;
     layout_ := layout_ e; layoutWidth_ := layoutWidth_ e;
     layoutCount_ := layoutCount_ e; isInViewport_ := isInViewport_ e;
     sizerElement_ := sizerElement_ e;
     loadingDisabled_ := loadingDisabled_ e;
     loadingState_ := loadingState_ e;
     loadingContainer_ := loadingContainer_ e;
     loadingElement_ := loadingElement_ e;
     implementation_ := implementation_ e; actionQueue_ := actionQueue_ e;
     isInTemplate_ := isInTemplate_ e |}.

Definition set_style (v : gmap string string) (e : Element) : Element :=
  {| tagName := tagName e; attributes := attributes e;
     classList := classList e; style := v; childNodes := childNodes e;
     built_ := built_ e; readyState := readyState e;
     everAttached := everAttached e; layout_ := layout_ e;
     layoutWidth_ := layoutWidth_ e; layoutCount_ := layoutCount_ e;
     isInViewport_ := isInViewport_ e; sizerElement_ := sizerElement_ e;
     loadingDisabled_ := loadingDisabled_ e;
     loadingState_ := loadingState_ e;
     loadingContainer_ := loadingContainer_ e;
     loadingElement_ := loadingElement_ e;
     implementation_ := implementation_ e; actionQueue_ := actionQueue_ e;
     isInTemplate_ := isInTemplate_ e |}.

Definition set_childNodes (v : list Node) (e : Element) : Element :=
  {| tagName := tagName e; attributes := attributes e;
     classList := classList e; style := style e; childNodes := v;
     built_ := built_ e; readyState := readyState e;
     everAttached := everAttached e; layout_ := layout_ e;
     layoutWidth_ := layoutWidth_ e; layoutCount_ := layoutCount_ e;
     isInViewport_ := isInViewport_ e; sizerElement_ := sizerElement_ e;
     loadingDisabled_ := loadingDisabled_ e;
     loadingState_ := loadingState_ e;
     loadingContainer_ := loadingContainer_ e;
     loadingElement_ := loadingElement_ e;
     implementation_ := implementation_ e; actionQueue_ := actionQueue_ e;
     isInTemplate_ := isInTemplate_ e |}.

Definition set_built_ (v : bool) (e : Element) : Element :=
  {| tagName := tagName e; attributes := attributes e;
     classList := classList e; style := style e; childNodes := childNodes e;
     built_ := v; readyState := readyState e; everAttached := everAttached e;
     layout_ := layout_ e; layoutWidth_ := layoutWidth_ e;
     layoutCount_ := layoutCount_ e; isInViewport_ := isInViewport_ e;
     sizerElement_ := sizerElement_ e;
     loadingDisabled_ := loadingDisabled_ e;
     loadingState_ := loadingState_ e;
     loadingContainer_ := loadingContainer_ e;
     loadingElement_ := loadingElement_ e;
     implementation_ := implementation_ e; actionQueue_ := actionQueue_ e;
     isInTemplate_ := isInTemplate_ e |}.

Definition set_readyState (v : ReadyState) (e : Element) : Element :=
  {| tagName := tagName e; attributes := attributes e;
     classList := classList e; style := style e; childNodes := childNodes e;
     built_ := built_ e; readyState := v; everAttached := everAttached e;
     layout_ := layout_ e; layoutWidth_ := layoutWidth_ e;
     layoutCount_ := layoutCount_ e; isInViewport_ := isInViewport_ e;
     sizerElement_ := sizerElement_ e;
     loadingDisabled_ := loadingDisabled_ e;
     loadingState_ := loadingState_ e;
     loadingContainer_ := loadingContainer_ e;
     loadingElement_ := loadingElement_ e;
     implementation_ := implementation_ e; actionQueue_ := actionQueue_ e;
     isInTemplate_ := isInTemplate_ e |}.

Definition set_everAttached (v : bool) (e : Element) : Element :=
  {| tagName := tagName e; attributes := attributes e;
     classList := classList e; style := style e; childNodes := childNodes e;
     built_ := built_ e; readyState := readyState e; everAttached := v;
     layout_ := layout_ e; layoutWidth_ := layoutWidth_ e;
     layoutCount_ := layoutCount_ e; isInViewport_ := isInViewport_ e;
     sizerElement_ := sizerElement_ e;
     loadingDisabled_ := loadingDisabled_ e;
     loadingState_ := loadingState_ e;
     loadingContainer_ := loadingContainer_ e;
     loadingElement_ := loadingElement_ e;
     implementation_ := implementation_ e; actionQueue_ := actionQueue_ e;
     isInTemplate_ := isInTemplate_ e |}.

Definition set_layout_ (v : Layout) (e : Element) : Element :=
  {| tagName := tagName e; attributes := attributes e;
     classList := classList e; style := style e; childNodes := childNodes e;
     built_ := built_ e; readyState := readyState e;
     everAttached := everAttached e; layout_ := v;
     layoutWidth_ := layoutWidth_ e; layoutCount_ := layoutCount_ e;
     isInViewport_ := isInViewport_ e; sizerElement_ := sizerElement_ e;
     loadingDisabled_ := loadingDisabled_ e;
     loadingState_ := loadingState_ e;
     loadingContainer_ := loadingContainer_ e;
     loadingElement_ := loadingElement_ e;
     implementation_ := implementation_ e; actionQueue_ := actionQueue_ e;
     isInTemplate_ := isInTemplate_ e |}.

Definition set_layoutWidth_ (v : Z) (e : Element) : Element :=
  {| tagName := tagName e; attributes := attributes e;
     classList := classList e; style := style e; childNodes := childNodes e;
     built_ := built_ e; readyState := readyState e;
     everAttached := everAttached e; layout_ := layout_ e; layoutWidth_ := v;
     layoutCount_ := layoutCount_ e; isInViewport_ := isInViewport_ e;
     sizerElement_ := sizerElement_ e;
     loadingDisabled_ := loadingDisabled_ e;
     loadingState_ := loadingState_ e;
     loadingContainer_ := loadingContainer_ e;
     loadingElement_ := loadingElement_ e;
     implementation_ := implementation_ e; actionQueue_ := actionQueue_ e;
     isInTemplate_ := isInTemplate_ e |}.

Definition set_layoutCount_ (v : nat) (e : Element) : Element :=
  {| tagName := tagName e; attributes := attributes e;
     classList := classList e; style := style e; childNodes := childNodes e;
     built_ := built_ e; readyState := readyState e;
     everAttached := everAttached e; layout_ := layout_ e;
     layoutWidth_ := layoutWidth_ e; layoutCount_ := v;
     isInViewport_ := isInViewport_ e; sizerElement_ := sizerElement_ e;
     loadingDisabled_ := loadingDisabled_ e;
     loadingState_ := loadingState_ e;
     loadingContainer_ := loadingContainer_ e;
     loadingElement_ := loadingElement_ e;
     implementation_ := implementation_ e; actionQueue_ := actionQueue_ e;
     isInTemplate_ := isInTemplate_ e |}.

Definition set_isInViewport_ (v : bool) (e : Element) : Element :=
  {| tagName := tagName e; attributes := attributes e;
     classList := classList e; style := style e; childNodes := childNodes e;
     built_ := built_ e; readyState := readyState e;
     everAttached := everAttached e; layout_ := layout_ e;
     layoutWidth_ := layoutWidth_ e; layoutCount_ := layoutCount_ e;
     isInViewport_ := v; sizerElement_ := sizerElement_ e;
     loadingDisabled_ := loadingDisabled_ e;
     loadingState_ := loadingState_ e;
     loadingContainer_ := loadingContainer_ e;
     loadingElement_ := loadingElement_ e;
     implementation_ := implementation_ e; actionQueue_ := actionQueue_ e;
     isInTemplate_ := isInTemplate_ e |}.

Definition set_sizerElement_ (v : option Sizer) (e : Element) : Element :=
  {| tagName := tagName e; attributes := attributes e;
     classList := classList e; style := style e; childNodes := childNodes e;
     built_ := built_ e; readyState := readyState e;
     everAttached := everAttached e; layout_ := layout_ e;
     layoutWidth_ := layoutWidth_ e; layoutCount_ := layoutCount_ e;
     isInViewport_ := isInViewport_ e; sizerElement_ := v;
     loadingDisabled_ := loadingDisabled_ e;
     loadingState_ := loadingState_ e;
     loadingContainer_ := loadingContainer_ e;
     loadingElement_ := loadingElement_ e;
     implementation_ := implementation_ e; actionQueue_ := actionQueue_ e;
     isInTemplate_ := isInTemplate_ e |}.

Definition set_loadingDisabled_ (v : option bool) (e : Element) : Element :=
  {| tagName := tagName e; attributes := attributes e;
     classList := classList e; style := style e; childNodes := childNodes e;
     built_ := built_ e; readyState := readyState e;
     everAttached := everAttached e; layout_ := layout_ e;
     layoutWidth_ := layoutWidth_ e; layoutCount_ := layoutCount_ e;
     isInViewport_ := isInViewport_ e; sizerElement_ := sizerElement_ e;
     loadingDisabled_ := v; loadingState_ := loadingState_ e;
     loadingContainer_ := loadingContainer_ e;
     loadingElement_ := loadingElement_ e;
     implementation_ := implementation_ e; actionQueue_ := actionQueue_ e;
     isInTemplate_ := isInTemplate_ e |}.

Definition set_loadingState_ (v : option bool) (e : Element) : Element :=
  {| tagName := tagName e; attributes := attributes e;
     classList := classList e; style := style e; childNodes := childNodes e;
     built_ := built_ e; readyState := readyState e;
     everAttached := everAttached e; layout_ := layout_ e;
     layoutWidth_ := layoutWidth_ e; layoutCount_ := layoutCount_ e;
     isInViewport_ := isInViewport_ e; sizerElement_ := sizerElement_ e;
     loadingDisabled_ := loadingDisabled_ e; loadingState_ := v;
     loadingContainer_ := loadingContainer_ e;
     loadingElement_ := loadingElement_ e;
     implementation_ := implementation_ e; actionQueue_ := actionQueue_ e;
     isInTemplate_ := isInTemplate_ e |}.

Definition set_loadingContainer_ (v : option Node) (e : Element) : Element :=
  {| tagName := tagName e; attributes := attributes e;
     classList := classList e; style := style e; childNodes := childNodes e;
     built_ := built_ e; readyState := readyState e;
     everAttached := everAttached e; layout_ := layout_ e;
     layoutWidth_ := layoutWidth_ e; layoutCount_ := layoutCount_ e;
     isInViewport_ := isInViewport_ e; sizerElement_ := sizerElement_ e;
     loadingDisabled_ := loadingDisabled_ e;
     loadingState_ := loadingState_ e; loadingContainer_ := v;
     loadingElement_ := loadingElement_ e;
     implementation_ := implementation_ e; actionQueue_ := actionQueue_ e;
     isInTemplate_ := isInTemplate_ e |}.

Definition set_loadingElement_ (v : option Node) (e : Element) : Element :=
  {| tagName := tagName e; attributes := attributes e;
     classList := classList e; style := style e; childNodes := childNodes e;
     built_ := built_ e; readyState := readyState e;
     everAttached := everAttached e; layout_ := layout_ e;
     layoutWidth_ := layoutWidth_ e; layoutCount_ := layoutCount_ e;
     isInViewport_ := isInViewport_ e; sizerElement_ := sizerElement_ e;
     loadingDisabled_ := loadingDisabled_ e;
     loadingState_ := loadingState_ e;
     loadingContainer_ := loadingContainer_ e; loadingElement_ := v;
     implementation_ := implementation_ e; actionQueue_ := actionQueue_ e;
     isInTemplate_ := isInTemplate_ e |}.

Definition set_implementation_ (v : Impl) (e : Element) : Element :=
  {| tagName := tagName e; attributes := attributes e;
     classList := classList e; style := style e; childNodes := childNodes e;
     built_ := built_ e; readyState := readyState e;
     everAttached := everAttached e; layout_ := layout_ e;
     layoutWidth_ := layoutWidth_ e; layoutCount_ := layoutCount_ e;
     isInViewport_ := isInViewport_ e; sizerElement_ := sizerElement_ e;
     loadingDisabled_ := loadingDisabled_ e;
     loadingState_ := loadingState_ e;
     loadingContainer_ := loadingContainer_ e;
     loadingElement_ := loadingElement_ e; implementation_ := v;
     actionQueue_ := actionQueue_ e; isInTemplate_ := isInTemplate_ e |}.

Definition set_actionQueue_ (v : option (list ActionInvocation)) (e : Element) : Element :=
  {| tagName := tagName e; attributes := attributes e;
     classList := classList e; style := style e; childNodes := childNodes e;
     built_ := built_ e; readyState := readyState e;
     everAttached := everAttached e; layout_ := layout_ e;
     layoutWidth_ := layoutWidth_ e; layoutCount_ := layoutCount_ e;
     isInViewport_ := isInViewport_ e; sizerElement_ := sizerElement_ e;
     loadingDisabled_ := loadingDisabled_ e;
     loadingState_ := loadingState_ e;
     loadingContainer_ := loadingContainer_ e;
     loadingElement_ := loadingElement_ e;
     implementation_ := implementation_ e; actionQueue_ := v;
     isInTemplate_ := isInTemplate_ e |}.

Definition set_isInTemplate_ (v : option bool) (e : Element) : Element :=
  {| tagName := tagName e; attributes := attributes e;
     classList := classList e; style := style e; childNodes := childNodes e;
     built_ := built_ e; readyState := readyState e;
     everAttached := everAttached e; layout_ := layout_ e;
     layoutWidth_ := layoutWidth_ e; layoutCount_ := layoutCount_ e;
     isInViewport_ := isInViewport_ e; sizerElement_ := sizerElement_ e;
     loadingDisabled_ := loadingDisabled_ e;
     loadingState_ := loadingState_ e;
     loadingContainer_ := loadingContainer_ e;
     loadingElement_ := loadingElement_ e;
     implementation_ := implementation_ e; actionQueue_ := actionQueue_ e;
     isInTemplate_ := v |}.

(** ** The monad of element methods *)

Definition M (A : Type) : Type :=
  Element -> Outcome A * Element * list Event.

Definition ret {A} (a : A) : M A := λ s, (Ok a, s, []).

Definition throw {A} (e : JsError) : M A := λ s, (Throw e, s, []).

Definition bind {A B} (m : M A) (k : A -> M B) : M B := λ s,
  match m s with
  | (Ok a, s1, t1) =>
      match k a s1 with
      | (r, s2, t2) => (r, s2, t1 ++ t2)
      end
  | (Throw e, s1, t1) => (Throw e, s1, t1)
  end.

(** [try { m } catch (e) { h e }] *)
Definition try_catch {A} (m : M A) (h : JsError -> M A) : M A := λ s,
  match m s with
  | (Ok a, s1, t1) => (Ok a, s1, t1)
  | (Throw e, s1, t1) =>
      match h e s1 with
      | (r, s2, t2) => (r, s2, t1 ++ t2)
      end
  end.

Definition this : M Element := λ s, (Ok s, s, []).

Definition assign (f : Element -> Element) : M unit := λ s, (Ok tt, f s, []).

Definition emit (ev : Event) : M unit := λ s, (Ok tt, s, [ev]).

Definition skip : M unit := ret tt.

Declare Scope js_scope.
Delimit Scope js_scope with js.
Notation "'let*' x ':=' m 'in' k" := (bind m (λ x, k))
  (at level 10, x name, m at level 100, k at level 200) : js_scope.
Notation "m ';;' k" := (bind m (λ _, k))
  (at level 100, k at level 200, right associativity) : js_scope.
Local Open Scope js_scope.

(** The three components of a run. *)
Definition outcome_of {A} (r : Outcome A * Element * list Event) : Outcome A :=
  r.1.1.
Definition state_of {A} (r : Outcome A * Element * list Event) : Element :=
  r.1.2.
Definition events_of {A} (r : Outcome A * Element * list Event) : list Event :=
  r.2.

(** A call of a hook of [this.implementation_]: the call is recorded and
    its outcome is what the class says. *)
Definition call {A} (h : Hook) (f : ImplClass -> Outcome A) : M A := λ s,
  (f (impl_class (implementation_ s)), s, [EvHook h]).

(** Modelled from the spec: [dev.assert] and [user.assert] of ./log, which
    is not part of the sources at hand.  Section 7 describes them as
    assertions that fail the calling operation ((a) validation errors fail
    synchronously, (d) misuse assertions are fatal); both throw when the
    condition is falsy and return otherwise. *)
Definition dev_assert (cond : bool) (msg : string) : M unit :=
  if cond then skip else throw (DevAssertError msg).

Definition user_assert (cond : bool) (msg : string) : M unit :=
  if cond then skip else throw (UserAssertError msg).

(** Modelled from the spec: [reportError] of ./error and [rethrowAsync] of
    ./log, the error sink of section 6: [report] logs without failing, and
    [rethrowAsync] propagates outside the current call stack; both return
    normally to their caller. *)
Definition reportError (e : JsError) : M unit := emit (EvReportError e).

Definition rethrowAsync (msg : string) (e : JsError) (tag method : string)
  : M unit :=
  emit (EvRethrowAsync msg e tag method).

(** ** Collaborators of ./layout, ./loader and the platform

    The helpers imported from ./layout and ./loader are not part of the
    sources at hand; the embedding takes them as parameters. *)
Record Collaborators : Type := {
  parseLayout : string -> option Layout;
    (* [None]: undefined *)
  parseLength : string -> option string;
    (* [None]: undefined *)
  getLengthUnits : string -> string;
  hasNaturalDimensions : string -> bool;
  getNaturalDimensions : string -> string * string;
    (* width and height for the element's tag *)
  getLayoutClass : Layout -> string;
  isLayoutSizeDefined : Layout -> bool;
  isLoadingAllowed : string -> bool;
  isInternalElement : string -> bool;
  createLoaderElement : Node;
  TEMPLATE_TAG_SUPPORTED : bool
}.

Definition MIN_WIDTH_FOR_LOADING_ : Z := 100.

Definition PREPARE_LOADING_THRESHOLD_ : Z := 1000.

Definition getAttribute (e : Element) (name : string) : option string :=
  attributes e !! name.

Definition hasAttribute (e : Element) (name : string) : bool :=
  bool_decide (is_Some (attributes e !! name)).

(** [element.style.p = v]; assigning null clears the declaration. *)
Definition style_set (p : string) (v : option string) : M unit :=
  assign (λ e, set_style (match v with
                          | Some s => <[p := s]> (style e)
                          | None => delete p (style e)
                          end) e).

Definition classList_add_this (c : string) : M unit :=
  assign (λ e, set_classList (classList_add c (classList e)) e).

Definition classList_remove_this (c : string) : M unit :=
  assign (λ e, set_classList (classList_remove c (classList e)) e).

Definition in_layouts (l : Layout) (ls : list Layout) : bool :=
  bool_decide (l ∈ ls).

Definition sizer_node : Node :=
  {| node_tagName := "i-amp-sizer"; node_attributes := ∅;
     node_classList := [] |}.

Section Runtime.

Variable L : Collaborators.

(** ** [applyLayout_] *)

Definition applyLayout_ : M Layout :=
  let* element := this in
  let layoutAttr := getAttribute element "layout" in
  let widthAttr := getAttribute element "width" in
  let heightAttr := getAttribute element "height" in
  let sizesAttr := getAttribute element "sizes" in
  let heightsAttr := getAttribute element "heights" in
  (* Input layout attributes.  The outer option is definedness. *)
  let inputLayout_ : option (option Layout) :=
    match layoutAttr with
    | Some s => if truthy layoutAttr then Some <$> parseLayout L s
                else Some None
    | None => Some None
    end in
  let* inputLayout :=
    match inputLayout_ with
    | Some v => ret v
    | None => throw (UserAssertError "Unknown layout: %s")
    end in
  let inputWidth_ : option (option string) :=
    match widthAttr with
    | Some s => if truthy widthAttr && negb (is_auto widthAttr)
                then Some <$> parseLength L s
                else Some widthAttr
    | None => Some None
    end in
  let* inputWidth :=
    match inputWidth_ with
    | Some v => ret v
    | None => throw (UserAssertError "Invalid width value: %s")
    end in
  let inputHeight_ : option (option string) :=
    match heightAttr with
    | Some s => if truthy heightAttr then Some <$> parseLength L s
                else Some None
    | None => Some None
    end in
  let* inputHeight :=
    match inputHeight_ with
    | Some v => ret v
    | None => throw (UserAssertError "Invalid height value: %s")
    end in
  (* Calculate effective width and height. *)
  let '(width, height) :=
    if (bool_decide (inputLayout = None)
        || bool_decide (inputLayout = Some FIXED)
        || bool_decide (inputLayout = Some FIXED_HEIGHT))
       && (negb (truthy inputWidth) || negb (truthy inputHeight))
       && hasNaturalDimensions L (tagName element)
    then
      let dimensions := getNaturalDimensions L (tagName element) in
      (if truthy inputWidth || bool_decide (inputLayout = Some FIXED_HEIGHT)
       then inputWidth else Some dimensions.1,
       if truthy inputHeight then inputHeight else Some dimensions.2)
    else (inputWidth, inputHeight) in
  (* Calculate effective layout. *)
  let layout :=
    match inputLayout with
    | Some l => l
    | None =>
        if negb (truthy width) && negb (truthy height) then CONTAINER
        else if truthy height && (negb (truthy width) || is_auto width)
        then FIXED_HEIGHT
        else if truthy height && truthy width
                && (truthy sizesAttr || truthy heightsAttr)
        then RESPONSIVE
        else FIXED
    end in
  (* Verify layout attributes. *)
  (if in_layouts layout [FIXED; FIXED_HEIGHT; RESPONSIVE]
   then user_assert (truthy height) "Expected height to be available: %s"
   else skip);;
  (if in_layouts layout [FIXED_HEIGHT]
   then user_assert (negb (truthy width) || is_auto width)
          "Expected width to be either absent or equal 'auto' for fixed-height layout: %s"
   else skip);;
  (if in_layouts layout [FIXED; RESPONSIVE]
   then user_assert (truthy width && negb (is_auto width))
          "Expected width to be available and not equal to 'auto': %s"
   else skip);;
  (if in_layouts layout [RESPONSIVE]
   then user_assert
          (bool_decide (getLengthUnits L (default EmptyString width)
                        = getLengthUnits L (default EmptyString height)))
          "Length units should be the same for width and height: %s, %s"
   else user_assert (bool_decide (heightsAttr = None))
          "Unexpected 'heights' attribute for none-responsive layout");;
  (* Apply UI. *)
  classList_add_this (getLayoutClass L layout);;
  (if isLayoutSizeDefined L layout
   then classList_add_this "-amp-layout-size-defined" else skip);;
  match layout with
  | NODISPLAY => style_set "display" (Some "none")
  | FIXED => style_set "width" width;; style_set "height" height
  | FIXED_HEIGHT => style_set "height" height
  | RESPONSIVE =>
      let sizer :=
        {| sizer_display := "block";
           sizer_paddingTop :=
             RatioPercent (default EmptyString height) (default EmptyString width) |} in
      assign (λ e, set_childNodes (sizer_node :: childNodes e) e);;
      assign (set_sizerElement_ (Some sizer))
  | FILL => skip
  | CONTAINER => skip
  | FLEX_ITEM =>
      (if truthy width then style_set "width" width else skip);;
      (if truthy height then style_set "height" height else skip)
  end;;
  ret layout.

(** ** The methods of [ElementProto] *)

(** The DOM node on which [createdCallback] runs. *)
Record DomElement : Type := {
  dom_tagName : string;
  dom_attributes : gmap string string;
  dom_classList : list string;
  dom_style : gmap string string;
  dom_childNodes : list Node
}.

(** The instance variables as [createdCallback] sets them. *)
Definition created (node : DomElement) (Ctor : ImplClass) : Element :=
  {| tagName := dom_tagName node;
     attributes := dom_attributes node;
     classList :=
       classList_add "amp-notbuilt"
         (classList_add "-amp-notbuilt"
            (classList_add "-amp-element" (dom_classList node)));
     style := dom_style node;
     childNodes := dom_childNodes node;
     built_ := false;
     readyState := RS_loading;
     everAttached := false;
     layout_ := NODISPLAY;
     layoutWidth_ := -1;
     layoutCount_ := 0;
     isInViewport_ := false;
     sizerElement_ := None;
     loadingDisabled_ := None;
     loadingState_ := None;
     loadingContainer_ := None;
     loadingElement_ := None;
     implementation_ := new_Impl Ctor;
     actionQueue_ := Some [];
     isInTemplate_ := None |}.

(** [createdCallback], with [Ctor] the class it instantiates
    ([opt_implementationClass || knownElements[name]]).  It yields the
    element with its instance variables set.  When the constructor or the
    creation hook throws, the callback is abandoned before [actionQueue_]
    and [isInTemplate_] are assigned; that half-initialised object is not
    given a representation, the outcome is the throw. *)
Definition createdCallback (node : DomElement) (Ctor : ImplClass)
  : Outcome Element * list Event :=
  match constructor_hook Ctor with
  | Throw e => (Throw e, [EvHook H_constructor])
  | Ok _ =>
      match createdCallback_hook Ctor with
      | Throw e => (Throw e, [EvHook H_constructor; EvHook H_createdCallback])
      | Ok _ =>
          (Ok (created node Ctor),
           [EvHook H_constructor; EvHook H_createdCallback])
      end
  end.

Definition assertNotTemplate_ : M unit :=
  let* e := this in
  dev_assert (negb (truthyb (isInTemplate_ e)))
    "Must never be called in template".

Definition isUpgraded : M bool :=
  let* e := this in
  ret (negb (isElementStub (impl_class (implementation_ e)))).

Definition isBuilt : M bool :=
  let* e := this in ret (built_ e).

Definition dispatchCustomEvent (name : string) : M unit :=
  emit (EvDispatch name).

Definition set_impl_layout_ (v : option Layout) (i : Impl) : Impl :=
  {| impl_class := impl_class i; impl_layout_ := v;
     impl_layoutWidth_ := impl_layoutWidth_ i;
     impl_inViewport_ := impl_inViewport_ i |}.

Definition set_impl_layoutWidth_ (v : option Z) (i : Impl) : Impl :=
  {| impl_class := impl_class i; impl_layout_ := impl_layout_ i;
     impl_layoutWidth_ := v; impl_inViewport_ := impl_inViewport_ i |}.

Definition set_impl_inViewport_ (v : option bool) (i : Impl) : Impl :=
  {| impl_class := impl_class i; impl_layout_ := impl_layout_ i;
     impl_layoutWidth_ := impl_layoutWidth_ i; impl_inViewport_ := v |}.

(** [this.implementation_.f = v] *)
Definition assign_impl (f : Element -> Impl -> Impl) : M unit :=
  assign (λ e, set_implementation_ (f e (implementation_ e)) e).

(** [this.implementation_ = new newImplClass(this)] *)
Definition construct (newImplClass : ImplClass) : M unit := λ s,
  match constructor_hook newImplClass with
  | Ok _ =>
      (Ok tt, set_implementation_ (new_Impl newImplClass) s,
       [EvHook H_constructor])
  | Throw e => (Throw e, s, [EvHook H_constructor])
  end.

Definition upgrade (newImplClass : ImplClass) : M unit :=
  let* e := this in
  if truthyb (isInTemplate_ e) then skip
  else
    construct newImplClass;;
    classList_remove_this "amp-unresolved";;
    classList_remove_this "-amp-unresolved";;
    call H_createdCallback createdCallback_hook;;
    let* e := this in
    (if bool_decide (layout_ e ≠ NODISPLAY)
        && negb (isLayoutSupported_hook (impl_class (implementation_ e))
                   (layout_ e))
     then throw (LayoutNotSupported "Layout not supported: " (layout_ e))
     else skip);;
    assign_impl (λ e, set_impl_layout_ (Some (layout_ e)));;
    assign_impl (λ e, set_impl_layoutWidth_ (Some (layoutWidth_ e)));;
    let* e := this in
    if everAttached e then
      call H_firstAttachedCallback firstAttachedCallback_hook;;
      dispatchCustomEvent "amp:attached";;
      (* For a never-added resource, the build will be done automatically
         via [resources.add] on the first attach. *)
      emit EvResourcesUpgraded
    else skip.

Definition preconnect (onLayout : bool) : M unit :=
  if onLayout
  then call (H_preconnectCallback onLayout)
         (λ c, preconnectCallback_hook c onLayout)
  else emit (EvTimerDelay T_preconnect 1).

Definition updateInViewport_ (inViewport : bool) : M unit :=
  assign_impl (λ _, set_impl_inViewport_ (Some inViewport));;
  call (H_viewportCallback inViewport)
    (λ c, viewportCallback_hook c inViewport).

(** Modelled from the spec: the child queries of ./dom (section 6, DOM
    accessors): the last child that carries the attribute. *)
Definition lastChildElementByAttr (e : Element) (attr : string)
  : option Node :=
  last (filter (λ n, is_Some (node_attributes n !! attr)) (childNodes e)).

Definition getPlaceholder : M (option Node) :=
  let* e := this in ret (lastChildElementByAttr e "placeholder").

Definition createPlaceholder : M (option Node) :=
  call H_createPlaceholderCallback createPlaceholderCallback_hook.

Definition appendChild (n : Node) : M unit :=
  assign (λ e, set_childNodes (childNodes e ++ [n]) e).

Definition build : M unit :=
  assertNotTemplate_;;
  let* built := isBuilt in
  if built then skip
  else
    let* upgraded := isUpgraded in
    dev_assert upgraded "Cannot build unupgraded element";;
    try_catch
      (call H_buildCallback buildCallback_hook;;
       preconnect (* onLayout *) false;;
       assign (set_built_ true);;
       classList_remove_this "-amp-notbuilt";;
       classList_remove_this "amp-notbuilt")
      (λ e, reportError e;; throw e);;
    let* e := this in
    (if built_ e && isInViewport_ e then updateInViewport_ true else skip);;
    let* e := this in
    match actionQueue_ e with
    | Some q =>
        if Nat.ltb 0 (length q)
        then
          (* Only schedule when the queue is not empty. *)
          emit (EvTimerDelay T_dequeueActions 1)
        else assign (set_actionQueue_ None)
    | None => skip
    end;;
    let* placeholder := getPlaceholder in
    match placeholder with
    | Some _ => skip
    | None =>
        let* placeholder := createPlaceholder in
        match placeholder with
        | Some p => appendChild p
        | None => skip
        end
    end.

(** [isInternalOrServiceNode(this)] *)
Definition isInternalOrServiceNode (e : Element) : bool :=
  if isInternalElement L (tagName e) then true
  else if truthy (Some (tagName e))
          && (hasAttribute e "placeholder"
              || hasAttribute e "fallback"
              || hasAttribute e "overflow")
  then true
  else false.

Definition isLoadingEnabled_ : M bool :=
  let* e := this in
  (match loadingDisabled_ e with
   | None => assign (λ e, set_loadingDisabled_
                            (Some (hasAttribute e "noloading")) e)
   | Some _ => skip
   end);;
  let* e := this in
  if truthyb (loadingDisabled_ e)
     || negb (isLoadingAllowed L (tagName e))
     || Z.ltb (layoutWidth_ e) MIN_WIDTH_FOR_LOADING_
     || Nat.ltb 0 (layoutCount_ e)
     || isInternalOrServiceNode e
     || negb (isLayoutSizeDefined L (layout_ e))
  then ret false
  else ret true.

Definition loading_container : Node :=
  {| node_tagName := "div"; node_attributes := ∅;
     node_classList :=
       classList_add "amp-hidden"
         (classList_add "-amp-fill-content"
            (classList_add "-amp-loading-container" [])) |}.

Definition prepareLoading_ : M unit :=
  let* e := this in
  match loadingContainer_ e with
  | Some _ => skip
  | None =>
      let container := loading_container in
      let element := createLoaderElement L in
      appendChild container;;
      assign (set_loadingContainer_ (Some container));;
      assign (set_loadingElement_ (Some element))
  end.

(** [node.classList.toggle(c, force)]; an undefined [force] flips. *)
Definition node_toggle (c : string) (force : option bool) (n : Node) : Node :=
  {| node_tagName := node_tagName n;
     node_attributes := node_attributes n;
     node_classList :=
       match force with
       | Some b => classList_toggle c b (node_classList n)
       | None =>
           classList_toggle c (negb (classList_contains c (node_classList n)))
             (node_classList n)
       end |}.

(** The callback that [toggleLoading_] hands to [vsync.mutate]. *)
Definition toggleLoading_mutate (opt_cleanup : bool) : M unit :=
  let* e := this in
  let state0 := loadingState_ e in
  (* Repeat "loading enabled" check because it could have changed while
     waiting for vsync. *)
  let* state :=
    if truthyb state0
    then let* enabled := isLoadingEnabled_ in
         ret (if negb enabled then Some false else state0)
    else ret state0 in
  (if truthyb state then prepareLoading_ else skip);;
  let* e := this in
  match loadingContainer_ e with
  | None => skip
  | Some container =>
      assign (set_loadingContainer_
                (Some (node_toggle "amp-hidden"
                         (Some (negb (truthyb state))) container)));;
      let* e := this in
      match loadingElement_ e with
      | None => throw (TypeError "loadingElement_ is null")
      | Some element =>
          assign (set_loadingElement_
                    (Some (node_toggle "amp-active" state element)))
      end;;
      if negb (truthyb state) && opt_cleanup
      then
        let* e := this in
        assign (set_loadingContainer_ None);;
        assign (set_loadingElement_ None);;
        match loadingContainer_ e with
        | Some loadingContainer => emit (EvDeferRemove loadingContainer)
        | None => skip
        end
      else skip
  end.

Definition toggleLoading_ (state : bool) (opt_cleanup : bool) : M unit :=
  assertNotTemplate_;;
  assign (set_loadingState_ (Some state));;
  let* e := this in
  if negb state && negb (bool_decide (is_Some (loadingContainer_ e)))
  then skip
  else
    (* Check if loading should be shown. *)
    let* blocked :=
      if state then let* enabled := isLoadingEnabled_ in ret (negb enabled)
      else ret false in
    if blocked
    then assign (set_loadingState_ (Some false))
    else emit (EvVsyncMutate (T_toggleLoading opt_cleanup)).

Definition updateLayoutBox (layoutBox : LayoutRect) : M unit :=
  assign (set_layoutWidth_ (rect_width layoutBox));;
  let* upgraded := isUpgraded in
  (if upgraded
   then assign_impl (λ e, set_impl_layoutWidth_ (Some (layoutWidth_ e)))
   else skip);;
  call H_onLayoutMeasure onLayoutMeasure_hook;;
  let* enabled := isLoadingEnabled_ in
  if enabled then
    let* e := this in
    if isInViewport_ e then
      (* Already in viewport - start showing loading. *)
      toggleLoading_ true false
    else if Z.ltb (rect_top layoutBox) PREPARE_LOADING_THRESHOLD_
            && Z.leb 0 (rect_top layoutBox)
    then emit (EvVsyncMutate T_prepareLoading)
    else skip
  else skip.

Definition firstAttachedCallback_ : M unit :=
  let* upgraded := isUpgraded in
  (if negb upgraded
   then classList_add_this "amp-unresolved";;
        classList_add_this "-amp-unresolved"
   else skip);;
  try_catch
    (let* layout := applyLayout_ in
     assign (set_layout_ layout);;
     let* e := this in
     (if bool_decide (layout_ e ≠ NODISPLAY)
         && negb (isLayoutSupported_hook (impl_class (implementation_ e))
                    (layout_ e))
      then throw (LayoutNotSupported "Layout not supported for: " (layout_ e))
      else skip);;
     assign_impl (λ e, set_impl_layout_ (Some (layout_ e)));;
     call H_firstAttachedCallback firstAttachedCallback_hook)
    (λ e, reportError e;; throw e);;
  let* upgraded := isUpgraded in
  if negb upgraded
  then dispatchCustomEvent "amp:stubbed"
  else dispatchCustomEvent "amp:attached".

(** [attachedCallback]; [closestTemplate] is what
    [dom.closestByTag(this, 'template')] finds at the time of the call. *)
Definition attachedCallback (closestTemplate : bool) : M unit :=
  (if negb (TEMPLATE_TAG_SUPPORTED L)
   then assign (set_isInTemplate_ (Some closestTemplate))
   else skip);;
  let* e := this in
  if truthyb (isInTemplate_ e) then skip
  else
    (if negb (everAttached e)
     then assign (set_everAttached true);;
          try_catch firstAttachedCallback_ (λ e, reportError e)
     else skip);;
    emit EvResourcesAdd.

Definition detachedCallback : M unit :=
  let* e := this in
  if truthyb (isInTemplate_ e) then skip
  else
    emit EvResourcesRemove;;
    call H_detachedCallback detachedCallback_hook.

(** [layoutCallback]: the promise it returns is represented by the callback
    registered on the promise of the implementation. *)
Definition layoutCallback : M unit :=
  assertNotTemplate_;;
  let* upgraded := isUpgraded in
  let* built := isBuilt in
  dev_assert (upgraded && built)
    "Must be upgraded and built to receive viewport events";;
  dispatchCustomEvent "amp:load:start";;
  let* promise := call H_layoutCallback layoutCallback_hook in
  preconnect (* onLayout *) true;;
  classList_add_this "-amp-layout";;
  emit (EvPromiseThen match promise with
                      | Ok _ => T_layoutResolved
                      | Throw reason => T_layoutRejected reason
                      end).

Definition layoutResolved : M unit :=
  assign (set_readyState RS_complete);;
  assign (λ e, set_layoutCount_ (S (layoutCount_ e)) e);;
  toggleLoading_ false (* cleanup *) true;;
  let* e := this in
  if Nat.eqb (layoutCount_ e) 1
  then call H_firstLayoutCompleted firstLayoutCompleted_hook
  else skip.

Definition layoutRejected (reason : JsError) : M unit :=
  toggleLoading_ false (* cleanup *) true;;
  throw reason.

(** The 100ms callback of [viewportCallback]. *)
Definition viewportLoading : M unit :=
  let* e := this in
  if Nat.eqb (layoutCount_ e) 0 && isInViewport_ e
  then toggleLoading_ true false
  else skip.

Definition viewportCallback (inViewport : bool) : M unit :=
  assertNotTemplate_;;
  assign (set_isInViewport_ inViewport);;
  let* e := this in
  (if Nat.eqb (layoutCount_ e) 0 then
     if negb inViewport then toggleLoading_ false false
     else
       (* Set a minimum delay in case the element loads very fast or if it
          leaves the viewport. *)
       emit (EvTimerDelay T_viewportLoading 100)
   else skip);;
  let* upgraded := isUpgraded in
  let* built := isBuilt in
  if upgraded && built then updateInViewport_ inViewport else skip.

Definition pauseCallback : M unit :=
  assertNotTemplate_;;
  let* built := isBuilt in
  let* upgraded := isUpgraded in
  if negb built || negb upgraded then skip
  else call H_pauseCallback pauseCallback_hook.

Definition resumeCallback : M unit :=
  assertNotTemplate_;;
  let* built := isBuilt in
  let* upgraded := isUpgraded in
  if negb built || negb upgraded then skip
  else call H_resumeCallback resumeCallback_hook.

Definition unlayoutCallback : M bool :=
  assertNotTemplate_;;
  let* built := isBuilt in
  let* upgraded := isUpgraded in
  if negb built || negb upgraded then ret false
  else
    let* isReLayoutNeeded := call H_unlayoutCallback unlayoutCallback_hook in
    (if isReLayoutNeeded then assign (set_layoutCount_ 0%nat) else skip);;
    ret isReLayoutNeeded.

Definition executionAction_ (invocation : ActionInvocation) (deferred : bool)
  : M unit :=
  try_catch
    (call (H_executeAction invocation deferred)
       (λ c, executeAction_hook c invocation deferred))
    (λ e, rethrowAsync "Action execution failed:" e
            (inv_target_tagName invocation) (inv_method invocation)).

Definition enqueAction (invocation : ActionInvocation) : M unit :=
  assertNotTemplate_;;
  let* built := isBuilt in
  if negb built then
    let* e := this in
    match actionQueue_ e with
    | Some q => assign (set_actionQueue_ (Some (q ++ [invocation])))
    | None => throw (DevAssertError "Assertion failed")
    end
  else executionAction_ invocation false.

(** [Array.prototype.forEach] *)
Fixpoint forEach {A} (l : list A) (f : A -> M unit) : M unit :=
  match l with
  | [] => skip
  | x :: r => f x;; forEach r f
  end.

Definition dequeueActions_ : M unit :=
  let* e := this in
  match actionQueue_ e with
  | None => skip
  | Some actionQueue =>
      assign (set_actionQueue_ None);;
      forEach actionQueue (λ invocation, executionAction_ invocation true)
  end.

(** The body of each closure. *)
Definition runTask (t : Task) : M unit :=
  match t with
  | T_dequeueActions => dequeueActions_
  | T_preconnect =>
      call (H_preconnectCallback false) (λ c, preconnectCallback_hook c false)
  | T_viewportLoading => viewportLoading
  | T_prepareLoading => prepareLoading_
  | T_toggleLoading opt_cleanup => toggleLoading_mutate opt_cleanup
  | T_layoutResolved => layoutResolved
  | T_layoutRejected reason => layoutRejected reason
  end.

End Runtime.

(** ** The registry *)

(** The module state: [knownElements], [stubbedElements] (each stub by the
    handle of its [element]) and the elements themselves, by handle. *)
Record World : Type := {
  knownElements : gmap string ImplClass;
  stubbedElements : list nat;
  elements : list Element
}.

Inductive WorldEvent : Type :=
| OnElement (handle : nat) (ev : Event)
| Global (ev : Event).

Definition set_knownElements (v : gmap string ImplClass) (w : World) : World :=
  {| knownElements := v; stubbedElements := stubbedElements w;
     elements := elements w |}.

Definition set_elements (v : list Element) (w : World) : World :=
  {| knownElements := knownElements w; stubbedElements := stubbedElements w;
     elements := v |}.

Definition registerElement (name : string) (implementationClass : ImplClass)
  (w : World) : Outcome unit * World * list WorldEvent :=
  (Ok tt, set_knownElements (<[name := implementationClass]> (knownElements w)) w,
   [Global (EvDocumentRegisterElement name)]).

(** One turn of the loop of [upgradeOrRegisterElement] on the stub whose
    element has handle [h]. *)
Definition upgradeStub (name : string) (toClass : ImplClass) (h : nat)
  (acc : World * list WorldEvent) : World * list WorldEvent :=
  let '(w, t) := acc in
  match elements w !! h with
  | None => (w, t)
  | Some element =>
      if bool_decide (toLowerCase (tagName element) = name) then
        match upgrade toClass element with
        | (Ok _, element', evs) =>
            (set_elements (<[h := element']> (elements w)) w,
             t ++ map (OnElement h) evs)
        | (Throw e, element', evs) =>
            (set_elements (<[h := element']> (elements w)) w,
             t ++ map (OnElement h) evs ++ [Global (EvReportError e)])
        end
      else (w, t)
  end.

(** [upgradeOrRegisterElement].  The loop runs over [stubbedElements] as it
    stands on entry: constructing [toClass] does not add a stub, which is
    the case for every class but [ElementStub] itself. *)
Definition upgradeOrRegisterElement (name : string) (toClass : ImplClass)
  (w : World) : Outcome unit * World * list WorldEvent :=
  match knownElements w !! name with
  | None => registerElement name toClass w
  | Some known =>
      if isElementStub known then
        let w1 := set_knownElements (<[name := toClass]> (knownElements w)) w in
        let '(w2, t) :=
          foldl (λ acc h, upgradeStub name toClass h acc) (w1, [])
            (stubbedElements w1) in
        (Ok tt, w2, t)
      else
        (Throw (UserAssertError
                  "%s is already registered. The script tag for %s is likely included twice in the page."),
         w, [])
  end.

(** ** Sample collaborators and classes

    Concrete values on which the theorems below are instantiated. *)

Definition is_digit (a : ascii) : bool :=
  let n := nat_of_ascii a in (Nat.leb 48 n && Nat.leb n 57)%bool.

Fixpoint strip_digits (s : string) : string :=
  match s with
  | String a r => if is_digit a then strip_digits r else s
  | EmptyString => EmptyString
  end.

Definition starts_with_digit (s : string) : bool :=
  match s with
  | String a _ => is_digit a
  | EmptyString => false
  end.

(** Modelled from the spec: an instance of the helpers of ./layout and
    ./loader (section 4.1 and the loading sub-policy of section 4.3), with
    lengths read as digits followed by an optional [px], one tag with
    natural dimensions and one tag that allows the loading indicator. *)
Definition sample_collaborators : Collaborators :=
  {| parseLayout := λ s,
       if bool_decide (s = "nodisplay") then Some NODISPLAY
       else if bool_decide (s = "fixed") then Some FIXED
       else if bool_decide (s = "fixed-height") then Some FIXED_HEIGHT
       else if bool_decide (s = "responsive") then Some RESPONSIVE
       else if bool_decide (s = "container") then Some CONTAINER
       else if bool_decide (s = "fill") then Some FILL
       else if bool_decide (s = "flex-item") then Some FLEX_ITEM
       else None;
     parseLength := λ s,
       if starts_with_digit s then
         if bool_decide (strip_digits s = EmptyString) then Some (s +:+ "px")
         else if bool_decide (strip_digits s = "px") then Some s
         else None
       else None;
     getLengthUnits := strip_digits;
     hasNaturalDimensions := λ tag, bool_decide (tag = "AMP-PIXEL");
     getNaturalDimensions := λ _, ("1px", "1px");
     getLayoutClass := λ l,
       match l with
       | NODISPLAY => "-amp-layout-nodisplay"
       | FIXED => "-amp-layout-fixed"
       | FIXED_HEIGHT => "-amp-layout-fixed-height"
       | RESPONSIVE => "-amp-layout-responsive"
       | CONTAINER => "-amp-layout-container"
       | FILL => "-amp-layout-fill"
       | FLEX_ITEM => "-amp-layout-flex-item"
       end;
     isLayoutSizeDefined := λ l,
       in_layouts l [FIXED; FIXED_HEIGHT; RESPONSIVE; FILL; FLEX_ITEM];
     isLoadingAllowed := λ tag, bool_decide (tag = "AMP-IMG");
     isInternalElement := λ tag,
       match toLowerCase tag with
       | String "i" (String "-" _) => true
       | _ => false
       end;
     createLoaderElement :=
       {| node_tagName := "div"; node_attributes := ∅;
          node_classList := ["-amp-loader"] |};
     TEMPLATE_TAG_SUPPORTED := true |}.

(** A class given by the hooks that matter below; the other hooks return
    normally. *)
Definition make_class (stub : bool) (supports : Layout -> bool)
  (attach build : Outcome unit) (unlayout : bool)
  (exec : ActionInvocation -> bool -> Outcome unit) : ImplClass :=
  {| isElementStub := stub;
     constructor_hook := Ok tt;
     createdCallback_hook := Ok tt;
     isLayoutSupported_hook := supports;
     firstAttachedCallback_hook := attach;
     buildCallback_hook := build;
     preconnectCallback_hook := λ _, Ok tt;
     onLayoutMeasure_hook := Ok tt;
     detachedCallback_hook := Ok tt;
     layoutCallback_hook := Ok (Ok tt);
     firstLayoutCompleted_hook := Ok tt;
     viewportCallback_hook := λ _, Ok tt;
     pauseCallback_hook := Ok tt;
     resumeCallback_hook := Ok tt;
     unlayoutCallback_hook := Ok unlayout;
     createPlaceholderCallback_hook := Ok None;
     executeAction_hook := exec |}.

(** A class every hook of which returns normally. *)
Definition sample_class : ImplClass :=
  make_class false (λ _, true) (Ok tt) (Ok tt) true (λ _ _, Ok tt).

(** The stub: every layout is supported and every hook returns. *)
Definition sample_stub : ImplClass :=
  make_class true (λ _, true) (Ok tt) (Ok tt) false (λ _ _, Ok tt).

(** A class whose build and first-attach hooks throw, and that supports
    only [NODISPLAY] (the default of a base element). *)
Definition failing_class : ImplClass :=
  make_class false (λ l, bool_decide (l = NODISPLAY))
    (Throw (HookError 1)) (Throw (HookError 2)) false (λ _ _, Ok tt).

(** A class that supports every layout and whose first-attach hook throws,
    as does the action [fail]. *)
Definition flaky_class : ImplClass :=
  make_class false (λ _, true) (Throw (HookError 1)) (Ok tt) false
    (λ i _, if bool_decide (inv_method i = "fail")
            then Throw (HookError 3) else Ok tt).

Definition sample_dom (tag : string) (attrs : list (string * string))
  : DomElement :=
  {| dom_tagName := tag; dom_attributes := list_to_map attrs;
     dom_classList := []; dom_style := ∅; dom_childNodes := [] |}.

(** ** Vocabulary of the statements *)

(** [this.isInTemplate_] is truthy. *)
Definition in_template (e : Element) : bool := truthyb (isInTemplate_ e).

(** [this.isUpgraded()] *)
Definition upgraded (e : Element) : bool :=
  negb (isElementStub (impl_class (implementation_ e))).

#[global] Instance Node_eq_dec : EqDecision Node.
Proof. solve_decision. Defined.

#[global] Instance Hook_eq_dec : EqDecision Hook.
Proof. solve_decision. Defined.

#[global] Instance Event_eq_dec : EqDecision Event.
Proof. solve_decision. Defined.

(** Number of occurrences of an event in a trace. *)
Definition occurrences (ev : Event) (t : list Event) : nat :=
  length (filter (λ x, x = ev) t).

Definition returns {A} (o : Outcome A) : bool :=
  match o with
  | Ok _ => true
  | Throw _ => false
  end.

(** [upgrade] gets as far as its test of [everAttached]: the element is not
    in a template, the constructor and the creation hook of the new class
    return, and the layout of the element is [NODISPLAY] or supported. *)
Definition upgrade_reaches_attach (c : ImplClass) (e : Element) : bool :=
  negb (in_template e)
  && returns (constructor_hook c)
  && returns (createdCallback_hook c)
  && (bool_decide (layout_ e = NODISPLAY) || isLayoutSupported_hook c (layout_ e)).

(** What one [executionAction_] adds to the trace. *)
Definition action_events (c : ImplClass) (deferred : bool)
  (invocation : ActionInvocation) : list Event :=
  EvHook (H_executeAction invocation deferred)
  :: match executeAction_hook c invocation deferred with
     | Ok _ => []
     | Throw e =>
         [EvRethrowAsync "Action execution failed:" e
            (inv_target_tagName invocation) (inv_method invocation)]
     end.

(** The invocations handed to [executeAction], in the order of the calls. *)
Definition executed (t : list Event) : list ActionInvocation :=
  omap (λ ev, match ev with
              | EvHook (H_executeAction i _) => Some i
              | _ => None
              end) t.

(** A stubbed element that was attached with width and height: its layout
    is [FIXED]. *)
Definition attached_stub : Element :=
  state_of (attachedCallback sample_collaborators false
              (created (sample_dom "AMP-IMG" [("width", "300"); ("height", "200")])
                 sample_stub)).

Definition action (method : string) : ActionInvocation :=
  {| inv_target_tagName := "AMP-IMG"; inv_method := method;
     inv_args := EmptyString |}.

(** A fresh element of [failing_class] and of [sample_class]. *)
Definition fresh_failing : Element :=
  created (sample_dom "AMP-IMG" [("width", "300"); ("height", "200")])
    failing_class.

Definition fresh_sample : Element :=
  created (sample_dom "AMP-IMG" [("width", "300"); ("height", "200")])
    sample_class.

Definition fresh_flaky : Element :=
  created (sample_dom "AMP-IMG" [("width", "300"); ("height", "200")])
    flaky_class.

(** The element on which [attachedCallback] goes on after its first
    statement. *)
Definition attach_entry (L : Collaborators) (closestTemplate : bool)
  (e : Element) : Element :=
  if TEMPLATE_TAG_SUPPORTED L then e
  else set_isInTemplate_ (Some closestTemplate) e.

(** The element as [firstAttachedCallback_] hands it to [applyLayout_]: an
    element that is not upgraded has received the two unresolved classes. *)
Definition unresolved_marked (e : Element) : Element :=
  if upgraded e then e
  else set_classList
         (classList_add "-amp-unresolved"
            (classList_add "amp-unresolved" (classList e)))
         (set_classList (classList_add "amp-unresolved" (classList e)) e).

(** [parseLength] reads "300" and "200" as lengths [w] and [h]: both are
    non-empty strings and [w] is not "auto". *)
Definition reads_lengths (L : Collaborators) (w h : string) : Prop :=
  parseLength L "300" = Some w
  ∧ parseLength L "200" = Some h
  ∧ truthy (Some w) = true
  ∧ truthy (Some h) = true
  ∧ is_auto (Some w) = false.

Definition pixel_height_only : Element :=
  created (sample_dom "AMP-PIXEL" [("height", "200")]) sample_class.

Definition img_height_only : Element :=
  created (sample_dom "AMP-IMG" [("height", "200")]) sample_class.

Definition img_responsive : Element :=
  created (sample_dom "AMP-IMG"
             [("width", "300"); ("height", "200");
              ("sizes", "(min-width:300px) 100vw")]) sample_class.

Definition img_bare : Element :=
  created (sample_dom "AMP-IMG" []) sample_class.

(** The loading indicator is on: the loading container is there and does
    not carry [amp-hidden]. *)
Definition loading_shown (e : Element) : bool :=
  match loadingContainer_ e with
  | Some container =>
      negb (classList_contains "amp-hidden" (node_classList container))
  | None => false
  end.

(** The operations that bear on the loading indicator. *)
Inductive LoadingOp : Type :=
| L_viewportCallback (inViewport : bool)
| L_updateLayoutBox (layoutBox : LayoutRect)
| L_toggleLoading (state opt_cleanup : bool)
| L_runTask (t : Task).

Definition is_loading_task (t : Task) : bool :=
  match t with
  | T_viewportLoading | T_prepareLoading | T_toggleLoading _ => true
  | _ => false
  end.

Definition run_loading_op (L : Collaborators) (op : LoadingOp) : M unit :=
  match op with
  | L_viewportCallback inViewport => viewportCallback L inViewport
  | L_updateLayoutBox layoutBox => updateLayoutBox L layoutBox
  | L_toggleLoading state opt_cleanup => toggleLoading_ L state opt_cleanup
  | L_runTask t => runTask L t
  end.

Definition loading_op_ok (op : LoadingOp) : bool :=
  match op with
  | L_runTask t => is_loading_task t
  | _ => true
  end.

(** The element as [isLoadingEnabled_] leaves it: the presence of the
    [noloading] attribute is cached on first use. *)
Definition noloading_cached (e : Element) : Element :=
  match loadingDisabled_ e with
  | None => set_loadingDisabled_ (Some (hasAttribute e "noloading")) e
  | Some _ => e
  end.

Definition laid_out_img : Element :=
  set_isInViewport_ true
    (set_layoutWidth_ 300
       (set_layout_ FIXED (set_layoutCount_ 1%nat (set_built_ true fresh_sample)))).

(** ** Reasoning about runs

    [sat m s Q]: the run of [m] on [s] ends in an outcome, an element and a
    trace that satisfy [Q]. *)
Definition sat {A} (m : M A) (s : Element)
  (Q : Outcome A -> Element -> list Event -> Prop) : Prop :=
  Q (outcome_of (m s)) (state_of (m s)) (events_of (m s)).

(** A relation between the element before, the element after and the trace
    in between, that holds of doing nothing and composes. *)
Class Closed (T : Element -> Element -> list Event -> Prop) : Prop := {
  closed_refl : ∀ s, T s s [];
  closed_trans : ∀ s s1 s2 t1 t2,
    T s s1 t1 -> T s1 s2 t2 -> T s s2 (t1 ++ t2)
}.

(** Every run of [m] is within [T]. *)
Definition respects (T : Element -> Element -> list Event -> Prop)
  {A} (m : M A) : Prop :=
  ∀ s, T s (state_of (m s)) (events_of (m s)).

(** The indicator is not turned on and the layout count is kept. *)
Definition keeps_loading_off (s s' : Element) (t : list Event) : Prop :=
  layoutCount_ s' = layoutCount_ s
  ∧ (loading_shown s = false -> loading_shown s' = false).

(** The stub's element carries the tag that is being registered. *)
Definition tag_matches (name : string) (element : Element) : bool :=
  bool_decide (toLowerCase (tagName element) = name).

(** What the registry loop adds to the trace for the stub of handle [h],
    its element being looked up in [els]: the effects of the upgrade and,
    when the upgrade throws, the report of the error. *)
Definition stub_events (name : string) (toClass : ImplClass)
  (els : list Element) (h : nat) : list WorldEvent :=
  match els !! h with
  | Some element =>
      if tag_matches name element then
        map (OnElement h) (events_of (upgrade toClass element))
        ++ match outcome_of (upgrade toClass element) with
           | Ok _ => []
           | Throw e => [Global (EvReportError e)]
           end
      else []
  | None => []
  end.

(** The element as the registry loop leaves it. *)
Definition stub_upgraded (name : string) (toClass : ImplClass)
  (element : Element) : Element :=
  if tag_matches name element then state_of (upgrade toClass element)
  else element.

(** A world with two stubbed [amp-img] elements, the first of which is
    attached with layout FIXED, and one stubbed [amp-ad]. *)
Definition sample_world (known : ImplClass) : World :=
  {| knownElements := {[ "amp-img" := known; "amp-ad" := sample_stub ]};
     stubbedElements := [0; 1; 2]%nat;
     elements :=
       [ attached_stub;
         created (sample_dom "AMP-AD" []) sample_stub;
         created (sample_dom "AMP-IMG" []) sample_stub ] |}.

(** The world a run of the registry ends in. *)
Definition state_of_world {A} (r : Outcome A * World * list WorldEvent)
  : World := r.1.2.

Definition outcome_of_world {A} (r : Outcome A * World * list WorldEvent)
  : Outcome A := r.1.1.

(** ** The element over time

    The element together with the callbacks that are waiting: those handed
    to the timer, to the mutation scheduler or to the promise of the
    layout. *)
Record Sys : Type := {
  elem : Element;
  pending : list Task
}.

(** The calls that the page, the resources manager and the action service
    make on the element.  The methods left out ([applySizesAndMediaQuery],
    [changeSize], [togglePlaceholder], [toggleFallback], [overflowCallback]
    and the getters) write neither [built_] nor [actionQueue_] and hand
    nothing to the timer. *)
Inductive Op : Type :=
| Op_upgrade (newImplClass : ImplClass)
| Op_build
| Op_updateLayoutBox (layoutBox : LayoutRect)
| Op_attachedCallback (closestTemplate : bool)
| Op_detachedCallback
| Op_layoutCallback
| Op_viewportCallback (inViewport : bool)
| Op_pauseCallback
| Op_resumeCallback
| Op_unlayoutCallback
| Op_enqueAction (invocation : ActionInvocation).

Definition run_op (L : Collaborators) (op : Op) : M unit :=
  match op with
  | Op_upgrade newImplClass => upgrade newImplClass
  | Op_build => build
  | Op_updateLayoutBox layoutBox => updateLayoutBox L layoutBox
  | Op_attachedCallback closestTemplate => attachedCallback L closestTemplate
  | Op_detachedCallback => detachedCallback
  | Op_layoutCallback => layoutCallback
  | Op_viewportCallback inViewport => viewportCallback L inViewport
  | Op_pauseCallback => pauseCallback
  | Op_resumeCallback => resumeCallback
  | Op_unlayoutCallback => let* _ := unlayoutCallback in skip
  | Op_enqueAction invocation => enqueAction invocation
  end.

(** The callbacks that a trace leaves waiting. *)
Definition scheduled (t : list Event) : list Task :=
  omap (λ ev, match ev with
              | EvTimerDelay task _ => Some task
              | EvVsyncMutate task => Some task
              | EvPromiseThen task => Some task
              | _ => None
              end) t.

(** One step: a call from outside, or one waiting callback that fires. *)
Inductive step (L : Collaborators) : Sys -> list Event -> Sys -> Prop :=
| step_call (op : Op) (s : Sys) :
    step L s (events_of (run_op L op (elem s)))
      {| elem := state_of (run_op L op (elem s));
         pending := pending s ++ scheduled (events_of (run_op L op (elem s))) |}
| step_fire (task : Task) (before after : list Task) (s : Sys) :
    pending s = before ++ task :: after ->
    step L s (events_of (runTask L task (elem s)))
      {| elem := state_of (runTask L task (elem s));
         pending := before ++ after
                    ++ scheduled (events_of (runTask L task (elem s))) |}.

(** The states of an element whose [createdCallback] returned. *)
Inductive reachable (L : Collaborators) : Sys -> Prop :=
| reachable_created (node : DomElement) (Ctor : ImplClass) (e : Element)
    (t : list Event) :
    createdCallback node Ctor = (Ok e, t) ->
    reachable L {| elem := e; pending := [] |}
| reachable_step (s s' : Sys) (t : list Event) :
    reachable L s -> step L s t s' -> reachable L s'.

(** No drain of the action queue is left waiting by the trace. *)
Definition drain_free (t : list Event) : bool :=
  forallb (λ task, negb (bool_decide (task = T_dequeueActions))) (scheduled t).

(** How the action queue evolves: it is kept, possibly extended at its end;
    or it is nulled on a built element, and then it was empty or the trace
    is the execution of its invocations, in order. *)
Definition queue_transition (e e' : Element) (t : list Event) : Prop :=
  match actionQueue_ e with
  | Some q =>
      (∃ l, actionQueue_ e' = Some (q ++ l))
      ∨ (actionQueue_ e' = None ∧ built_ e' = true
         ∧ (q = [] ∨ executed t = q))
  | None => actionQueue_ e' = None
  end.

(** What every step guarantees: an element stays built, a drain is only
    scheduled on a built element, and the queue evolves as above. *)
Definition queue_step (e e' : Element) (t : list Event) : Prop :=
  (built_ e = true -> built_ e' = true)
  ∧ (drain_free t = false -> built_ e' = true)
  ∧ queue_transition e e' t.

(** Neither the built flag nor the queue is touched, and no drain is
    scheduled. *)
Definition queue_frame (e e' : Element) (t : list Event) : Prop :=
  built_ e' = built_ e
  ∧ actionQueue_ e' = actionQueue_ e
  ∧ drain_free t = true.

(** The invariant: an unbuilt element has a queue, and a drain is only
    waiting on a built element. *)
Definition queue_invariant (s : Sys) : Prop :=
  (built_ (elem s) = false -> is_Some (actionQueue_ (elem s)))
  ∧ (T_dequeueActions ∈ pending s -> built_ (elem s) = true).

(** A fresh element on which one action was enqueued. *)
Definition sys_created : Sys := {| elem := fresh_flaky; pending := [] |}.

Definition sys_enqueued : Sys :=
  {| elem := state_of (run_op sample_collaborators
                         (Op_enqueAction (action "a")) fresh_flaky);
     pending := [] ++ scheduled
                        (events_of (run_op sample_collaborators
                                      (Op_enqueAction (action "a"))
                                      fresh_flaky)) |}.

(** ** The rest of the registry *)

(** The part of [win] that the registry reads and writes:
    [win.ampExtendedElements] ([None]: not yet created; a value [None]:
    null), the values of the [custom-element] attribute of the scripts that
    [querySelectorAll('[custom-element]')] finds, in document order, and
    whether [win.document.body] is there. *)
Record Window : Type := {
  ampExtendedElements : option (gmap string (option bool));
  customElementScripts : list string;
  hasBody : bool
}.

Definition set_ampExtendedElements (v : option (gmap string (option bool)))
  (win : Window) : Window :=
  {| ampExtendedElements := v;
     customElementScripts := customElementScripts win;
     hasBody := hasBody win |}.

(** One turn of the loop of [stubElements], on the script named [name]. *)
Definition stubScript (ElementStub : ImplClass)
  (acc : World * gmap string (option bool) * list WorldEvent) (name : string)
  : World * gmap string (option bool) * list WorldEvent :=
  let '(w, extended, t) := acc in
  let extended := <[name := Some true]> extended in
  match knownElements w !! name with
  | Some _ => (w, extended, t)
  | None =>
      match registerElement name ElementStub w with
      | (_, w', t') => (w', extended, t ++ t')
      end
  end.

(** [stubElements], with [ElementStub] the class of ./element-stub.  The
    last component tells whether [dom.waitForBody] was asked to repeat the
    stubbing. *)
Definition stubElements (ElementStub : ImplClass) (w : World) (win : Window)
  : World * Window * list WorldEvent * bool :=
  let '(w1, extended1, t1) :=
    match ampExtendedElements win with
    | Some extended => (w, extended, [])
    | None =>
        (* If amp-ad and amp-embed haven't been registered, manually
           register them with ElementStub. *)
        match knownElements w !! "amp-ad", knownElements w !! "amp-embed" with
        | None, None =>
            match registerElement "amp-ad" ElementStub w with
            | (_, wa, ta) =>
                match registerElement "amp-embed" ElementStub wa with
                | (_, wb, tb) =>
                    (wb,
                     <["amp-embed" := Some true]>
                       (<["amp-ad" := Some true]> ∅),
                     ta ++ tb)
                end
            end
        | _, _ => (w, ∅, [])
        end
    end in
  let '(w2, extended2, t2) :=
    foldl (stubScript ElementStub) (w1, extended1, t1)
      (customElementScripts win) in
  (w2, set_ampExtendedElements (Some extended2) win, t2, negb (hasBody win)).



Definition markElementScheduledForTesting (elementName : string)
  (win : Window) : Window :=
  set_ampExtendedElements
    (Some (<[elementName := Some true]>
             (default ∅ (ampExtendedElements win)))) win.



(** The components of what [stubElements] yields. *)
Definition stubbed_world (r : World * Window * list WorldEvent * bool)
  : World := r.1.1.1.
Definition stubbed_window (r : World * Window * list WorldEvent * bool)
  : Window := r.1.1.2.
Definition stubbed_events (r : World * Window * list WorldEvent * bool)
  : list WorldEvent := r.1.2.



(** ** More vocabulary *)

(** The last part of [applyLayout_] ("Apply UI"), as a computation of its
    own: by then the layout and the effective width and height are fixed. *)
Definition applyLayoutUi (L : Collaborators) (layout : Layout)
  (width height : option string) : M Layout :=
  classList_add_this (getLayoutClass L layout);;
  (if isLayoutSizeDefined L layout
   then classList_add_this "-amp-layout-size-defined" else skip);;
  match layout with
  | NODISPLAY => style_set "display" (Some "none")
  | FIXED => style_set "width" width;; style_set "height" height
  | FIXED_HEIGHT => style_set "height" height
  | RESPONSIVE =>
      let sizer :=
        {| sizer_display := "block";
           sizer_paddingTop :=
             RatioPercent (default EmptyString height)
               (default EmptyString width) |} in
      assign (λ e, set_childNodes (sizer_node :: childNodes e) e);;
      assign (set_sizerElement_ (Some sizer))
  | FILL => skip
  | CONTAINER => skip
  | FLEX_ITEM =>
      (if truthy width then style_set "width" width else skip);;
      (if truthy height then style_set "height" height else skip)
  end;;
  ret layout.

(** What "Apply UI" leaves on the element [s'], from [s]. *)
Definition layout_applied (L : Collaborators) (layout : Layout)
  (width height : option string) (s s' : Element) : Prop :=
  classList_contains (getLayoutClass L layout) (classList s') = true
  ∧ (isLayoutSizeDefined L layout = true ->
     classList_contains "-amp-layout-size-defined" (classList s') = true)
  ∧ attributes s' = attributes s
  ∧ implementation_ s' = implementation_ s
  ∧ match layout with
    | NODISPLAY =>
        style s' = <["display" := "none"]> (style s)
        ∧ childNodes s' = childNodes s
    | FIXED =>
        style s'
        = (match height with
           | Some h => <["height" := h]>
           | None => delete "height"
           end)
            ((match width with
              | Some w => <["width" := w]>
              | None => delete "width"
              end) (style s))
        ∧ childNodes s' = childNodes s
    | FIXED_HEIGHT =>
        style s'
        = (match height with
           | Some h => <["height" := h]>
           | None => delete "height"
           end) (style s)
        ∧ childNodes s' = childNodes s
    | RESPONSIVE =>
        style s' = style s
        ∧ childNodes s' = sizer_node :: childNodes s
        ∧ sizerElement_ s'
          = Some {| sizer_display := "block";
                    sizer_paddingTop :=
                      RatioPercent (default EmptyString height)
                        (default EmptyString width) |}
    | FILL | CONTAINER =>
        style s' = style s ∧ childNodes s' = childNodes s
    | FLEX_ITEM =>
        style s'
        = (match height with
           | Some h => if truthy height then <["height" := h]> else id
           | None => id
           end)
            ((match width with
              | Some w => if truthy width then <["width" := w]> else id
              | None => id
              end) (style s))
        ∧ childNodes s' = childNodes s
    end.

(** What a run of [applyLayout_] that returns [layout] establishes, [e]
    being the element before and [s'] the element after: the layout is the
    explicit one when there is one; [heights] only goes with RESPONSIVE;
    the effective width and height pass the checks of the layout; and the
    UI is applied with them. *)
Definition layout_resolved (L : Collaborators) (e : Element)
  (layout : Layout) (s' : Element) : Prop :=
  (∀ s explicit, getAttribute e "layout" = Some s ->
                 truthy (Some s) = true ->
                 parseLayout L s = Some explicit -> layout = explicit)
  ∧ (getAttribute e "heights" ≠ None -> in_layouts layout [RESPONSIVE] = true)
  ∧ ∃ width height,
      layout_applied L layout width height e s'
      ∧ (in_layouts layout [FIXED; FIXED_HEIGHT; RESPONSIVE] = true ->
         truthy height = true)
      ∧ (in_layouts layout [FIXED_HEIGHT] = true ->
         negb (truthy width) || is_auto width = true)
      ∧ (in_layouts layout [FIXED; RESPONSIVE] = true ->
         truthy width && negb (is_auto width) = true)
      ∧ (in_layouts layout [RESPONSIVE] = true ->
         getLengthUnits L (default EmptyString width)
         = getLengthUnits L (default EmptyString height)).

(** ** Layout resolution: frame and sample elements *)

(** [s'] is [s] but for its class list, its style, its children and its
    sizer. *)
Definition only_ui_changed (s s' : Element) : Prop :=
  s' = set_sizerElement_ (sizerElement_ s')
         (set_childNodes (childNodes s')
            (set_style (style s') (set_classList (classList s') s))).

Definition ui_frame (s s' : Element) (t : list Event) : Prop :=
  t = [] ∧ only_ui_changed s s'.

(** Modelled from the spec: the helpers of ./layout as in
    [sample_collaborators], but for [parseLength], which here accepts every
    string that starts with a digit as it is, whatever its unit. *)
Definition unit_collaborators : Collaborators :=
  {| parseLayout := parseLayout sample_collaborators;
     parseLength := λ s, if starts_with_digit s then Some s else None;
     getLengthUnits := getLengthUnits sample_collaborators;
     hasNaturalDimensions := hasNaturalDimensions sample_collaborators;
     getNaturalDimensions := getNaturalDimensions sample_collaborators;
     getLayoutClass := getLayoutClass sample_collaborators;
     isLayoutSizeDefined := isLayoutSizeDefined sample_collaborators;
     isLoadingAllowed := isLoadingAllowed sample_collaborators;
     isInternalElement := isInternalElement sample_collaborators;
     createLoaderElement := createLoaderElement sample_collaborators;
     TEMPLATE_TAG_SUPPORTED := TEMPLATE_TAG_SUPPORTED sample_collaborators |}.

Definition img_fixed_no_height : Element :=
  created (sample_dom "AMP-IMG" [("layout", "fixed"); ("width", "300")])
    sample_class.

Definition img_unknown_layout : Element :=
  created (sample_dom "AMP-IMG" [("layout", "floating")]) sample_class.

Definition img_heights : Element :=
  created (sample_dom "AMP-IMG"
             [("width", "300"); ("height", "200");
              ("heights", "(min-width:300px) 50%")]) sample_class.

Definition img_explicit_responsive (w h : string) : Element :=
  created (sample_dom "AMP-IMG"
             [("layout", "responsive"); ("width", w); ("height", h)])
    sample_class.

(** ** Frames of the lifecycle methods *)

(** The run keeps the value that [f] reads off the element. *)
Definition keeps {B} (f : Element -> B) (s s' : Element) (t : list Event)
  : Prop :=
  f s' = f s.

(** A built element of [sample_class] whose layout has completed three
    times. *)
Definition laid_out_built : Element :=
  set_layoutCount_ 3%nat (set_built_ true fresh_sample).

(** A class whose viewport hook throws, every other hook returning. *)
Definition viewport_failing_class : ImplClass :=
  {| isElementStub := false;
     constructor_hook := Ok tt;
     createdCallback_hook := Ok tt;
     isLayoutSupported_hook := λ _, true;
     firstAttachedCallback_hook := Ok tt;
     buildCallback_hook := Ok tt;
     preconnectCallback_hook := λ _, Ok tt;
     onLayoutMeasure_hook := Ok tt;
     detachedCallback_hook := Ok tt;
     layoutCallback_hook := Ok (Ok tt);
     firstLayoutCompleted_hook := Ok tt;
     viewportCallback_hook := λ _, Throw (HookError 4);
     pauseCallback_hook := Ok tt;
     resumeCallback_hook := Ok tt;
     unlayoutCallback_hook := Ok false;
     createPlaceholderCallback_hook := Ok None;
     executeAction_hook := λ _ _, Ok tt |}.

(** An unbuilt element of that class that is in the viewport and has one
    action waiting. *)
Definition in_viewport_unbuilt : Element :=
  set_actionQueue_ (Some [action "play"])
    (set_isInViewport_ true
       (created (sample_dom "AMP-IMG" [("width", "300"); ("height", "200")])
          viewport_failing_class)).

(** The six conditions of [isLoadingEnabled_], read off the element: the
    indicator is not disabled by [noloading], the tag allows it, the
    element is wide enough, no layout has completed, the element is no
    internal or service node, and its layout is size-defined. *)
Definition loading_allowed (L : Collaborators) (e : Element) : bool :=
  negb (truthyb (loadingDisabled_ (noloading_cached e))
        || negb (isLoadingAllowed L (tagName e))
        || Z.ltb (layoutWidth_ e) MIN_WIDTH_FOR_LOADING_
        || Nat.ltb 0 (layoutCount_ e)
        || isInternalOrServiceNode L e
        || negb (isLayoutSizeDefined L (layout_ e))).

(** An attached, measured image in the viewport, before any layout. *)
Definition measured_img : Element :=
  set_isInViewport_ true
    (set_layoutWidth_ 300 (set_layout_ FIXED (set_built_ true fresh_sample))).

(** The classes of the element are kept (others may be added). *)
Definition classes_kept (s s' : Element) (t : list Event) : Prop :=
  ∀ c, c ∈ classList s -> c ∈ classList s'.

(** A stub with a fixed layout that [failing_class] does not support. *)
Definition fixed_stub : Element :=
  set_layout_ FIXED
    (created (sample_dom "AMP-IMG" [("width", "300"); ("height", "200")])
       sample_stub).

(** A stubbed element that has not been attached yet. *)
Definition fresh_stub : Element :=
  created (sample_dom "AMP-IMG" [("width", "300"); ("height", "200")])
    sample_stub.

(** An image of [sample_class] with a fixed layout, not yet measured. *)
Definition attached_img : Element := set_layout_ FIXED fresh_sample.

(** ** The layout count over the life of the element *)

(** No fulfilment callback of a layout is left waiting by the trace. *)
Definition resolve_free (t : list Event) : bool :=
  forallb (λ task, negb (bool_decide (task = T_layoutResolved))) (scheduled t).

(** Neither the layout count nor the ready state is written, and no
    fulfilment callback is scheduled. *)
Definition layout_frame (e e' : Element) (t : list Event) : Prop :=
  layoutCount_ e' = layoutCount_ e
  ∧ readyState e' = readyState e
  ∧ resolve_free t = true.

(** The invariant: an element that counts a completed layout is complete
    and built, and a fulfilment callback is only waiting on a built
    element. *)
Definition layout_invariant (s : Sys) : Prop :=
  ((0 < layoutCount_ (elem s))%nat ->
   readyState (elem s) = RS_complete ∧ built_ (elem s) = true)
  ∧ (T_layoutResolved ∈ pending s -> built_ (elem s) = true).

(** The state after a call and after the firing of a waiting callback. *)
Definition after_call (L : Collaborators) (op : Op) (s : Sys) : Sys :=
  {| elem := state_of (run_op L op (elem s));
     pending := pending s ++ scheduled (events_of (run_op L op (elem s))) |}.

Definition after_fire (L : Collaborators) (task : Task)
  (before after : list Task) (s : Sys) : Sys :=
  {| elem := state_of (runTask L task (elem s));
     pending := before ++ after
                ++ scheduled (events_of (runTask L task (elem s))) |}.

(** A fresh element of [sample_class] that is built, then laid out, the
    promise of the layout being fulfilled before the early preconnect
    fires. *)
Definition sys_fresh : Sys := {| elem := fresh_sample; pending := [] |}.

Definition sys_laying_out : Sys :=
  after_call sample_collaborators Op_layoutCallback
    (after_call sample_collaborators Op_build sys_fresh).

Definition sys_laid_out : Sys :=
  after_fire sample_collaborators T_layoutResolved [T_preconnect] []
    sys_laying_out.

(** What every step guarantees about the layout: a complete element stays
    complete; the layout count is kept, or reset to 0, or it moves on a
    built element that is then complete; and a fulfilment callback is only
    scheduled on a built element. *)
Definition layout_step (e e' : Element) (t : list Event) : Prop :=
  (readyState e = RS_complete -> readyState e' = RS_complete)
  ∧ (layoutCount_ e' = layoutCount_ e
     ∨ layoutCount_ e' = 0%nat
     ∨ (readyState e' = RS_complete ∧ built_ e = true))
  ∧ (resolve_free t = false -> built_ e = true).
(** * Properties of the lifecycle *)

(** Unfolding of the monad and of the small methods. *)
Ltac js_unfold :=
  unfold assertNotTemplate_, isBuilt, isUpgraded, dev_assert, user_assert,
    reportError, rethrowAsync, dispatchCustomEvent, preconnect,
    updateInViewport_, getPlaceholder, createPlaceholder, appendChild,
    assign_impl, classList_add_this, classList_remove_this, style_set,
    call, construct, emit, assign, this, skip, throw, ret, try_catch, bind,
    outcome_of, state_of, events_of in *.

(** ** Build *)

Lemma build_when_built (e : Element) :
  built_ e = true ->
  build e =
    (if in_template e
     then Throw (DevAssertError "Must never be called in template")
     else Ok tt, e, []).
Proof.
  intros Hb. unfold build, in_template. js_unfold.
  destruct (truthyb (isInTemplate_ e)); simpl; [reflexivity|].
  rewrite Hb. reflexivity.
Qed.

(** Inside a template [build] fails its assertion before anything else: no
    hook is invoked and the element is unchanged. *)
Lemma build_in_template (e : Element) :
  in_template e = true ->
  build e
  = (Throw (DevAssertError "Must never be called in template"), e, []).
Proof.
  unfold in_template. intros Ht. unfold build. js_unfold.
  rewrite Ht. reflexivity.
Qed.

(** A build that returns leaves the element built and outside a template. *)
Lemma build_ok_built (e : Element) :
  outcome_of (build e) = Ok tt ->
  built_ (state_of (build e)) = true
  ∧ in_template (state_of (build e)) = false.
Proof.
  unfold build, in_template. js_unfold.
  destruct (truthyb (isInTemplate_ e)) eqn:Ht; simpl; [congruence|].
  destruct (built_ e) eqn:Hb; simpl; [auto|].
  destruct (isElementStub (impl_class (implementation_ e))); simpl;
    [congruence|].
  destruct (buildCallback_hook (impl_class (implementation_ e))); simpl;
    [|congruence].
  destruct (isInViewport_ e); simpl.
  - destruct (viewportCallback_hook _ true); simpl; [|congruence].
    destruct (actionQueue_ e) as [q|]; simpl.
    + destruct (Nat.ltb 0 (length q)); simpl;
        destruct (lastChildElementByAttr _ _); simpl; auto;
        destruct (createPlaceholderCallback_hook _) as [[p|]|]; simpl; auto;
        congruence.
    + destruct (lastChildElementByAttr _ _); simpl; auto;
        destruct (createPlaceholderCallback_hook _) as [[p|]|]; simpl; auto;
        congruence.
  - destruct (actionQueue_ e) as [q|]; simpl.
    + destruct (Nat.ltb 0 (length q)); simpl;
        destruct (lastChildElementByAttr _ _); simpl; auto;
        destruct (createPlaceholderCallback_hook _) as [[p|]|]; simpl; auto;
        congruence.
    + destruct (lastChildElementByAttr _ _); simpl; auto;
        destruct (createPlaceholderCallback_hook _) as [[p|]|]; simpl; auto;
        congruence.
Qed.

(** Two builds in a row: the second one does nothing. *)
Lemma build_twice (e : Element) :
  outcome_of (build e) = Ok tt ->
  build (state_of (build e)) = (Ok tt, state_of (build e), []).
Proof.
  intros Hok. destruct (build_ok_built e Hok) as [Hb Ht].
  rewrite (build_when_built _ Hb), Ht. reflexivity.
Qed.

(** C1: for every element, calling [build] when the element is already
    built is a no-op: no hook of the implementation is invoked (in
    particular not [buildCallback]), nothing is scheduled or reported, and
    the element is left as it was (built flag, classes, action queue and
    every other field); outside a template the call returns normally. *)
Theorem build_already_built_is_noop (e : Element) :
  built_ e = true ->
  state_of (build e) = e
  ∧ events_of (build e) = []
  ∧ ¬ In (EvHook H_buildCallback) (events_of (build e))
  ∧ (in_template e = false -> outcome_of (build e) = Ok tt).
Proof.
  intros Hb. rewrite (build_when_built e Hb). unfold state_of, events_of,
    outcome_of. simpl. repeat split; auto.
  intros ->. reflexivity.
Qed.

(** C3: for every upgraded, unbuilt element, if the implementation's
    [buildCallback] throws, [build] reports the error to the error sink and
    rethrows the same error to its caller, and the element remains unbuilt:
    the element is exactly as it was before the call, with [built_] false
    and its class list (the not-built classes) untouched. *)
Theorem build_error_is_atomic (e : Element) (err : JsError) :
  upgraded e = true ->
  built_ e = false ->
  in_template e = false ->
  buildCallback_hook (impl_class (implementation_ e)) = Throw err ->
  outcome_of (build e) = Throw err
  ∧ events_of (build e) = [EvHook H_buildCallback; EvReportError err]
  ∧ state_of (build e) = e
  ∧ built_ (state_of (build e)) = false
  ∧ classList (state_of (build e)) = classList e.
Proof.
  unfold upgraded, in_template. intros Hu Hb Ht Hh.
  assert (Hrun : build e
                 = (Throw err, e, [EvHook H_buildCallback; EvReportError err])).
  { unfold build. js_unfold. rewrite Ht. simpl. rewrite Hb.
    apply negb_true_iff in Hu. rewrite Hu. simpl. rewrite Hh. reflexivity. }
  rewrite Hrun. unfold outcome_of, events_of, state_of. simpl. auto.
Qed.

(** ** Unlayout *)

(** C7: for every built and upgraded element, [unlayoutCallback] returns
    the implementation's answer and resets [layoutCount_] to 0 exactly when
    that answer is true, leaving it unchanged when it is false; for an
    element that is not built or not upgraded it is a no-op: it returns
    false, no hook is invoked and the element is unchanged. *)
Theorem unlayoutCallback_resets_layoutCount (e : Element) :
  in_template e = false ->
  (built_ e && upgraded e = true ->
   ∀ b, unlayoutCallback_hook (impl_class (implementation_ e)) = Ok b ->
     unlayoutCallback e
     = (Ok b, if b then set_layoutCount_ 0%nat e else e,
        [EvHook H_unlayoutCallback])
     ∧ layoutCount_ (state_of (unlayoutCallback e))
       = if b then 0%nat else layoutCount_ e)
  ∧ (built_ e && upgraded e = false ->
     unlayoutCallback e = (Ok false, e, [])).
Proof.
  unfold in_template, upgraded. intros Ht. split.
  - intros Hbu b Hh. apply andb_true_iff in Hbu as [Hb Hu].
    assert (Hrun : unlayoutCallback e
                   = (Ok b, if b then set_layoutCount_ 0%nat e else e,
                      [EvHook H_unlayoutCallback])).
    { unfold unlayoutCallback. js_unfold. rewrite Ht. simpl.
      rewrite Hb, Hu. simpl. rewrite Hh. destruct b; reflexivity. }
    rewrite Hrun. split; [reflexivity|]. unfold state_of. simpl.
    destruct b; reflexivity.
  - intros Hbu. unfold unlayoutCallback. js_unfold. rewrite Ht. simpl.
    apply andb_false_iff in Hbu as [Hb|Hu].
    + rewrite Hb. reflexivity.
    + rewrite Hu. rewrite orb_true_r. reflexivity.
Qed.

(** Inside a template [unlayoutCallback] fails its assertion; still no
    hook is invoked and the element is unchanged. *)
Lemma unlayoutCallback_in_template (e : Element) :
  in_template e = true ->
  unlayoutCallback e
  = (Throw (DevAssertError "Must never be called in template"), e, []).
Proof.
  unfold in_template. intros Ht. unfold unlayoutCallback. js_unfold.
  rewrite Ht. reflexivity.
Qed.

(** ** Witnesses for build and unlayout *)

Lemma build_already_built_is_noop_witness :
  state_of (build (set_built_ true fresh_sample)) = set_built_ true fresh_sample
  ∧ events_of (build (set_built_ true fresh_sample)) = []
  ∧ ¬ In (EvHook H_buildCallback)
        (events_of (build (set_built_ true fresh_sample)))
  ∧ (in_template (set_built_ true fresh_sample) = false ->
     outcome_of (build (set_built_ true fresh_sample)) = Ok tt).
Proof.
  apply (build_already_built_is_noop (set_built_ true fresh_sample)).
  reflexivity.
Defined.

Lemma build_error_is_atomic_witness :
  outcome_of (build fresh_failing) = Throw (HookError 2)
  ∧ events_of (build fresh_failing)
    = [EvHook H_buildCallback; EvReportError (HookError 2)]
  ∧ state_of (build fresh_failing) = fresh_failing
  ∧ built_ (state_of (build fresh_failing)) = false
  ∧ classList (state_of (build fresh_failing)) = classList fresh_failing.
Proof.
  apply (build_error_is_atomic fresh_failing (HookError 2)); reflexivity.
Defined.

Lemma unlayoutCallback_resets_layoutCount_witness :
  unlayoutCallback (set_layoutCount_ 2%nat (set_built_ true fresh_sample))
  = (Ok true,
     set_layoutCount_ 0%nat
       (set_layoutCount_ 2%nat (set_built_ true fresh_sample)),
     [EvHook H_unlayoutCallback])
  ∧ unlayoutCallback fresh_sample = (Ok false, fresh_sample, []).
Proof.
  split.
  - apply (unlayoutCallback_resets_layoutCount
             (set_layoutCount_ 2%nat (set_built_ true fresh_sample)));
      reflexivity.
  - apply (unlayoutCallback_resets_layoutCount fresh_sample); reflexivity.
Defined.

(** ** Upgrade *)

Lemma occurrences_app (ev : Event) (t1 t2 : list Event) :
  occurrences ev (t1 ++ t2) = (occurrences ev t1 + occurrences ev t2)%nat.
Proof. unfold occurrences. rewrite filter_app, length_app. reflexivity. Qed.

Lemma occurrences_cons_eq (ev : Event) (t : list Event) :
  occurrences ev (ev :: t) = S (occurrences ev t).
Proof.
  unfold occurrences. rewrite filter_cons, decide_True by reflexivity.
  reflexivity.
Qed.

(** C2 (as amended): [upgrade] invokes the first-attach hook of the new
    implementation exactly once when the element was already attached and
    the upgrade gets as far as its attach step (the element is not in a
    template, the constructor and creation hook of the new class return, and
    the layout of the element is NODISPLAY or supported by the new class),
    and not at all otherwise; "amp:attached" is dispatched exactly once when
    moreover the hook returns, and not at all otherwise.  In particular the
    upgrade of an element that was never attached fires neither. *)
Theorem upgrade_first_attach_count (c : ImplClass) (e : Element) :
  occurrences (EvHook H_firstAttachedCallback) (events_of (upgrade c e))
  = (if everAttached e && upgrade_reaches_attach c e then 1 else 0)%nat
  ∧ occurrences (EvDispatch "amp:attached") (events_of (upgrade c e))
    = (if everAttached e && upgrade_reaches_attach c e
          && returns (firstAttachedCallback_hook c)
       then 1 else 0)%nat
  ∧ (everAttached e = false ->
     ¬ In (EvHook H_firstAttachedCallback) (events_of (upgrade c e))).
Proof.
  unfold upgrade, upgrade_reaches_attach, in_template. js_unfold.
  destruct (truthyb (isInTemplate_ e)); simpl.
  { rewrite !andb_false_r. simpl. repeat split; auto. }
  destruct (constructor_hook c); simpl.
  2:{ rewrite !andb_false_r. simpl. repeat split; auto.
      intros _ [H|[]]. discriminate. }
  destruct (createdCallback_hook c); simpl.
  2:{ rewrite !andb_false_r. simpl. repeat split; auto.
      intros _ [H|[H|[]]]; discriminate. }
  destruct (decide (layout_ e = NODISPLAY)) as [Hl|Hl].
  - rewrite (bool_decide_eq_false_2 (layout_ e ≠ NODISPLAY)) by tauto.
    rewrite (bool_decide_eq_true_2 _ Hl). simpl.
    destruct (everAttached e); simpl.
    + destruct (firstAttachedCallback_hook c); simpl; repeat split; auto;
        congruence.
    + repeat split; auto. intros _ [H|[H|[]]]; discriminate.
  - rewrite (bool_decide_eq_true_2 _ Hl).
    rewrite (bool_decide_eq_false_2 _ Hl). simpl.
    destruct (isLayoutSupported_hook c (layout_ e)); simpl.
    + destruct (everAttached e); simpl.
      * destruct (firstAttachedCallback_hook c); simpl; repeat split; auto;
          congruence.
      * repeat split; auto. intros _ [H|[H|[]]]; discriminate.
    + rewrite !andb_false_r. repeat split; auto.
      intros _ [H|[H|[]]]; discriminate.
Qed.

(** C2 as stated fails: a stubbed element that is attached, with layout
    FIXED, is upgraded to a class that does not support FIXED; the upgrade
    throws before the attach step and the hook is not invoked. *)
Lemma upgrade_attached_without_first_attach :
  upgraded attached_stub = false
  ∧ everAttached attached_stub = true
  ∧ layout_ attached_stub = FIXED
  ∧ outcome_of (upgrade failing_class attached_stub)
    = Throw (LayoutNotSupported "Layout not supported: " FIXED)
  ∧ occurrences (EvHook H_firstAttachedCallback)
      (events_of (upgrade failing_class attached_stub)) = 0%nat
  ∧ occurrences (EvDispatch "amp:attached")
      (events_of (upgrade failing_class attached_stub)) = 0%nat.
Proof. vm_compute. repeat split; reflexivity. Qed.

Lemma upgrade_first_attach_count_witness :
  occurrences (EvHook H_firstAttachedCallback)
    (events_of (upgrade sample_class attached_stub)) = 1%nat
  ∧ occurrences (EvDispatch "amp:attached")
      (events_of (upgrade sample_class attached_stub)) = 1%nat.
Proof.
  destruct (upgrade_first_attach_count sample_class attached_stub)
    as (H1 & H2 & _).
  split; [exact H1 | exact H2].
Defined.

(** ** The action queue *)

Lemma forEach_cons {A} (x : A) (r : list A) (f : A -> M unit) (e : Element) :
  forEach (x :: r) f e = bind (f x) (λ _, forEach r f) e.
Proof. reflexivity. Qed.

(** On an unbuilt element outside a template, [enqueAction] appends. *)
Lemma enqueAction_unbuilt (e : Element) (q : list ActionInvocation)
  (i : ActionInvocation) :
  built_ e = false ->
  in_template e = false ->
  actionQueue_ e = Some q ->
  enqueAction i e = (Ok tt, set_actionQueue_ (Some (q ++ [i])) e, []).
Proof.
  unfold in_template. intros Hb Ht Hq. unfold enqueAction. js_unfold.
  rewrite Ht. simpl. rewrite Hb. simpl. rewrite Hq. reflexivity.
Qed.

Lemma enqueAction_all (l : list ActionInvocation) :
  ∀ (e : Element) (q : list ActionInvocation),
    built_ e = false ->
    in_template e = false ->
    actionQueue_ e = Some q ->
    outcome_of (forEach l enqueAction e) = Ok tt
    ∧ events_of (forEach l enqueAction e) = []
    ∧ actionQueue_ (state_of (forEach l enqueAction e)) = Some (q ++ l)
    ∧ built_ (state_of (forEach l enqueAction e)) = false
    ∧ in_template (state_of (forEach l enqueAction e)) = false
    ∧ implementation_ (state_of (forEach l enqueAction e))
      = implementation_ e.
Proof.
  induction l as [|i l IH]; intros e q Hb Ht Hq.
  - unfold outcome_of, events_of, state_of. simpl.
    rewrite app_nil_r. repeat split; auto.
  - rewrite forEach_cons. unfold bind.
    rewrite (enqueAction_unbuilt e q i Hb Ht Hq).
    specialize (IH (set_actionQueue_ (Some (q ++ [i])) e) (q ++ [i])
                  Hb Ht eq_refl).
    destruct (forEach l enqueAction (set_actionQueue_ (Some (q ++ [i])) e))
      as [[o s] t].
    unfold outcome_of, events_of, state_of in *. simpl in *.
    destruct IH as (Ho & Hev & Hq' & Hb' & Ht' & Hi).
    rewrite <- app_assoc in Hq'. simpl in Hq'. repeat split; auto.
Qed.

(** A build that returns on an unbuilt element with a non-empty queue keeps
    the queue and the implementation, and schedules the drain. *)
Lemma build_ok_schedules_drain (e : Element) (q : list ActionInvocation) :
  built_ e = false ->
  actionQueue_ e = Some q ->
  q ≠ [] ->
  outcome_of (build e) = Ok tt ->
  actionQueue_ (state_of (build e)) = Some q
  ∧ impl_class (implementation_ (state_of (build e)))
    = impl_class (implementation_ e)
  ∧ occurrences (EvTimerDelay T_dequeueActions 1) (events_of (build e)) = 1%nat.
Proof.
  intros Hb Hq Hne. unfold build. js_unfold.
  destruct (truthyb (isInTemplate_ e)) eqn:Ht; simpl; [congruence|].
  rewrite Hb. simpl.
  destruct (isElementStub (impl_class (implementation_ e))); simpl;
    [congruence|].
  destruct (buildCallback_hook (impl_class (implementation_ e))); simpl;
    [|congruence].
  assert (Hlen : Nat.ltb 0 (length q) = true).
  { destruct q; [congruence|reflexivity]. }
  destruct (isInViewport_ e); simpl.
  - destruct (viewportCallback_hook _ true); simpl; [|congruence].
    rewrite Hq, Hlen. simpl.
    destruct (lastChildElementByAttr _ _); simpl; auto.
    destruct (createPlaceholderCallback_hook _) as [[p|]|]; simpl; auto;
      congruence.
  - rewrite Hq, Hlen. simpl.
    destruct (lastChildElementByAttr _ _); simpl; auto.
    destruct (createPlaceholderCallback_hook _) as [[p|]|]; simpl; auto;
      congruence.
Qed.

Lemma executionAction_run (i : ActionInvocation) (deferred : bool)
  (e : Element) :
  executionAction_ i deferred e
  = (Ok tt, e, action_events (impl_class (implementation_ e)) deferred i).
Proof.
  unfold executionAction_, action_events. js_unfold.
  destruct (executeAction_hook _ i deferred) as [[]|err]; reflexivity.
Qed.

(** The drain loop runs every invocation, whatever the earlier ones did. *)
Lemma forEach_executionAction (q : list ActionInvocation) (e : Element) :
  forEach q (λ i, executionAction_ i true) e
  = (Ok tt, e,
     flat_map (action_events (impl_class (implementation_ e)) true) q).
Proof.
  induction q as [|i q IH]; [reflexivity|].
  rewrite forEach_cons. unfold bind.
  rewrite executionAction_run, IH. reflexivity.
Qed.

Lemma dequeueActions_run (e : Element) (q : list ActionInvocation) :
  actionQueue_ e = Some q ->
  dequeueActions_ e
  = (Ok tt, set_actionQueue_ None e,
     flat_map (action_events (impl_class (implementation_ e)) true) q).
Proof.
  intros Hq. unfold dequeueActions_. unfold bind at 1. unfold this.
  rewrite Hq. unfold bind, assign.
  rewrite forEach_executionAction. reflexivity.
Qed.

Lemma dequeueActions_drained (e : Element) :
  actionQueue_ e = None -> dequeueActions_ e = (Ok tt, e, []).
Proof.
  intros Hq. unfold dequeueActions_. js_unfold. rewrite Hq. reflexivity.
Qed.

Lemma executed_action_events (c : ImplClass) (deferred : bool)
  (q : list ActionInvocation) :
  executed (flat_map (action_events c deferred) q) = q.
Proof.
  induction q as [|i q IH]; [reflexivity|].
  simpl. unfold executed in *. simpl.
  rewrite omap_app, IH.
  destruct (executeAction_hook c i deferred); reflexivity.
Qed.

(** C4: for every element with actions enqueued before build (on top of
    the queue [q0] it held), the build that returns schedules the deferred
    drain once, and the drain calls [executeAction] on exactly the queued
    invocations, in the order of their enqueuing, each with the deferred
    flag; an invocation that throws is re-reported asynchronously right
    after its call and the later ones are still executed; the queue is
    nulled by the drain, so that a second drain does nothing. *)
Theorem queued_actions_run_in_order_once
  (e : Element) (q0 l : list ActionInvocation) :
  built_ e = false ->
  in_template e = false ->
  actionQueue_ e = Some q0 ->
  q0 ++ l ≠ [] ->
  let e1 := state_of (forEach l enqueAction e) in
  outcome_of (build e1) = Ok tt ->
  let e2 := state_of (build e1) in
  let r := dequeueActions_ e2 in
  actionQueue_ e1 = Some (q0 ++ l)
  ∧ occurrences (EvTimerDelay T_dequeueActions 1) (events_of (build e1)) = 1%nat
  ∧ outcome_of r = Ok tt
  ∧ events_of r
    = flat_map (action_events (impl_class (implementation_ e)) true) (q0 ++ l)
  ∧ executed (events_of r) = q0 ++ l
  ∧ actionQueue_ (state_of r) = None
  ∧ dequeueActions_ (state_of r) = (Ok tt, state_of r, []).
Proof.
  intros Hb Ht Hq Hne e1 Hok e2 r.
  destruct (enqueAction_all l e q0 Hb Ht Hq)
    as (_ & _ & Hq1 & Hb1 & Ht1 & Hi1).
  fold e1 in Hq1, Hb1, Ht1, Hi1.
  destruct (build_ok_schedules_drain e1 (q0 ++ l) Hb1 Hq1 Hne Hok)
    as (Hq2 & Hi2 & Hev).
  fold e2 in Hq2, Hi2.
  subst r. rewrite (dequeueActions_run e2 (q0 ++ l) Hq2).
  unfold outcome_of, events_of, state_of. simpl.
  rewrite Hi2, Hi1. rewrite executed_action_events.
  repeat split; auto using dequeueActions_drained.
Qed.

Lemma queued_actions_run_in_order_once_witness :
  let queue := [action "a"; action "fail"; action "c"] in
  let built := state_of (build (state_of (forEach queue enqueAction fresh_flaky))) in
  events_of (dequeueActions_ built)
  = [EvHook (H_executeAction (action "a") true);
     EvHook (H_executeAction (action "fail") true);
     EvRethrowAsync "Action execution failed:" (HookError 3) "AMP-IMG" "fail";
     EvHook (H_executeAction (action "c") true)]
  ∧ executed (events_of (dequeueActions_ built)) = queue.
Proof.
  intros queue built.
  destruct (queued_actions_run_in_order_once fresh_flaky [] queue)
    as (_ & _ & _ & Hev & Hex & _).
  - reflexivity.
  - reflexivity.
  - reflexivity.
  - discriminate.
  - vm_compute. reflexivity.
  - split; [exact Hev | exact Hex].
Defined.

(** ** First attachment *)

(** Whatever [firstAttachedCallback_] throws, it has reported last. *)
Lemma firstAttachedCallback_reports (L : Collaborators) (e : Element)
  (err : JsError) :
  outcome_of (firstAttachedCallback_ L e) = Throw err ->
  last (events_of (firstAttachedCallback_ L e)) = Some (EvReportError err).
Proof.
  assert (Hfin : ∀ (o : Outcome unit) (t : list Event) (er : JsError),
             o = Throw er -> o = Throw err ->
             last (t ++ [EvReportError er]) = Some (EvReportError err)).
  { intros o t er -> [= ->]. apply last_snoc. }
  unfold firstAttachedCallback_. js_unfold.
  destruct (isElementStub (impl_class (implementation_ e))); simpl;
    match goal with
    | |- context [applyLayout_ L ?s] =>
        destruct (applyLayout_ L s) as [[[layout|er] s1] t1]
    end; simpl;
    try (intros H; apply (Hfin _ _ _ eq_refl H));
    match goal with
    | |- context [if ?c then _ else _] => destruct c
    end; simpl;
    try (intros H; rewrite ?app_assoc; apply (Hfin _ _ _ eq_refl H));
    match goal with
    | |- context [firstAttachedCallback_hook ?c] =>
        destruct (firstAttachedCallback_hook c)
    end; simpl;
    try (intros H; rewrite ?app_assoc; apply (Hfin _ _ _ eq_refl H));
    match goal with
    | |- context [if ?c then _ else _] => destruct c
    end; simpl; discriminate.
Qed.

(** When layout resolution returns a supported layout and the hook throws,
    that is what [firstAttachedCallback_] throws. *)
Lemma firstAttachedCallback_hook_throws (L : Collaborators) (e : Element)
  (layout : Layout) (err : JsError) :
  outcome_of (applyLayout_ L (unresolved_marked e)) = Ok layout ->
  impl_class (implementation_ (state_of (applyLayout_ L (unresolved_marked e))))
  = impl_class (implementation_ e) ->
  layout = NODISPLAY
  ∨ isLayoutSupported_hook (impl_class (implementation_ e)) layout = true ->
  firstAttachedCallback_hook (impl_class (implementation_ e)) = Throw err ->
  outcome_of (firstAttachedCallback_ L e) = Throw err
  ∧ In (EvHook H_firstAttachedCallback) (events_of (firstAttachedCallback_ L e)).
Proof.
  unfold unresolved_marked, upgraded, firstAttachedCallback_. js_unfold.
  destruct (isElementStub (impl_class (implementation_ e))); simpl;
    match goal with
    | |- context [applyLayout_ L ?s] =>
        destruct (applyLayout_ L s) as [[[layout'|er] s1] t1]
    end; simpl; try discriminate;
    intros [= ->] Hcls Hsup Hh; rewrite Hcls;
    (destruct Hsup as [->|Hs]; [|rewrite Hs, andb_false_r]); simpl;
    rewrite ?Hcls, Hh; simpl;
    (split; [reflexivity|]);
    rewrite !in_app_iff; simpl; auto.
Qed.

(** C5 (as amended): when the first DOM attachment runs and the first-attach
    hook, layout resolution or layout validation throws, the exception is
    reported to the error sink by [firstAttachedCallback_] and rethrown to
    its caller [attachedCallback]; [attachedCallback] reports it a second
    time and does not rethrow it: it returns normally, having marked the
    element as attached, and goes on to register it with the resources. *)
Theorem attachedCallback_reports_and_returns (L : Collaborators)
  (closestTemplate : bool) (e : Element) (err : JsError) :
  everAttached e = false ->
  in_template (attach_entry L closestTemplate e) = false ->
  outcome_of (firstAttachedCallback_ L
                (set_everAttached true (attach_entry L closestTemplate e)))
  = Throw err ->
  let inner := firstAttachedCallback_ L
                 (set_everAttached true (attach_entry L closestTemplate e)) in
  last (events_of inner) = Some (EvReportError err)
  ∧ attachedCallback L closestTemplate e
    = (Ok tt, state_of inner,
       events_of inner ++ [EvReportError err; EvResourcesAdd])
  ∧ occurrences (EvReportError err)
      (events_of (attachedCallback L closestTemplate e)) ≥ 2.
Proof.
  intros Hatt Ht Hthrow inner.
  pose proof (firstAttachedCallback_reports L _ err Hthrow) as Hlast.
  fold inner in Hlast, Hthrow.
  assert (Hrun : attachedCallback L closestTemplate e
                 = (Ok tt, state_of inner,
                    events_of inner ++ [EvReportError err; EvResourcesAdd])).
  { unfold attachedCallback, attach_entry, in_template in *.
    unfold bind at 1.
    destruct (TEMPLATE_TAG_SUPPORTED L); simpl in *.
    - unfold skip, ret, bind, this. rewrite Ht, Hatt. simpl.
      unfold assign, try_catch, reportError, emit. fold inner.
      destruct inner as [[o s] t]. unfold outcome_of in Hthrow.
      simpl in Hthrow. subst o. simpl. rewrite <- ?app_assoc. reflexivity.
    - unfold assign at 1. unfold bind, this. simpl in *.
      subst closestTemplate. simpl. rewrite Hatt. simpl.
      unfold assign, try_catch, reportError, emit. fold inner.
      destruct inner as [[o s] t]. unfold outcome_of in Hthrow.
      simpl in Hthrow. subst o. simpl. rewrite <- ?app_assoc. reflexivity. }
  split; [exact Hlast|]. split; [exact Hrun|].
  rewrite Hrun. unfold events_of at 1. simpl.
  apply last_Some in Hlast as [t Ht'].
  rewrite Ht', !occurrences_app, !occurrences_cons_eq. lia.
Qed.

Lemma attachedCallback_reports_and_returns_witness :
  attachedCallback sample_collaborators false fresh_flaky
  = (Ok tt,
     state_of (firstAttachedCallback_ sample_collaborators
                 (set_everAttached true fresh_flaky)),
     events_of (firstAttachedCallback_ sample_collaborators
                  (set_everAttached true fresh_flaky))
     ++ [EvReportError (HookError 1); EvResourcesAdd]).
Proof.
  refine (proj1 (proj2 (attachedCallback_reports_and_returns
                          sample_collaborators false fresh_flaky (HookError 1)
                          _ _ _))).
  - reflexivity.
  - reflexivity.
  - vm_compute. reflexivity.
Defined.

(** C5 as stated fails: the first-attach hook of the element throws during
    its first attachment, and [attachedCallback] returns to its caller
    without throwing. *)
Lemma attachedCallback_does_not_rethrow :
  everAttached fresh_flaky = false
  ∧ firstAttachedCallback_hook (impl_class (implementation_ fresh_flaky))
    = Throw (HookError 1)
  ∧ In (EvHook H_firstAttachedCallback)
      (events_of (attachedCallback sample_collaborators false fresh_flaky))
  ∧ outcome_of (attachedCallback sample_collaborators false fresh_flaky)
    = Ok tt
  ∧ outcome_of (attachedCallback sample_collaborators false fresh_flaky)
    ≠ Throw (HookError 1).
Proof.
  vm_compute. repeat split; auto; discriminate.
Qed.

(** ** Layout resolution *)

Local Arguments truthy : simpl never.
Local Arguments is_auto : simpl never.
Local Arguments in_layouts : simpl never.
Local Arguments classList_add : simpl never.

Lemma truthy_300 : truthy (Some "300") = true. Proof. reflexivity. Qed.
Lemma truthy_200 : truthy (Some "200") = true. Proof. reflexivity. Qed.
Lemma is_auto_300 : is_auto (Some "300") = false. Proof. reflexivity. Qed.
Lemma truthy_None : truthy None = false. Proof. reflexivity. Qed.
Lemma is_auto_None : is_auto None = false. Proof. reflexivity. Qed.


(** Runs the resolver on the facts at hand. *)
Ltac layout_run Htw Hth Haw :=
  repeat (simpl;
          progress (rewrite ?Htw, ?Hth, ?Haw, ?truthy_300, ?truthy_200,
                      ?is_auto_300, ?truthy_None, ?is_auto_None;
                    repeat match goal with
                    | |- context [in_layouts ?l ?ls] =>
                        let b := eval vm_compute in (in_layouts l ls) in
                        change (in_layouts l ls) with b
                    end));
  simpl.

(** C8 (as amended): layout resolution on an element with no explicit
    layout attribute, with "300" and "200" read by [parseLength] as
    non-empty lengths, infers FIXED when width="300" and height="200" are
    given with no sizes and no heights; FIXED_HEIGHT when only height="200"
    is given and the tag has no natural dimensions; RESPONSIVE when
    width="300", height="200" and a non-empty sizes attribute are given and
    the two lengths have the same units; CONTAINER when none of width,
    height, sizes and heights is given and the tag has no natural
    dimensions. *)
Theorem layout_inference (L : Collaborators) (e : Element) (w h : string) :
  reads_lengths L w h ->
  truthy (getAttribute e "layout") = false ->
  (getAttribute e "width" = Some "300" ->
   getAttribute e "height" = Some "200" ->
   getAttribute e "sizes" = None ->
   getAttribute e "heights" = None ->
   outcome_of (applyLayout_ L e) = Ok FIXED)
  ∧ (getAttribute e "width" = None ->
     getAttribute e "height" = Some "200" ->
     getAttribute e "sizes" = None ->
     getAttribute e "heights" = None ->
     hasNaturalDimensions L (tagName e) = false ->
     outcome_of (applyLayout_ L e) = Ok FIXED_HEIGHT)
  ∧ (getAttribute e "width" = Some "300" ->
     getAttribute e "height" = Some "200" ->
     truthy (getAttribute e "sizes") = true ->
     getLengthUnits L w = getLengthUnits L h ->
     outcome_of (applyLayout_ L e) = Ok RESPONSIVE)
  ∧ (getAttribute e "width" = None ->
     getAttribute e "height" = None ->
     getAttribute e "sizes" = None ->
     getAttribute e "heights" = None ->
     hasNaturalDimensions L (tagName e) = false ->
     outcome_of (applyLayout_ L e) = Ok CONTAINER).
Proof.
  intros (Hw & Hh & Htw & Hth & Haw) Hl.
  assert (Hin : ∀ o : option string,
            truthy o = false ->
            match o with
            | Some s => if truthy o then Some <$> parseLayout L s else Some None
            | None => Some None
            end = Some None).
  { intros [s|] Ho; [rewrite Ho|]; reflexivity. }
  unfold applyLayout_, getAttribute in *. js_unfold.
  repeat split.
  - intros Hwa Hha Hsa Hhsa. simpl.
    rewrite (Hin _ Hl), Hwa, Hha, Hsa, Hhsa.
    layout_run Htw Hth Haw. rewrite Hw, Hh. layout_run Htw Hth Haw.
    destruct (isLayoutSizeDefined L FIXED); reflexivity.
  - intros Hwa Hha Hsa Hhsa Hnat. simpl.
    rewrite (Hin _ Hl), Hwa, Hha, Hsa, Hhsa, Hnat.
    layout_run Htw Hth Haw. rewrite Hh. layout_run Htw Hth Haw.
    rewrite ?andb_false_r.
    layout_run Htw Hth Haw.
    destruct (isLayoutSizeDefined L FIXED_HEIGHT); reflexivity.
  - intros Hwa Hha Hsa Hun. simpl.
    rewrite (Hin _ Hl), Hwa, Hha, Hsa.
    layout_run Htw Hth Haw. rewrite Hw, Hh. layout_run Htw Hth Haw.
    rewrite Hun, bool_decide_eq_true_2 by reflexivity.
    layout_run Htw Hth Haw.
    destruct (isLayoutSizeDefined L RESPONSIVE); reflexivity.
  - intros Hwa Hha Hsa Hhsa Hnat. simpl.
    rewrite (Hin _ Hl), Hwa, Hha, Hsa, Hhsa, Hnat.
    layout_run Htw Hth Haw. 
    rewrite ?andb_false_r.
    layout_run Htw Hth Haw.
    destruct (isLayoutSizeDefined L CONTAINER); reflexivity.
Qed.

Lemma sample_reads_lengths : reads_lengths sample_collaborators "300px" "200px".
Proof. repeat split; reflexivity. Qed.

Lemma layout_inference_witness :
  outcome_of (applyLayout_ sample_collaborators fresh_sample) = Ok FIXED
  ∧ outcome_of (applyLayout_ sample_collaborators img_height_only)
    = Ok FIXED_HEIGHT
  ∧ outcome_of (applyLayout_ sample_collaborators img_responsive)
    = Ok RESPONSIVE
  ∧ outcome_of (applyLayout_ sample_collaborators img_bare) = Ok CONTAINER.
Proof.
  split; [|split; [|split]].
  - apply (proj1 (layout_inference sample_collaborators fresh_sample
                    "300px" "200px" sample_reads_lengths eq_refl));
      reflexivity.
  - apply (proj1 (proj2 (layout_inference sample_collaborators img_height_only
                           "300px" "200px" sample_reads_lengths eq_refl)));
      reflexivity.
  - apply (proj1 (proj2 (proj2 (layout_inference sample_collaborators
                                  img_responsive "300px" "200px"
                                  sample_reads_lengths eq_refl))));
      reflexivity.
  - apply (proj2 (proj2 (proj2 (layout_inference sample_collaborators img_bare
                                  "300px" "200px" sample_reads_lengths
                                  eq_refl))));
      reflexivity.
Defined.

(** C8 as stated fails: on a tag with natural dimensions, with only
    height="200" given, the natural width is substituted and the layout
    inferred is FIXED, not FIXED_HEIGHT. *)
Lemma height_only_with_natural_dimensions_is_fixed :
  getAttribute pixel_height_only "layout" = None
  ∧ getAttribute pixel_height_only "width" = None
  ∧ getAttribute pixel_height_only "height" = Some "200"
  ∧ getAttribute pixel_height_only "sizes" = None
  ∧ getAttribute pixel_height_only "heights" = None
  ∧ hasNaturalDimensions sample_collaborators (tagName pixel_height_only)
    = true
  ∧ outcome_of (applyLayout_ sample_collaborators pixel_height_only) = Ok FIXED
  ∧ outcome_of (applyLayout_ sample_collaborators pixel_height_only)
    ≠ Ok FIXED_HEIGHT.
Proof. vm_compute. repeat split; auto; discriminate. Qed.

(** ** Rules for runs *)

Section SatRules.

Context {A B : Type}.

Lemma sat_ret (a : A) s (Q : Outcome A -> Element -> list Event -> Prop) :
  Q (Ok a) s [] -> sat (ret a) s Q.
Proof. exact id. Qed.

Lemma sat_throw (e : JsError) s
  (Q : Outcome A -> Element -> list Event -> Prop) :
  Q (Throw e) s [] -> sat (throw e) s Q.
Proof. exact id. Qed.

Lemma sat_bind (m : M A) (k : A -> M B) s
  (Q : Outcome B -> Element -> list Event -> Prop) :
  sat m s (λ r s1 t1,
             match r with
             | Ok a => sat (k a) s1 (λ r2 s2 t2, Q r2 s2 (t1 ++ t2))
             | Throw e => Q (Throw e) s1 t1
             end) ->
  sat (bind m k) s Q.
Proof.
  unfold sat, bind, outcome_of, state_of, events_of.
  destruct (m s) as [[[a|e] s1] t1]; simpl; [|exact id].
  destruct (k a s1) as [[r2 s2] t2]. exact id.
Qed.

Lemma sat_try_catch (m : M A) (h : JsError -> M A) s
  (Q : Outcome A -> Element -> list Event -> Prop) :
  sat m s (λ r s1 t1,
             match r with
             | Ok a => Q (Ok a) s1 t1
             | Throw e => sat (h e) s1 (λ r2 s2 t2, Q r2 s2 (t1 ++ t2))
             end) ->
  sat (try_catch m h) s Q.
Proof.
  unfold sat, try_catch, outcome_of, state_of, events_of.
  destruct (m s) as [[[a|e] s1] t1]; simpl; [exact id|].
  destruct (h e s1) as [[r2 s2] t2]. exact id.
Qed.

Lemma sat_call (h : Hook) (f : ImplClass -> Outcome A) s
  (Q : Outcome A -> Element -> list Event -> Prop) :
  Q (f (impl_class (implementation_ s))) s [EvHook h] -> sat (call h f) s Q.
Proof. exact id. Qed.

Lemma sat_eq (m : M A) s r s' t
  (Q : Outcome A -> Element -> list Event -> Prop) :
  m s = (r, s', t) -> Q r s' t -> sat m s Q.
Proof. unfold sat. intros ->. exact id. Qed.

End SatRules.

Lemma sat_this s (Q : Outcome Element -> Element -> list Event -> Prop) :
  Q (Ok s) s [] -> sat this s Q.
Proof. exact id. Qed.

Lemma sat_assign (f : Element -> Element) s
  (Q : Outcome unit -> Element -> list Event -> Prop) :
  Q (Ok tt) (f s) [] -> sat (assign f) s Q.
Proof. exact id. Qed.

Lemma sat_emit (ev : Event) s
  (Q : Outcome unit -> Element -> list Event -> Prop) :
  Q (Ok tt) s [ev] -> sat (emit ev) s Q.
Proof. exact id. Qed.

(** One step of symbolic execution. *)
Ltac sat_step :=
  lazymatch goal with
  | |- sat (bind _ _) _ _ => apply sat_bind
  | |- sat (try_catch _ _) _ _ => apply sat_try_catch
  | |- sat (ret _) _ _ => apply sat_ret
  | |- sat skip _ _ => apply sat_ret
  | |- sat (throw _) _ _ => apply sat_throw
  | |- sat this _ _ => apply sat_this
  | |- sat (assign _) _ _ => apply sat_assign
  | |- sat (emit _) _ _ => apply sat_emit
  | |- sat (call _ _) _ _ => apply sat_call
  | |- sat (if ?c then _ else _) _ _ =>
      let H := fresh "Hif" in
      destruct c eqn:H; try (simpl in H; discriminate H)
  | |- sat (match ?x with _ => _ end) _ _ =>
      let H := fresh "Hcase" in
      destruct x eqn:H; try (simpl in H; discriminate H)
  | |- match ?x with _ => _ end =>
      let H := fresh "Hcase" in
      destruct x eqn:H; try (simpl in H; discriminate H)
  | |- sat (assertNotTemplate_) _ _ => unfold assertNotTemplate_
  | |- sat (dev_assert _ _) _ _ => unfold dev_assert
  | |- sat (user_assert _ _) _ _ => unfold user_assert
  | |- sat isUpgraded _ _ => unfold isUpgraded
  | |- sat isBuilt _ _ => unfold isBuilt
  | |- sat (reportError _) _ _ => unfold reportError
  | |- sat (rethrowAsync _ _ _ _) _ _ => unfold rethrowAsync
  | |- sat (dispatchCustomEvent _) _ _ => unfold dispatchCustomEvent
  | |- sat (preconnect _) _ _ => unfold preconnect
  | |- sat (updateInViewport_ _) _ _ => unfold updateInViewport_
  | |- sat getPlaceholder _ _ => unfold getPlaceholder
  | |- sat createPlaceholder _ _ => unfold createPlaceholder
  | |- sat (appendChild _) _ _ => unfold appendChild
  | |- sat (assign_impl _) _ _ => unfold assign_impl
  | |- sat (classList_add_this _) _ _ => unfold classList_add_this
  | |- sat (classList_remove_this _) _ _ => unfold classList_remove_this
  | |- sat (style_set _ _) _ _ => unfold style_set
  | |- sat (construct _) _ _ => unfold construct, sat, outcome_of, state_of, events_of
  end; cbv beta.

Ltac sat_run := repeat sat_step.

(** ** Rules for [respects] *)

Section RespectsRules.

Context (T : Element -> Element -> list Event -> Prop) `{!Closed T}.

Lemma respects_ret {A} (a : A) : respects T (ret a).
Proof. intros s. apply closed_refl. Qed.

Lemma respects_throw {A} (e : JsError) : respects T (@throw A e).
Proof. intros s. apply closed_refl. Qed.

Lemma respects_this : respects T this.
Proof. intros s. apply closed_refl. Qed.

Lemma respects_bind {A B} (m : M A) (k : A -> M B) :
  respects T m -> (∀ a, respects T (k a)) -> respects T (bind m k).
Proof.
  intros Hm Hk s. specialize (Hm s).
  unfold bind, state_of, events_of in *.
  destruct (m s) as [[[a|e] s1] t1]; simpl in *; [|exact Hm].
  specialize (Hk a s1). unfold state_of, events_of in Hk.
  destruct (k a s1) as [[r2 s2] t2]; simpl in *.
  eapply closed_trans; eauto.
Qed.

Lemma respects_try_catch {A} (m : M A) (h : JsError -> M A) :
  respects T m -> (∀ e, respects T (h e)) -> respects T (try_catch m h).
Proof.
  intros Hm Hh s. specialize (Hm s).
  unfold try_catch, state_of, events_of in *.
  destruct (m s) as [[[a|e] s1] t1]; simpl in *; [exact Hm|].
  specialize (Hh e s1). unfold state_of, events_of in Hh.
  destruct (h e s1) as [[r2 s2] t2]; simpl in *.
  eapply closed_trans; eauto.
Qed.

Lemma respects_assign (f : Element -> Element) :
  (∀ s, T s (f s) []) -> respects T (assign f).
Proof. intros H s. apply H. Qed.

Lemma respects_emit (ev : Event) :
  (∀ s, T s s [ev]) -> respects T (emit ev).
Proof. intros H s. apply H. Qed.

Lemma respects_call {A} (h : Hook) (f : ImplClass -> Outcome A) :
  (∀ s, T s s [EvHook h]) -> respects T (call h f).
Proof. intros H s. apply H. Qed.

End RespectsRules.

(** Decomposition of a [respects] goal along the code. *)
Ltac respects_step :=
  lazymatch goal with
  | |- respects _ (bind _ _) => apply respects_bind; [try exact _| |intros ?]
  | |- respects _ (try_catch _ _) =>
      apply respects_try_catch; [try exact _| |intros ?]
  | |- respects _ (ret _) => apply respects_ret; try exact _
  | |- respects _ skip => apply respects_ret; try exact _
  | |- respects _ (throw _) => apply respects_throw; try exact _
  | |- respects _ this => apply respects_this; try exact _
  | |- respects _ (if ?c then _ else _) => destruct c
  | |- respects _ (match ?x with _ => _ end) => destruct x
  | |- respects _ (assertNotTemplate_) => unfold assertNotTemplate_
  | |- respects _ (dev_assert _ _) => unfold dev_assert
  | |- respects _ (user_assert _ _) => unfold user_assert
  | |- respects _ isUpgraded => unfold isUpgraded
  | |- respects _ isBuilt => unfold isBuilt
  | |- respects _ (reportError _) => unfold reportError
  | |- respects _ (rethrowAsync _ _ _ _) => unfold rethrowAsync
  | |- respects _ (dispatchCustomEvent _) => unfold dispatchCustomEvent
  | |- respects _ (preconnect _) => unfold preconnect
  | |- respects _ (updateInViewport_ _) => unfold updateInViewport_
  | |- respects _ getPlaceholder => unfold getPlaceholder
  | |- respects _ createPlaceholder => unfold createPlaceholder
  | |- respects _ (appendChild _) => unfold appendChild
  | |- respects _ (assign_impl _) => unfold assign_impl
  | |- respects _ (classList_add_this _) => unfold classList_add_this
  | |- respects _ (classList_remove_this _) => unfold classList_remove_this
  | |- respects _ (style_set _ _) => unfold style_set
  | |- respects _ (assign _) => apply respects_assign; intros ?
  | |- respects _ (emit _) => apply respects_emit; intros ?
  | |- respects _ (call _ _) => apply respects_call; intros ?
  end.

Ltac respects_run := repeat respects_step.

(** ** The loading indicator *)

Lemma classList_contains_add (c : string) (l : list string) :
  classList_contains c (classList_add c l) = true.
Proof.
  unfold classList_contains, classList_add.
  destruct (bool_decide (c ∈ l)) eqn:H.
  - exact H.
  - apply bool_decide_eq_true_2. set_solver.
Qed.

#[local] Instance keeps_loading_off_closed : Closed keeps_loading_off.
Proof.
  split.
  - intros s. split; auto.
  - intros s s1 s2 t1 t2 [H1 H2] [H3 H4]. split; [congruence|auto].
Qed.

(** Leaves of a [keeps_loading_off] goal: an assignment that touches neither
    the layout count nor the loading container, or an effect. *)
Ltac loading_leaf :=
  try (split; [reflexivity | intros H; exact H]).

Lemma isLoadingEnabled_keeps_off (L : Collaborators) :
  respects keeps_loading_off (isLoadingEnabled_ L).
Proof. unfold isLoadingEnabled_. respects_run; loading_leaf. Qed.

Lemma prepareLoading_keeps_off (L : Collaborators) :
  respects keeps_loading_off (prepareLoading_ L).
Proof.
  unfold prepareLoading_. respects_run; loading_leaf.
  split; [reflexivity | intros _; reflexivity].
Qed.

Lemma toggleLoading_keeps_off (L : Collaborators) (state opt_cleanup : bool) :
  respects keeps_loading_off (toggleLoading_ L state opt_cleanup).
Proof.
  unfold toggleLoading_.
  repeat (respects_step || apply isLoadingEnabled_keeps_off); loading_leaf.
Qed.

Lemma viewportLoading_keeps_off (L : Collaborators) :
  respects keeps_loading_off (viewportLoading L).
Proof.
  unfold viewportLoading.
  repeat (respects_step || apply toggleLoading_keeps_off); loading_leaf.
Qed.

Lemma viewportCallback_keeps_off (L : Collaborators) (inViewport : bool) :
  respects keeps_loading_off (viewportCallback L inViewport).
Proof.
  unfold viewportCallback.
  repeat (respects_step || apply toggleLoading_keeps_off); loading_leaf.
Qed.

Lemma updateLayoutBox_keeps_off (L : Collaborators) (layoutBox : LayoutRect) :
  respects keeps_loading_off (updateLayoutBox L layoutBox).
Proof.
  unfold updateLayoutBox.
  repeat (respects_step || apply toggleLoading_keeps_off
          || apply isLoadingEnabled_keeps_off); loading_leaf.
Qed.

Lemma isLoadingEnabled_laid_out (L : Collaborators) (e : Element) :
  (1 <= layoutCount_ e)%nat ->
  isLoadingEnabled_ L e = (Ok false, noloading_cached e, []).
Proof.
  intros Hc. unfold isLoadingEnabled_, noloading_cached. js_unfold.
  assert (Hlt : Nat.ltb 0 (layoutCount_ e) = true)
    by (apply Nat.ltb_lt; lia).
  destruct (loadingDisabled_ e) as [d|]; simpl; rewrite Hlt;
    rewrite ?orb_true_r; reflexivity.
Qed.

Lemma noloading_cached_frame (e : Element) :
  layoutCount_ (noloading_cached e) = layoutCount_ e
  ∧ loadingContainer_ (noloading_cached e) = loadingContainer_ e
  ∧ loadingState_ (noloading_cached e) = loadingState_ e
  ∧ isInTemplate_ (noloading_cached e) = isInTemplate_ e.
Proof. unfold noloading_cached. destruct (loadingDisabled_ e); auto. Qed.

Lemma loading_shown_hidden (s : Element) (container : Node) :
  loadingContainer_ s
  = Some (node_toggle "amp-hidden" (Some true) container) ->
  loading_shown s = false.
Proof.
  unfold loading_shown. intros ->. simpl.
  rewrite classList_contains_add. reflexivity.
Qed.

Lemma loading_shown_none (s : Element) :
  loadingContainer_ s = None -> loading_shown s = false.
Proof. unfold loading_shown. intros ->. reflexivity. Qed.

Ltac loading_hidden :=
  split;
  [ first [ apply loading_shown_none; simpl; solve [eauto]
          | eapply loading_shown_hidden; simpl; solve [eauto] ]
  | simpl; solve [auto] ].

(** With a layout completed, the mutate callback of [toggleLoading_] leaves
    the indicator hidden. *)
Lemma toggleLoading_mutate_laid_out (L : Collaborators) (opt_cleanup : bool)
  (e : Element) :
  (1 <= layoutCount_ e)%nat ->
  sat (toggleLoading_mutate L opt_cleanup) e
    (λ _ s' _, loading_shown s' = false ∧ layoutCount_ s' = layoutCount_ e).
Proof.
  intros Hc. destruct (noloading_cached_frame e) as (Hn1 & Hn2 & _).
  unfold toggleLoading_mutate.
  sat_step. sat_step. sat_step. sat_step.
  - (* the state recorded is truthy: the check is repeated *)
    sat_step. eapply sat_eq; [apply (isLoadingEnabled_laid_out L e Hc)|].
    cbv beta iota. sat_step. simpl. sat_step. sat_step. sat_step. sat_step.
    rewrite Hn2. sat_run; loading_hidden.
  - (* the state recorded is falsy *)
    sat_step. rewrite Hif. sat_run; loading_hidden.
Qed.

(** With a layout completed, a request to show is dropped at once: nothing
    is handed to [vsync.mutate], and the state recorded ends up false. *)
Lemma toggleLoading_show_laid_out (L : Collaborators) (opt_cleanup : bool)
  (e : Element) :
  (1 <= layoutCount_ e)%nat ->
  sat (toggleLoading_ L true opt_cleanup) e
    (λ r s' t, t = []
               ∧ (r = Ok tt -> loadingState_ s' = Some false)).
Proof.
  intros Hc. destruct (noloading_cached_frame e) as (Hn1 & Hn2 & _).
  unfold toggleLoading_. sat_run.
  - eapply sat_eq.
    + apply (isLoadingEnabled_laid_out L (set_loadingState_ (Some true) e) Hc).
    + cbv beta iota. sat_run. simpl.
      sat_run. simpl. auto.
  - split; [reflexivity | discriminate].
Qed.

(** C6: for every element whose [layoutCount_] is at least 1,
    [isLoadingEnabled_] is false, and no operation can turn the loading
    indicator on: viewport entry and exit, a layout-box update,
    [toggleLoading_], the deferred 100ms callback, the pre-initialisation
    of the container and the mutate callback all keep [layoutCount_] and
    leave a hidden indicator hidden, whatever the viewport state; a
    request to show hands nothing to the mutation phase, and a pending
    mutate callback resolves to hidden. *)
Theorem loading_never_shown_once_laid_out (L : Collaborators) (e : Element) :
  (1 <= layoutCount_ e)%nat ->
  outcome_of (isLoadingEnabled_ L e) = Ok false
  ∧ (∀ op, loading_op_ok op = true ->
       layoutCount_ (state_of (run_loading_op L op e)) = layoutCount_ e
       ∧ (loading_shown e = false ->
          loading_shown (state_of (run_loading_op L op e)) = false))
  ∧ (∀ opt_cleanup,
       events_of (toggleLoading_ L true opt_cleanup e) = []
       ∧ (outcome_of (toggleLoading_ L true opt_cleanup e) = Ok tt ->
          loadingState_ (state_of (toggleLoading_ L true opt_cleanup e))
          = Some false))
  ∧ (∀ opt_cleanup,
       loading_shown (state_of (toggleLoading_mutate L opt_cleanup e)) = false).
Proof.
  intros Hc. split; [|split; [|split]].
  - rewrite (isLoadingEnabled_laid_out L e Hc). reflexivity.
  - intros op Hop. destruct op as [b|box|state c|t]; simpl.
    + apply viewportCallback_keeps_off.
    + apply updateLayoutBox_keeps_off.
    + apply toggleLoading_keeps_off.
    + destruct t; simpl in Hop; try discriminate.
      * apply viewportLoading_keeps_off.
      * apply prepareLoading_keeps_off.
      * destruct (toggleLoading_mutate_laid_out L opt_cleanup e Hc)
          as [Hs Hl]. split; [exact Hl | intros _; exact Hs].
  - intros c. apply (toggleLoading_show_laid_out L c e Hc).
  - intros c. apply (toggleLoading_mutate_laid_out L c e Hc).
Qed.

Lemma loading_never_shown_once_laid_out_witness :
  outcome_of (isLoadingEnabled_ sample_collaborators laid_out_img) = Ok false
  ∧ loading_shown
      (state_of (viewportLoading sample_collaborators laid_out_img)) = false
  ∧ loading_shown
      (state_of (toggleLoading_mutate sample_collaborators false
                   (set_loadingState_ (Some true) laid_out_img))) = false.
Proof.
  split; [|split].
  - apply (loading_never_shown_once_laid_out sample_collaborators
             laid_out_img). simpl. lia.
  - apply (proj1 (proj2 (loading_never_shown_once_laid_out
                           sample_collaborators laid_out_img
                           ltac:(simpl; lia)))
             (L_runTask T_viewportLoading) eq_refl).
    reflexivity.
  - apply (proj2 (proj2 (proj2 (loading_never_shown_once_laid_out
                                  sample_collaborators
                                  (set_loadingState_ (Some true) laid_out_img)
                                  ltac:(simpl; lia))))).
Defined.

(** Before any layout the same element, in the viewport, does get its
    indicator: the bound on [layoutCount_] is what keeps it off. *)
Lemma loading_shown_before_layout :
  loading_shown
    (state_of (toggleLoading_mutate sample_collaborators false
                 (set_loadingState_ (Some true)
                    (set_layoutCount_ 0%nat laid_out_img)))) = true.
Proof. vm_compute. reflexivity. Qed.

(** ** The registry *)

Lemma upgradeStub_step (name : string) (toClass : ImplClass) (h : nat)
  (w : World) (t : list WorldEvent) :
  let r := upgradeStub name toClass h (w, t) in
  knownElements r.1 = knownElements w
  ∧ stubbedElements r.1 = stubbedElements w
  ∧ elements r.1
    = match elements w !! h with
      | Some element => <[h := stub_upgraded name toClass element]> (elements w)
      | None => elements w
      end
  ∧ r.2 = t ++ stub_events name toClass (elements w) h.
Proof.
  unfold upgradeStub, stub_events, stub_upgraded, tag_matches.
  destruct (elements w !! h) as [el|] eqn:Hel; simpl.
  - destruct (bool_decide (toLowerCase (tagName el) = name)).
    + unfold outcome_of, state_of, events_of.
      destruct (upgrade toClass el) as [[[u|e] el'] evs]; simpl;
        rewrite ?app_nil_r; auto.
    + rewrite app_nil_r, list_insert_id by exact Hel. auto.
  - rewrite app_nil_r. auto.
Qed.

Lemma stub_events_insert_ne (name : string) (toClass : ImplClass)
  (els : list Element) (h h' : nat) (el : Element) :
  h ≠ h' ->
  stub_events name toClass (<[h := el]> els) h'
  = stub_events name toClass els h'.
Proof.
  intros Hne. unfold stub_events.
  rewrite list_lookup_insert_ne by exact Hne. reflexivity.
Qed.

(** The loop, over stubs with distinct handles: each stub is handled on the
    element as it stood before the loop. *)
Lemma upgradeStub_loop (name : string) (toClass : ImplClass) (l : list nat) :
  ∀ (w : World) (t : list WorldEvent),
    NoDup l ->
    let r := foldl (λ acc h, upgradeStub name toClass h acc) (w, t) l in
    knownElements r.1 = knownElements w
    ∧ stubbedElements r.1 = stubbedElements w
    ∧ r.2 = t ++ flat_map (stub_events name toClass (elements w)) l
    ∧ (∀ h, elements r.1 !! h
            = if decide (h ∈ l)
              then stub_upgraded name toClass <$> elements w !! h
              else elements w !! h).
Proof.
  induction l as [|h l IH]; intros w t Hnd; cbv zeta.
  - simpl. rewrite app_nil_r. split; [|split; [|split]]; auto.
  - apply NoDup_cons in Hnd as [Hh Hnd]. cbn [foldl].
    destruct (upgradeStub_step name toClass h w t) as (Hk & Hs & He & Ht).
    destruct (upgradeStub name toClass h (w, t)) as [w1 t1].
    cbn [fst snd] in *.
    destruct (IH w1 t1 Hnd) as (Hk' & Hs' & Ht' & He').
    split; [|split; [|split]].
    + congruence.
    + congruence.
    + rewrite Ht', Ht, <- app_assoc. f_equal. cbn [flat_map]. f_equal.
      assert (Hext : ∀ l', (∀ h', h' ∈ l' -> h' ≠ h) ->
                flat_map (stub_events name toClass (elements w1)) l'
                = flat_map (stub_events name toClass (elements w)) l').
      { induction l' as [|a l' IHl']; intros Hall; [reflexivity|].
        simpl. rewrite IHl' by (intros; apply Hall, elem_of_cons; auto).
        f_equal. rewrite He.
        destruct (elements w !! h); [|reflexivity].
        apply stub_events_insert_ne. intros ->.
        apply (Hall a); [apply elem_of_cons; auto | reflexivity]. }
      apply Hext. intros h' Hin ->. contradiction.
    + intros h'. rewrite He'. rewrite He.
      destruct (decide (h' = h)) as [->|Hne].
      * rewrite (decide_False (P := h ∈ l)) by exact Hh.
        rewrite (decide_True (P := h ∈ h :: l)) by (apply elem_of_cons; auto).
        destruct (elements w !! h) as [el|] eqn:Hel; simpl.
        -- apply list_lookup_insert_eq. eapply lookup_lt_Some, Hel.
        -- exact Hel.
      * assert (Hiff : h' ∈ h :: l ↔ h' ∈ l)
          by (rewrite elem_of_cons; tauto).
        assert (Hlk : match elements w !! h with
                      | Some element =>
                          <[h := stub_upgraded name toClass element]> (elements w)
                      | None => elements w
                      end !! h' = elements w !! h').
        { destruct (elements w !! h); [|reflexivity].
          apply list_lookup_insert_ne. congruence. }
        rewrite Hlk.
        destruct (decide (h' ∈ l)).
        -- rewrite decide_True by (apply Hiff; assumption). reflexivity.
        -- rewrite decide_False by (rewrite Hiff; assumption). reflexivity.
Qed.

(** Whatever the list of stubs, the loop leaves the registry and the list
    itself alone. *)
Lemma upgradeStub_loop_registry (name : string) (toClass : ImplClass)
  (l : list nat) :
  ∀ (w : World) (t : list WorldEvent),
    knownElements (foldl (λ acc h, upgradeStub name toClass h acc) (w, t) l).1
    = knownElements w
    ∧ stubbedElements
        (foldl (λ acc h, upgradeStub name toClass h acc) (w, t) l).1
      = stubbedElements w.
Proof.
  induction l as [|h l IH]; intros w t; [auto|]. cbn [foldl].
  destruct (upgradeStub_step name toClass h w t) as (Hk & Hs & _).
  destruct (upgradeStub name toClass h (w, t)) as [w1 t1].
  cbn [fst snd] in *. destruct (IH w1 t1) as [Hk' Hs']. split; congruence.
Qed.

(** C10: for every tag name present in the registry: when the entry is not
    the stub, [upgradeOrRegisterElement] fails a user assertion and leaves
    the registry and every element as they were; when the entry is the
    stub (and the class registered is not the stub itself), the call
    returns normally whatever the upgrades do, and the entry becomes the
    new class while the other entries are kept; the stubs being distinct,
    each stub element with the matching tag is upgraded, once, in the order
    of [stubbedElements]: an upgrade that throws is reported and the
    elements after it are upgraded all the same; the other elements are
    untouched. *)
Theorem upgradeOrRegisterElement_registered (name : string)
  (toClass known : ImplClass) (w : World) :
  knownElements w !! name = Some known ->
  (isElementStub known = false ->
   ∃ msg, upgradeOrRegisterElement name toClass w
          = (Throw (UserAssertError msg), w, []))
  ∧ (isElementStub known = true ->
     isElementStub toClass = false ->
     let r := upgradeOrRegisterElement name toClass w in
     outcome_of_world r = Ok tt
     ∧ knownElements (state_of_world r) = <[name := toClass]> (knownElements w)
     ∧ stubbedElements (state_of_world r) = stubbedElements w
     ∧ (NoDup (stubbedElements w) ->
        r.2 = flat_map (stub_events name toClass (elements w))
                (stubbedElements w)
        ∧ (∀ h element,
             elements w !! h = Some element ->
             elements (state_of_world r) !! h
             = Some (if decide (h ∈ stubbedElements w)
                     then stub_upgraded name toClass element
                     else element)))).
Proof.
  intros Hk. unfold upgradeOrRegisterElement. rewrite Hk. split.
  - intros ->. eexists. reflexivity.
  - intros -> _. cbv zeta.
    pose proof (upgradeStub_loop_registry name toClass
                  (stubbedElements w)
                  (set_knownElements (<[name := toClass]> (knownElements w)) w)
                  []) as [Hk1 Hs1].
    pose proof (upgradeStub_loop name toClass
                  (stubbedElements w)
                  (set_knownElements (<[name := toClass]> (knownElements w)) w)
                  []) as Hloop.
    cbv zeta in Hloop. cbn [stubbedElements set_knownElements] in *.
    destruct (foldl _ _ _) as [w2 t].
    cbn [fst snd] in *.
    unfold outcome_of_world, state_of_world. cbn [fst snd].
    split; [reflexivity|]. split; [exact Hk1|]. split; [exact Hs1|].
    intros Hnd. destruct (Hloop Hnd) as (_ & _ & Ht2 & He2).
    split; [exact Ht2|].
    intros h el Hel. rewrite He2. simpl. rewrite Hel.
    destruct (decide (h ∈ stubbedElements w)); reflexivity.
Qed.

Lemma sample_world_NoDup (known : ImplClass) :
  NoDup (stubbedElements (sample_world known)).
Proof. simpl. apply (bool_decide_unpack _). vm_compute. exact I. Qed.

Lemma upgradeOrRegisterElement_registered_witness :
  (∃ msg, upgradeOrRegisterElement "amp-img" failing_class
            (sample_world sample_class)
          = (Throw (UserAssertError msg), sample_world sample_class, []))
  ∧ outcome_of_world (upgradeOrRegisterElement "amp-img" failing_class
                        (sample_world sample_stub)) = Ok tt
  ∧ (upgradeOrRegisterElement "amp-img" failing_class
       (sample_world sample_stub)).2
    = [ OnElement 0 (EvHook H_constructor);
        OnElement 0 (EvHook H_createdCallback);
        Global (EvReportError
                  (LayoutNotSupported "Layout not supported: " FIXED));
        OnElement 2 (EvHook H_constructor);
        OnElement 2 (EvHook H_createdCallback) ].
Proof.
  split.
  - apply (upgradeOrRegisterElement_registered "amp-img" failing_class
             sample_class (sample_world sample_class));
      [vm_compute; reflexivity | reflexivity].
  - destruct (upgradeOrRegisterElement_registered "amp-img" failing_class
                sample_stub (sample_world sample_stub)) as [_ Hb].
    + vm_compute. reflexivity.
    + destruct (Hb eq_refl eq_refl) as (Ho & _ & _ & Hev).
      destruct (Hev (sample_world_NoDup sample_stub)) as [Hev' _].
      split; [exact Ho | exact Hev'].
Defined.

(** ** The action queue over the life of the element *)

Lemma scheduled_app (t1 t2 : list Event) :
  scheduled (t1 ++ t2) = scheduled t1 ++ scheduled t2.
Proof. apply omap_app. Qed.

Lemma drain_free_app (t1 t2 : list Event) :
  drain_free (t1 ++ t2) = drain_free t1 && drain_free t2.
Proof. unfold drain_free. rewrite scheduled_app. apply forallb_app. Qed.

#[local] Instance queue_frame_closed : Closed queue_frame.
Proof.
  split.
  - intros s. repeat split.
  - intros s s1 s2 t1 t2 (H1 & H2 & H3) (H4 & H5 & H6).
    repeat split; try congruence.
    rewrite drain_free_app, H3, H6. reflexivity.
Qed.

Ltac frame_leaf := try (split; [reflexivity | split; reflexivity]).

Lemma applyLayout_frame (L : Collaborators) :
  respects queue_frame (applyLayout_ L).
Proof. unfold applyLayout_. respects_run; frame_leaf. Qed.

Lemma isLoadingEnabled_frame (L : Collaborators) :
  respects queue_frame (isLoadingEnabled_ L).
Proof. unfold isLoadingEnabled_. respects_run; frame_leaf. Qed.

Lemma prepareLoading_frame (L : Collaborators) :
  respects queue_frame (prepareLoading_ L).
Proof. unfold prepareLoading_. respects_run; frame_leaf. Qed.

Lemma toggleLoading_frame (L : Collaborators) (state opt_cleanup : bool) :
  respects queue_frame (toggleLoading_ L state opt_cleanup).
Proof.
  unfold toggleLoading_.
  repeat (respects_step || apply isLoadingEnabled_frame); frame_leaf.
Qed.

Lemma toggleLoading_mutate_frame (L : Collaborators) (opt_cleanup : bool) :
  respects queue_frame (toggleLoading_mutate L opt_cleanup).
Proof.
  unfold toggleLoading_mutate.
  repeat (respects_step || apply isLoadingEnabled_frame
          || apply prepareLoading_frame); frame_leaf.
Qed.

Lemma construct_frame (c : ImplClass) : respects queue_frame (construct c).
Proof.
  intros s. unfold construct, state_of, events_of.
  destruct (constructor_hook c); simpl; repeat split.
Qed.

Lemma upgrade_frame (c : ImplClass) : respects queue_frame (upgrade c).
Proof.
  unfold upgrade.
  repeat (respects_step || apply construct_frame); frame_leaf.
Qed.

Lemma firstAttachedCallback_frame (L : Collaborators) :
  respects queue_frame (firstAttachedCallback_ L).
Proof.
  unfold firstAttachedCallback_.
  repeat (respects_step || apply applyLayout_frame); frame_leaf.
Qed.

Lemma attachedCallback_frame (L : Collaborators) (closestTemplate : bool) :
  respects queue_frame (attachedCallback L closestTemplate).
Proof.
  unfold attachedCallback.
  repeat (respects_step || apply firstAttachedCallback_frame); frame_leaf.
Qed.

Lemma detachedCallback_frame : respects queue_frame detachedCallback.
Proof. unfold detachedCallback. respects_run; frame_leaf. Qed.

Lemma layoutCallback_frame : respects queue_frame layoutCallback.
Proof.
  unfold layoutCallback. respects_run; frame_leaf.
  match goal with
  | |- context [match ?p with Ok _ => _ | Throw _ => _ end] => destruct p
  end; frame_leaf.
Qed.

Lemma layoutResolved_frame (L : Collaborators) :
  respects queue_frame (layoutResolved L).
Proof.
  unfold layoutResolved.
  repeat (respects_step || apply toggleLoading_frame); frame_leaf.
Qed.

Lemma layoutRejected_frame (L : Collaborators) (reason : JsError) :
  respects queue_frame (layoutRejected L reason).
Proof.
  unfold layoutRejected.
  repeat (respects_step || apply toggleLoading_frame); frame_leaf.
Qed.

Lemma viewportLoading_frame (L : Collaborators) :
  respects queue_frame (viewportLoading L).
Proof.
  unfold viewportLoading.
  repeat (respects_step || apply toggleLoading_frame); frame_leaf.
Qed.

Lemma viewportCallback_frame (L : Collaborators) (inViewport : bool) :
  respects queue_frame (viewportCallback L inViewport).
Proof.
  unfold viewportCallback.
  repeat (respects_step || apply toggleLoading_frame); frame_leaf.
Qed.

Lemma updateLayoutBox_frame (L : Collaborators) (layoutBox : LayoutRect) :
  respects queue_frame (updateLayoutBox L layoutBox).
Proof.
  unfold updateLayoutBox.
  repeat (respects_step || apply toggleLoading_frame
          || apply isLoadingEnabled_frame); frame_leaf.
Qed.

Lemma pauseCallback_frame : respects queue_frame pauseCallback.
Proof. unfold pauseCallback. respects_run; frame_leaf. Qed.

Lemma resumeCallback_frame : respects queue_frame resumeCallback.
Proof. unfold resumeCallback. respects_run; frame_leaf. Qed.

Lemma unlayoutCallback_frame : respects queue_frame unlayoutCallback.
Proof. unfold unlayoutCallback. respects_run; frame_leaf. Qed.

Lemma executionAction_frame (i : ActionInvocation) (deferred : bool) :
  respects queue_frame (executionAction_ i deferred).
Proof. unfold executionAction_. respects_run; frame_leaf. Qed.

Lemma queue_frame_step (e e' : Element) (t : list Event) :
  queue_frame e e' t -> queue_step e e' t.
Proof.
  intros (Hb & Hq & Hd). unfold queue_step, queue_transition.
  rewrite Hb, Hq, Hd. split; [auto|]. split; [discriminate|].
  destruct (actionQueue_ e) as [q|]; [|reflexivity].
  left. exists []. rewrite app_nil_r. reflexivity.
Qed.

(** Leaves where neither the flag nor the queue moved. *)
Ltac queue_leaf :=
  simpl;
  try (apply queue_frame_step; split; [reflexivity | split; reflexivity]).

Lemma enqueAction_queue_step (i : ActionInvocation) (e : Element) :
  queue_step e (state_of (enqueAction i e)) (events_of (enqueAction i e)).
Proof.
  change (sat (enqueAction i) e (λ _ s' t, queue_step e s' t)).
  unfold enqueAction. sat_run; queue_leaf.
  - (* appended to the queue of an unbuilt element *)
    unfold queue_step, queue_transition. simpl. rewrite Hcase.
    split; [auto|]. split; [discriminate|]. left. eauto.
  - (* executed at once on a built element *)
    unfold executionAction_. sat_run; queue_leaf.
Qed.

Lemma build_queue_step (e : Element) :
  queue_step e (state_of (build e)) (events_of (build e)).
Proof.
  change (sat build e (λ _ s' t, queue_step e s' t)).
  unfold build. sat_run; queue_leaf.
  all: unfold queue_step, queue_transition; simpl in *.
  all: split; [auto|]; split; [auto|].
  all: try match goal with
           | H : actionQueue_ _ = _ |- _ => rewrite H
           end.
  all: try (left; exists []; rewrite app_nil_r; reflexivity).
  all: try reflexivity.
  all: try (right; repeat split; left;
            match goal with
            | H : Nat.ltb 0 (length ?l) = false |- _ =>
                destruct l; [reflexivity | discriminate H]
            end).
  all: match goal with
       | |- match ?q with _ => _ end =>
           destruct q;
           [left; exists []; rewrite app_nil_r; reflexivity | reflexivity]
       end.
Qed.

Lemma dequeueActions_queue_step (e : Element) :
  built_ e = true ->
  queue_step e (state_of (dequeueActions_ e)) (events_of (dequeueActions_ e)).
Proof.
  intros Hb. destruct (actionQueue_ e) as [q|] eqn:Hq.
  - rewrite (dequeueActions_run e q Hq).
    unfold queue_step, queue_transition, state_of, events_of. simpl.
    rewrite Hq, Hb, executed_action_events. split; [auto|]. split; [auto|].
    right. auto.
  - rewrite (dequeueActions_drained e Hq). apply queue_frame_step.
    repeat split.
Qed.

Lemma run_op_queue_step (L : Collaborators) (op : Op) (e : Element) :
  queue_step e (state_of (run_op L op e)) (events_of (run_op L op e)).
Proof.
  destruct op; simpl;
    try (apply queue_frame_step;
         first [ apply upgrade_frame | apply updateLayoutBox_frame
               | apply attachedCallback_frame | apply detachedCallback_frame
               | apply layoutCallback_frame | apply viewportCallback_frame
               | apply pauseCallback_frame | apply resumeCallback_frame ]).
  - apply build_queue_step.
  - apply queue_frame_step.
    assert (H : respects queue_frame (let* _ := unlayoutCallback in skip)).
    { repeat (respects_step || apply unlayoutCallback_frame). }
    apply H.
  - apply enqueAction_queue_step.
Qed.

Lemma runTask_queue_step (L : Collaborators) (task : Task) (e : Element) :
  (task = T_dequeueActions -> built_ e = true) ->
  queue_step e (state_of (runTask L task e)) (events_of (runTask L task e)).
Proof.
  intros Hb. destruct task; simpl.
  - apply dequeueActions_queue_step. auto.
  - apply queue_frame_step.
    assert (H : respects queue_frame
                  (call (H_preconnectCallback false)
                     (λ c, preconnectCallback_hook c false))).
    { respects_run; frame_leaf. }
    apply H.
  - apply queue_frame_step, viewportLoading_frame.
  - apply queue_frame_step, prepareLoading_frame.
  - apply queue_frame_step, toggleLoading_mutate_frame.
  - apply queue_frame_step, layoutResolved_frame.
  - apply queue_frame_step, layoutRejected_frame.
Qed.

Lemma drain_scheduled (t : list Event) :
  T_dequeueActions ∈ scheduled t -> drain_free t = false.
Proof.
  unfold drain_free. induction (scheduled t) as [|task l IH]; intros Hin.
  - apply elem_of_nil in Hin. contradiction.
  - apply elem_of_cons in Hin as [<-|Hin]; simpl.
    + reflexivity.
    + rewrite (IH Hin). apply andb_false_r.
Qed.

Lemma queue_invariant_preserved (e e' : Element) (p p' : list Task)
  (t : list Event) :
  queue_invariant {| elem := e; pending := p |} ->
  queue_step e e' t ->
  (∀ task, task ∈ p' -> task ∈ p ∨ task ∈ scheduled t) ->
  queue_invariant {| elem := e'; pending := p' |}.
Proof.
  unfold queue_invariant, queue_step, queue_transition. simpl.
  intros [Hq Hd] (Hmono & Hdrain & Htrans) Hp. split.
  - intros Hb'. destruct (built_ e) eqn:Hb; [rewrite Hmono in Hb'; congruence|].
    destruct (Hq eq_refl) as [q Hsome]. rewrite Hsome in Htrans.
    destruct Htrans as [[l ->]|(_ & Hbuilt & _)]; [eauto | congruence].
  - intros Hin. destruct (Hp _ Hin) as [Hold|Hnew].
    + auto.
    + apply Hdrain, drain_scheduled, Hnew.
Qed.

Lemma step_queue_step (L : Collaborators) (s s' : Sys) (t : list Event) :
  queue_invariant s -> step L s t s' ->
  queue_step (elem s) (elem s') t ∧ queue_invariant s'.
Proof.
  intros Hinv Hstep. destruct Hstep as [op s|task before after s Hp].
  - pose proof (run_op_queue_step L op (elem s)) as Hq. split; [exact Hq|].
    destruct s as [e p]. simpl in *.
    eapply queue_invariant_preserved; [exact Hinv | exact Hq |].
    intros task Hin. apply elem_of_app in Hin. exact Hin.
  - assert (Hq : queue_step (elem s) (state_of (runTask L task (elem s)))
                   (events_of (runTask L task (elem s)))).
    { apply runTask_queue_step. intros ->. apply Hinv. rewrite Hp.
      apply elem_of_app. right. apply elem_of_cons. auto. }
    split; [exact Hq|]. destruct s as [e p]. simpl in *. subst p.
    eapply queue_invariant_preserved; [exact Hinv | exact Hq |].
    intros task' Hin. rewrite !elem_of_app in Hin. rewrite elem_of_app.
    rewrite elem_of_cons. tauto.
Qed.

Lemma createdCallback_queue (node : DomElement) (Ctor : ImplClass)
  (e : Element) (t : list Event) :
  createdCallback node Ctor = (Ok e, t) ->
  built_ e = false ∧ actionQueue_ e = Some [] ∧ in_template e = false.
Proof.
  unfold createdCallback.
  destruct (constructor_hook Ctor); [|discriminate].
  destruct (createdCallback_hook Ctor); [|discriminate].
  intros [= <- _]. repeat split.
Qed.

Lemma reachable_queue_invariant (L : Collaborators) (s : Sys) :
  reachable L s -> queue_invariant s.
Proof.
  induction 1 as [node Ctor e t Hc|s s' t Hr IH Hstep].
  - destruct (createdCallback_queue _ _ _ _ Hc) as (Hb & Hq & _).
    split; simpl.
    + rewrite Hq. eauto.
    + intros Hin. apply elem_of_nil in Hin. contradiction.
  - apply (step_queue_step L s s' t IH Hstep).
Qed.

(** C9: in every state that an element reaches after its [createdCallback]
    returned, by calls of its methods and by its waiting callbacks firing:
    while the element is not built its action queue is a list, so that
    [enqueAction] (outside a template) finds it and appends the invocation;
    a drain is only waiting on a built element; and every step keeps the
    queue, possibly extended at its end, or nulls it on a built element,
    the queue being then empty (the build) or its invocations being
    executed in order by that very step (the drain): no queued action is
    dropped. *)
Theorem action_queue_kept_until_built (L : Collaborators) (s : Sys) :
  reachable L s ->
  (built_ (elem s) = false ->
   ∃ q, actionQueue_ (elem s) = Some q
        ∧ ∀ i, in_template (elem s) = false ->
               enqueAction i (elem s)
               = (Ok tt, set_actionQueue_ (Some (q ++ [i])) (elem s), []))
  ∧ (T_dequeueActions ∈ pending s -> built_ (elem s) = true)
  ∧ (∀ t s', step L s t s' ->
       (built_ (elem s) = true -> built_ (elem s') = true)
       ∧ queue_transition (elem s) (elem s') t).
Proof.
  intros Hr. pose proof (reachable_queue_invariant L s Hr) as Hinv.
  split; [|split].
  - intros Hb. destruct (proj1 Hinv Hb) as [q Hq]. exists q.
    split; [exact Hq|]. intros i Ht.
    apply (enqueAction_unbuilt (elem s) q i Hb Ht Hq).
  - apply Hinv.
  - intros t s' Hstep.
    destruct (step_queue_step L s s' t Hinv Hstep) as [(Hm & _ & Hq) _].
    auto.
Qed.

Lemma sys_enqueued_reachable : reachable sample_collaborators sys_enqueued.
Proof.
  eapply reachable_step.
  - apply (reachable_created sample_collaborators
             (sample_dom "AMP-IMG" [("width", "300"); ("height", "200")])
             flaky_class fresh_flaky
             [EvHook H_constructor; EvHook H_createdCallback]).
    reflexivity.
  - apply (step_call sample_collaborators (Op_enqueAction (action "a"))
             sys_created).
Qed.

Lemma action_queue_kept_until_built_witness :
  ∃ q, actionQueue_ (elem sys_enqueued) = Some q
       ∧ ∀ i, in_template (elem sys_enqueued) = false ->
              enqueAction i (elem sys_enqueued)
              = (Ok tt, set_actionQueue_ (Some (q ++ [i])) (elem sys_enqueued),
                 []).
Proof.
  apply (proj1 (action_queue_kept_until_built sample_collaborators
                  sys_enqueued sys_enqueued_reachable)).
  reflexivity.
Defined.

(** * Further properties

    ** Registration of a new name *)



(** ** Stubbing *)

Lemma stubScript_known (ElementStub known : ImplClass) (w : World)
  (extended : gmap string (option bool)) (t : list WorldEvent)
  (name : string) :
  knownElements w !! name = Some known ->
  stubScript ElementStub (w, extended, t) name
  = (w, <[name := Some true]> extended, t).
Proof. intros H. unfold stubScript. rewrite H. reflexivity. Qed.

Lemma stubScript_unknown (ElementStub : ImplClass) (w : World)
  (extended : gmap string (option bool)) (t : list WorldEvent)
  (name : string) :
  knownElements w !! name = None ->
  stubScript ElementStub (w, extended, t) name
  = (set_knownElements (<[name := ElementStub]> (knownElements w)) w,
     <[name := Some true]> extended,
     t ++ [Global (EvDocumentRegisterElement name)]).
Proof. intros H. unfold stubScript. rewrite H. reflexivity. Qed.

(** What the loop of [stubElements] keeps and establishes. *)
Lemma stubScript_loop (ElementStub : ImplClass) (names : list string) :
  ∀ (w : World) (extended : gmap string (option bool)) (t : list WorldEvent),
    let r := foldl (stubScript ElementStub) (w, extended, t) names in
    stubbedElements r.1.1 = stubbedElements w
    ∧ elements r.1.1 = elements w
    ∧ (∀ n c, knownElements w !! n = Some c ->
              knownElements r.1.1 !! n = Some c)
    ∧ (∀ n c, knownElements r.1.1 !! n = Some c ->
              knownElements w !! n = Some c
              ∨ (knownElements w !! n = None ∧ c = ElementStub ∧ n ∈ names))
    ∧ (∀ n v, extended !! n = Some v -> n ∉ names -> r.1.2 !! n = Some v)
    ∧ (∀ n, n ∈ names ->
            is_Some (knownElements r.1.1 !! n)
            ∧ r.1.2 !! n = Some (Some true))
    ∧ ((∀ n, n ∈ names -> is_Some (knownElements w !! n)) ->
       knownElements r.1.1 = knownElements w ∧ r.2 = t).
Proof.
  induction names as [|name names IH]; intros w extended t; cbv zeta.
  - cbn [foldl fst snd].
    split; [reflexivity|]. split; [reflexivity|]. split; [auto|].
    split; [auto|]. split; [auto|]. split; [|auto].
    intros n Hn. apply elem_of_nil in Hn. contradiction.
  - cbn [foldl].
    destruct (knownElements w !! name) as [known|] eqn:Hname.
    + rewrite (stubScript_known _ _ _ _ _ _ Hname).
      specialize (IH w (<[name := Some true]> extended) t). cbv zeta in IH.
      destruct (foldl _ _ names) as [[w' ext'] t'].
      cbn [fst snd] in *.
      destruct IH as (Hs & He & Hkeep & Hnew & Hext & Hcov & Hsame).
      split; [exact Hs|]. split; [exact He|]. split; [exact Hkeep|].
      split; [|split; [|split]].
      * intros n c Hc. destruct (Hnew n c Hc) as [?|(? & ? & ?)]; [auto|].
        right. rewrite elem_of_cons. auto.
      * intros n v Hv Hn. rewrite elem_of_cons in Hn.
        apply Hext; [|tauto]. rewrite lookup_insert_ne by (intros ->; tauto).
        exact Hv.
      * intros n Hn. apply elem_of_cons in Hn as [->|Hn]; [|auto].
        split; [rewrite (Hkeep _ _ Hname); eauto|].
        destruct (decide (name ∈ names)) as [Hin|Hin].
        -- apply Hcov, Hin.
        -- apply Hext; [apply lookup_insert_eq | exact Hin].
      * intros Hall. apply Hsame. intros n Hn. apply Hall.
        rewrite elem_of_cons. auto.
    + rewrite (stubScript_unknown _ _ _ _ _ Hname).
      specialize (IH (set_knownElements
                        (<[name := ElementStub]> (knownElements w)) w)
                    (<[name := Some true]> extended)
                    (t ++ [Global (EvDocumentRegisterElement name)])).
      cbv zeta in IH. destruct (foldl _ _ names) as [[w' ext'] t'].
      cbn [fst snd knownElements stubbedElements elements set_knownElements]
        in *.
      destruct IH as (Hs & He & Hkeep & Hnew & Hext & Hcov & Hsame).
      split; [exact Hs|]. split; [exact He|].
      split; [|split; [|split; [|split]]].
      * intros n c Hc. apply Hkeep.
        rewrite lookup_insert_ne by congruence. exact Hc.
      * intros n c Hc. destruct (Hnew n c Hc) as [Hold|(Hold & -> & Hin)].
        -- destruct (decide (name = n)) as [->|Hne].
           ++ rewrite lookup_insert_eq in Hold. injection Hold as <-.
              right. rewrite elem_of_cons. auto.
           ++ rewrite lookup_insert_ne in Hold by exact Hne. auto.
        -- destruct (decide (name = n)) as [->|Hne].
           ++ rewrite lookup_insert_eq in Hold. discriminate.
           ++ rewrite lookup_insert_ne in Hold by exact Hne.
              right. rewrite elem_of_cons. auto.
      * intros n v Hv Hn. rewrite elem_of_cons in Hn.
        apply Hext; [|tauto]. rewrite lookup_insert_ne by (intros ->; tauto).
        exact Hv.
      * intros n Hn. apply elem_of_cons in Hn as [->|Hn]; [|auto].
        split; [rewrite (Hkeep name ElementStub (lookup_insert_eq _ _ _));
                eauto|].
        destruct (decide (name ∈ names)) as [Hin|Hin].
        -- apply Hcov, Hin.
        -- apply Hext; [apply lookup_insert_eq | exact Hin].
      * intros Hall. destruct (Hall name) as [c Hc].
        { rewrite elem_of_cons. auto. }
        congruence.
Qed.

Lemma stubScript_loop_marked (ElementStub : ImplClass) (names : list string) :
  ∀ (w : World) (extended : gmap string (option bool)) (t : list WorldEvent),
    (∀ n, n ∈ names -> extended !! n = Some (Some true)) ->
    (foldl (stubScript ElementStub) (w, extended, t) names).1.2 = extended.
Proof.
  induction names as [|name names IH]; intros w extended t Hall;
    [reflexivity|].
  cbn [foldl].
  assert (Hid : <[name := Some true]> extended = extended).
  { apply insert_id, Hall, elem_of_cons. auto. }
  assert (Hrest : ∀ n, n ∈ names -> extended !! n = Some (Some true)).
  { intros n Hn. apply Hall, elem_of_cons. auto. }
  destruct (knownElements w !! name) as [known|] eqn:Hname.
  - rewrite (stubScript_known _ _ _ _ _ _ Hname), Hid. apply IH, Hrest.
  - rewrite (stubScript_unknown _ _ _ _ _ Hname), Hid. apply IH, Hrest.
Qed.

(** The first block of [stubElements]: what the loop starts from. *)
Lemma stubElements_start (ElementStub : ImplClass) (w : World) (win : Window) :
  ∃ w1 extended1 t1,
    stubElements ElementStub w win
    = (let '(w2, extended2, t2) :=
         foldl (stubScript ElementStub) (w1, extended1, t1)
           (customElementScripts win) in
       (w2, set_ampExtendedElements (Some extended2) win, t2,
        negb (hasBody win)))
    ∧ stubbedElements w1 = stubbedElements w
    ∧ elements w1 = elements w
    ∧ (∀ n c, knownElements w !! n = Some c ->
              knownElements w1 !! n = Some c)
    ∧ (∀ n c, knownElements w1 !! n = Some c ->
              knownElements w !! n = Some c
              ∨ (knownElements w !! n = None ∧ c = ElementStub))
    ∧ (∀ extended, ampExtendedElements win = Some extended ->
                   knownElements w1 = knownElements w
                   ∧ extended1 = extended ∧ t1 = []).
Proof.
  unfold stubElements.
  destruct (ampExtendedElements win) as [extended|].
  - exists w, extended, []. repeat split; auto. congruence.
  - destruct (knownElements w !! "amp-ad") as [ad|] eqn:Had;
      [|destruct (knownElements w !! "amp-embed") as [embed|] eqn:Hembed].
    + exists w, ∅, []. repeat split; auto; discriminate.
    + exists w, ∅, []. repeat split; auto; discriminate.
    + unfold registerElement.
      eexists _, _, _. split; [reflexivity|].
      cbn [knownElements stubbedElements elements set_knownElements].
      split; [reflexivity|]. split; [reflexivity|].
      split; [|split; [|discriminate]].
      * intros n c Hc.
        rewrite !lookup_insert_ne by congruence. exact Hc.
      * intros n c Hc.
        destruct (decide ("amp-embed" = n)) as [<-|Hne1].
        { rewrite lookup_insert_eq in Hc. injection Hc as <-. auto. }
        rewrite lookup_insert_ne in Hc by exact Hne1.
        destruct (decide ("amp-ad" = n)) as [<-|Hne2].
        { rewrite lookup_insert_eq in Hc. injection Hc as <-. auto. }
        rewrite lookup_insert_ne in Hc by exact Hne2. auto.
Qed.

(** What [stubElements] yields, in one statement. *)
Lemma stubElements_result (ElementStub : ImplClass) (w : World)
  (win : Window) :
  ∃ w' extended' t',
    stubElements ElementStub w win
    = (w', set_ampExtendedElements (Some extended') win, t',
       negb (hasBody win))
    ∧ stubbedElements w' = stubbedElements w
    ∧ elements w' = elements w
    ∧ (∀ n c, knownElements w !! n = Some c ->
              knownElements w' !! n = Some c)
    ∧ (∀ n c, knownElements w !! n = None ->
              knownElements w' !! n = Some c -> c = ElementStub)
    ∧ (∀ n, n ∈ customElementScripts win ->
            is_Some (knownElements w' !! n)
            ∧ extended' !! n = Some (Some true))
    ∧ (∀ extended,
         ampExtendedElements win = Some extended ->
         (∀ n, n ∈ customElementScripts win ->
               is_Some (knownElements w !! n)) ->
         knownElements w' = knownElements w ∧ t' = []
         ∧ ((∀ n, n ∈ customElementScripts win ->
                  extended !! n = Some (Some true)) ->
            extended' = extended)).
Proof.
  destruct (stubElements_start ElementStub w win)
    as (w1 & ext1 & t1 & -> & Hs1 & He1 & Hkeep1 & Hnew1 & Hstart).
  pose proof (stubScript_loop_marked ElementStub (customElementScripts win)
                w1 ext1 t1) as Hmarked.
  destruct (stubScript_loop ElementStub (customElementScripts win) w1 ext1 t1)
    as (Hs & He & Hkeep & Hnew & _ & Hcov & Hsame).
  destruct (foldl _ _ _) as [[w2 ext2] t2].
  cbn [fst snd] in *. exists w2, ext2, t2.
  split; [reflexivity|]. split; [congruence|]. split; [congruence|].
  split; [auto|]. split; [|split; [exact Hcov|]].
  - intros n c Hnone Hc.
    destruct (Hnew n c Hc) as [Hold|(_ & -> & _)]; [|reflexivity].
    destruct (Hnew1 n c Hold) as [Hold'|[_ ->]]; [congruence|reflexivity].
  - intros extended Hext Hall.
    destruct (Hstart extended Hext) as (Hk1 & -> & ->).
    destruct Hsame as [Hk2 Ht2].
    { intros n Hn. rewrite Hk1. auto. }
    split; [congruence|]. split; [exact Ht2|]. exact Hmarked.
Qed.


(** X3: stubbing again, with the same scripts, registers nothing: no
    effect, and the registry and the marks are as the first stubbing left
    them. *)
Theorem stubElements_again (ElementStub : ImplClass) (w : World)
  (win : Window) :
  let r := stubElements ElementStub w win in
  let r' := stubElements ElementStub (stubbed_world r) (stubbed_window r) in
  stubbed_events r' = []
  ∧ knownElements (stubbed_world r') = knownElements (stubbed_world r)
  ∧ ampExtendedElements (stubbed_window r')
    = ampExtendedElements (stubbed_window r).
Proof.
  cbv zeta.
  destruct (stubElements_result ElementStub w win)
    as (w' & ext' & t' & -> & _ & _ & _ & _ & Hcov & _).
  unfold stubbed_world, stubbed_window, stubbed_events. cbn [fst snd].
  destruct (stubElements_result ElementStub w'
              (set_ampExtendedElements (Some ext') win))
    as (w'' & ext'' & t'' & -> & _ & _ & _ & _ & _ & Hsame).
  cbn [fst snd ampExtendedElements customElementScripts
       set_ampExtendedElements] in *.
  destruct (Hsame ext' eq_refl) as (Hk & Ht & Hext).
  { intros n Hn. apply Hcov, Hn. }
  split; [exact Ht|]. split; [exact Hk|].
  rewrite Hext; [reflexivity|]. intros n Hn. apply Hcov, Hn.
Qed.



(** ** Aliases and the test helpers *)



(** ** Layout resolution, further *)

Lemma sat_mono {A} (m : M A) s
  (Q Q' : Outcome A -> Element -> list Event -> Prop) :
  sat m s Q' -> (∀ r s' t, Q' r s' t -> Q r s' t) -> sat m s Q.
Proof. unfold sat. auto. Qed.

Lemma classList_contains_add_other (c d : string) (l : list string) :
  classList_contains c l = true ->
  classList_contains c (classList_add d l) = true.
Proof.
  unfold classList_contains, classList_add. intros H.
  destruct (bool_decide (d ∈ l)); [exact H|].
  apply bool_decide_eq_true_1 in H. apply bool_decide_eq_true_2.
  apply elem_of_app. auto.
Qed.

Lemma applyLayoutUi_applies (L : Collaborators) (layout : Layout)
  (width height : option string) (s : Element) :
  sat (applyLayoutUi L layout width height) s
    (λ r s' t, r = Ok layout ∧ t = []
               ∧ layout_applied L layout width height s s').
Proof.
  unfold applyLayoutUi, layout_applied.
  destruct layout; sat_run; simpl;
    rewrite ?classList_contains_add,
      ?(classList_contains_add_other _ _ _ (classList_contains_add _ _));
    repeat split; try congruence; try reflexivity;
    destruct width, height; try reflexivity;
    repeat match goal with
           | H : truthy _ = _ |- _ =>
               first [ solve [cbv in H; discriminate H]
                     | rewrite H; clear H ]
           end; reflexivity.
Qed.

(** Symbolic execution of [applyLayout_] up to "Apply UI". *)
Ltac sat_validate :=
  repeat lazymatch goal with
         | |- sat (bind (classList_add_this _) _) _ _ => fail
         | _ => sat_step
         end.

Lemma applyLayout_post (L : Collaborators) (e : Element) :
  sat (applyLayout_ L) e
    (λ r s' t,
       t = []
       ∧ match r with
         | Throw _ => s' = e
         | Ok layout => layout_resolved L e layout s'
         end).
Proof.
  unfold applyLayout_. sat_validate.
  all: try (simpl; split; reflexivity).
  all: match goal with
       | |- sat (bind (classList_add_this (getLayoutClass _ ?x)) _) _ _ =>
           remember x as layout eqn:Hlayout in *
       end.
  all: match goal with
       | |- sat ?m ?s ?Q =>
           match m with
           | context [getLayoutClass ?L' ?l] =>
               match m with
               | context [style_set "width" ?w] =>
                   match m with
                   | context [style_set "height" ?h] =>
                       let H' := fresh "Hui" in
                       assert (H' : applyLayoutUi L' l w h = m)
                         by (unfold applyLayoutUi;
                             repeat match goal with
                                    | H : truthy _ = _ |- _ =>
                                        rewrite ?H; clear H
                                    end; reflexivity);
                       rewrite <- H'; clear H';
                       apply (sat_mono _ _ _ _
                                (applyLayoutUi_applies L' l w h s))
                   end
               end
           end
       end.
  all: intros r s' t (-> & -> & Happlied); split; [reflexivity|].
  all: unfold layout_resolved; split; [|split].
  all: try (intros s explicit Hget Htr Hparse; unfold getAttribute in *;
            rewrite Hget in *;
            match goal with
            | H : (if truthy (Some s) then _ else _) = Some _ |- _ =>
                rewrite Htr, Hparse in H; simpl in H; injection H as <-
            end; exact Hlayout).
  all: try (intros Hh;
            match goal with
            | H : bool_decide (getAttribute _ "heights" = None) = true |- _ =>
                apply bool_decide_eq_true_1 in H; contradiction
            | H : in_layouts _ [RESPONSIVE] = true |- _ => exact H
            end).
  all: eexists _, _; split; [exact Happlied|].
  all: repeat split; intros; try congruence; try assumption.
  all: match goal with
       | H : bool_decide _ = true |- _ => apply bool_decide_eq_true_1 in H;
                                          exact H
       end.
Qed.

Lemma applyLayout_run (L : Collaborators) (e : Element) :
  events_of (applyLayout_ L e) = []
  ∧ match outcome_of (applyLayout_ L e) with
    | Throw _ => state_of (applyLayout_ L e) = e
    | Ok layout => layout_resolved L e layout (state_of (applyLayout_ L e))
    end.
Proof. exact (applyLayout_post L e). Qed.

Lemma in_layouts_here (l : Layout) (ls : list Layout) :
  in_layouts l (l :: ls) = true.
Proof. apply bool_decide_eq_true_2. left. Qed.

Lemma in_layouts_one (l x : Layout) : in_layouts l [x] = true -> l = x.
Proof.
  intros H. apply bool_decide_eq_true_1 in H.
  apply list_elem_of_singleton in H. exact H.
Qed.

Lemma truthy_Some (v : option string) :
  truthy v = true -> ∃ s, v = Some s ∧ s ≠ EmptyString.
Proof.
  destruct v as [s|]; [|discriminate]. unfold truthy.
  intros H. exists s. split; [reflexivity|].
  apply negb_true_iff, bool_decide_eq_false_1 in H. exact H.
Qed.

Lemma not_auto (s : string) : is_auto (Some s) = false -> s ≠ "auto".
Proof.
  unfold is_auto. intros H ->. apply bool_decide_eq_false_1 in H.
  apply H. reflexivity.
Qed.

(** X7: layout resolution writes nothing before its last check has passed:
    a run of [applyLayout_] that throws leaves the element exactly as it
    was, and no run of it calls a hook, reports or schedules anything. *)
Theorem applyLayout_failure_is_atomic (L : Collaborators) (e : Element)
  (err : JsError) :
  outcome_of (applyLayout_ L e) = Throw err ->
  state_of (applyLayout_ L e) = e ∧ events_of (applyLayout_ L e) = [].
Proof.
  intros Hthrow. destruct (applyLayout_run L e) as [Hev Hpost].
  rewrite Hthrow in Hpost. split; assumption.
Qed.

Lemma applyLayout_failure_is_atomic_witness :
  outcome_of (applyLayout_ sample_collaborators img_fixed_no_height)
  = Throw (UserAssertError "Expected height to be available: %s")
  ∧ state_of (applyLayout_ sample_collaborators img_fixed_no_height)
    = img_fixed_no_height
  ∧ events_of (applyLayout_ sample_collaborators img_fixed_no_height) = [].
Proof.
  split; [vm_compute; reflexivity|].
  apply (applyLayout_failure_is_atomic sample_collaborators
           img_fixed_no_height
           (UserAssertError "Expected height to be available: %s")).
  vm_compute. reflexivity.
Defined.

(** X8: a non-empty [layout] attribute decides the layout: when
    [parseLayout] does not know it, [applyLayout_] throws "Unknown layout"
    and leaves the element untouched; when it does, a run that returns
    returns that layout, whatever the other attributes are. *)
Theorem applyLayout_explicit_layout (L : Collaborators) (e : Element)
  (s : string) :
  getAttribute e "layout" = Some s ->
  s ≠ EmptyString ->
  match parseLayout L s with
  | None =>
      applyLayout_ L e = (Throw (UserAssertError "Unknown layout: %s"), e, [])
  | Some explicit =>
      ∀ layout, outcome_of (applyLayout_ L e) = Ok layout -> layout = explicit
  end.
Proof.
  intros Hget Hs.
  assert (Htr : truthy (Some s) = true).
  { unfold truthy. apply negb_true_iff, bool_decide_eq_false_2. exact Hs. }
  destruct (parseLayout L s) as [explicit|] eqn:Hparse.
  - intros layout Hok. destruct (applyLayout_run L e) as [_ Hpost].
    rewrite Hok in Hpost. destruct Hpost as [Hexp _].
    exact (Hexp s explicit Hget Htr Hparse).
  - unfold applyLayout_, bind, this. cbn [fst snd].
    rewrite Hget, Htr, Hparse. reflexivity.
Qed.

Lemma applyLayout_explicit_layout_witness :
  applyLayout_ sample_collaborators img_unknown_layout
  = (Throw (UserAssertError "Unknown layout: %s"), img_unknown_layout, [])
  ∧ ∀ layout,
      outcome_of
        (applyLayout_ sample_collaborators
           (img_explicit_responsive "300" "200"))
      = Ok layout ->
      layout = RESPONSIVE.
Proof.
  split.
  - apply (applyLayout_explicit_layout sample_collaborators
             img_unknown_layout "floating"); [reflexivity | discriminate].
  - apply (applyLayout_explicit_layout sample_collaborators
             (img_explicit_responsive "300" "200") "responsive");
      [reflexivity | discriminate].
Defined.

(** X9: a [heights] attribute is only accepted with the responsive layout:
    on an element that carries one, a run of [applyLayout_] that returns
    returns RESPONSIVE (every other layout fails the last check). *)
Theorem applyLayout_heights_only_responsive (L : Collaborators)
  (e : Element) (layout : Layout) :
  getAttribute e "heights" ≠ None ->
  outcome_of (applyLayout_ L e) = Ok layout ->
  layout = RESPONSIVE.
Proof.
  intros Hh Hok. destruct (applyLayout_run L e) as [_ Hpost].
  rewrite Hok in Hpost. destruct Hpost as (_ & Hheights & _).
  apply in_layouts_one, Hheights, Hh.
Qed.

Lemma applyLayout_heights_only_responsive_witness :
  outcome_of (applyLayout_ sample_collaborators img_heights) = Ok RESPONSIVE
  ∧ RESPONSIVE = RESPONSIVE.
Proof.
  split; [vm_compute; reflexivity|].
  apply (applyLayout_heights_only_responsive sample_collaborators
           img_heights RESPONSIVE).
  - vm_compute. discriminate.
  - vm_compute. reflexivity.
Defined.

(** X10: what a run of [applyLayout_] that returns has written, per layout:
    the layout class (and the size-defined class when the layout is size
    defined); for FIXED a non-empty width other than "auto" and a non-empty
    height, both assigned to the style; for FIXED_HEIGHT a non-empty
    height, assigned, the width never; for RESPONSIVE no style at all but a
    sizer as first child, its padding the ratio of a height and a width of
    the same units; for FILL and CONTAINER nothing; for NODISPLAY
    [display: none]; the children are kept in every other case. *)
Theorem applyLayout_applies_layout (L : Collaborators) (e : Element)
  (layout : Layout) :
  outcome_of (applyLayout_ L e) = Ok layout ->
  let s' := state_of (applyLayout_ L e) in
  classList_contains (getLayoutClass L layout) (classList s') = true
  ∧ (isLayoutSizeDefined L layout = true ->
     classList_contains "-amp-layout-size-defined" (classList s') = true)
  ∧ match layout with
    | NODISPLAY =>
        style s' = <["display" := "none"]> (style e)
        ∧ childNodes s' = childNodes e
    | FIXED =>
        ∃ w h, w ≠ EmptyString ∧ w ≠ "auto" ∧ h ≠ EmptyString
               ∧ style s' = <["height" := h]> (<["width" := w]> (style e))
               ∧ childNodes s' = childNodes e
    | FIXED_HEIGHT =>
        ∃ h, h ≠ EmptyString
             ∧ style s' = <["height" := h]> (style e)
             ∧ childNodes s' = childNodes e
    | RESPONSIVE =>
        ∃ w h, w ≠ EmptyString ∧ w ≠ "auto" ∧ h ≠ EmptyString
               ∧ getLengthUnits L w = getLengthUnits L h
               ∧ style s' = style e
               ∧ childNodes s' = sizer_node :: childNodes e
               ∧ sizerElement_ s'
                 = Some {| sizer_display := "block";
                           sizer_paddingTop := RatioPercent h w |}
    | FILL | CONTAINER =>
        style s' = style e ∧ childNodes s' = childNodes e
    | FLEX_ITEM => childNodes s' = childNodes e
    end.
Proof.
  intros Hok s'. destruct (applyLayout_run L e) as [_ Hpost].
  rewrite Hok in Hpost.
  destruct Hpost as (_ & _ & width & height & Happlied & Hh & Hfh & Hw & Hu).
  destruct Happlied as (Hclass & Hsized & _ & _ & Hui).
  split; [exact Hclass|]. split; [exact Hsized|].
  destruct layout; try exact Hui.
  - (* FIXED *)
    destruct (truthy_Some height (Hh (in_layouts_here _ _))) as (h & -> & Hne).
    specialize (Hw (in_layouts_here _ _)).
    apply andb_true_iff in Hw as [Htw Haw].
    destruct (truthy_Some width Htw) as (w & -> & Hnw).
    exists w, h. destruct Hui as [Hst Hch].
    apply negb_true_iff, not_auto in Haw. auto.
  - (* FIXED_HEIGHT *)
    assert (Hin : in_layouts FIXED_HEIGHT [FIXED; FIXED_HEIGHT; RESPONSIVE]
                  = true) by reflexivity.
    destruct (truthy_Some height (Hh Hin)) as (h & -> & Hne).
    exists h. destruct Hui as [Hst Hch]. auto.
  - (* RESPONSIVE *)
    assert (Hin : in_layouts RESPONSIVE [FIXED; FIXED_HEIGHT; RESPONSIVE]
                  = true) by reflexivity.
    assert (Hin' : in_layouts RESPONSIVE [FIXED; RESPONSIVE] = true)
      by reflexivity.
    destruct (truthy_Some height (Hh Hin)) as (h & -> & Hne).
    specialize (Hw Hin'). apply andb_true_iff in Hw as [Htw Haw].
    destruct (truthy_Some width Htw) as (w & -> & Hnw).
    specialize (Hu (in_layouts_here _ _)).
    exists w, h. destruct Hui as (Hst & Hch & Hsz).
    apply negb_true_iff, not_auto in Haw. repeat split; auto.
  - (* FLEX_ITEM *)
    exact (proj2 Hui).
Qed.

Lemma applyLayout_applies_layout_witness :
  let s' := state_of (applyLayout_ sample_collaborators img_responsive) in
  classList_contains "-amp-layout-responsive" (classList s') = true
  ∧ childNodes s' = [sizer_node].
Proof.
  intros s'.
  destruct (applyLayout_applies_layout sample_collaborators img_responsive
              RESPONSIVE) as (Hclass & _ & w & h & _ & _ & _ & _ & _ & Hch & _).
  - vm_compute. reflexivity.
  - split; [exact Hclass | exact Hch].
Defined.

#[local] Instance ui_frame_closed : Closed ui_frame.
Proof.
  split.
  - intros s. split; [reflexivity|]. unfold only_ui_changed.
    destruct s; reflexivity.
  - intros s s1 s2 t1 t2 [-> H1] [-> H2]. split; [reflexivity|].
    unfold only_ui_changed in *. destruct s, s1, s2; simpl in *.
    injection H1 as -> -> -> -> -> -> -> -> -> -> -> -> -> -> -> ->.
    injection H2 as -> -> -> -> -> -> -> -> -> -> -> -> -> -> -> ->.
    reflexivity.
Qed.

Lemma applyLayout_ui_frame (L : Collaborators) :
  respects ui_frame (applyLayout_ L).
Proof.
  unfold applyLayout_. respects_run.
  all: try (split; [reflexivity|]; unfold only_ui_changed;
            match goal with |- context [set_classList _ ?s] =>
              destruct s; reflexivity end).
Qed.

(** X11: layout resolution touches the UI of the element only: after any
    run of [applyLayout_] every field other than the class list, the style,
    the children and the sizer is as before (the layout it returns is
    stored by its caller), so neither the lifecycle flags, nor the
    implementation, nor the action queue are written. *)
Theorem applyLayout_touches_ui_only (L : Collaborators) (e : Element) :
  let s' := state_of (applyLayout_ L e) in
  s' = set_sizerElement_ (sizerElement_ s')
         (set_childNodes (childNodes s')
            (set_style (style s') (set_classList (classList s') e)))
  ∧ layout_ s' = layout_ e
  ∧ built_ s' = built_ e
  ∧ everAttached s' = everAttached e
  ∧ implementation_ s' = implementation_ e
  ∧ actionQueue_ s' = actionQueue_ e.
Proof.
  intros s'. destruct (applyLayout_ui_frame L e) as [_ H].
  fold s' in H. unfold only_ui_changed in H.
  split; [exact H|]. rewrite H. destruct e; simpl. auto.
Qed.

(** X12: the explicit responsive layout with a width and a height that
    [parseLength] reads: when the two lengths have the same units the run
    returns RESPONSIVE and inserts the sizer, whose padding is the ratio of
    the height to the width, as first child; when their units differ the
    run throws "Length units should be the same" and the element is
    untouched. *)
Theorem applyLayout_responsive_units (L : Collaborators) (e : Element)
  (s ws hs w h : string) :
  getAttribute e "layout" = Some s ->
  s ≠ EmptyString ->
  parseLayout L s = Some RESPONSIVE ->
  getAttribute e "width" = Some ws ->
  ws ≠ EmptyString -> ws ≠ "auto" ->
  parseLength L ws = Some w ->
  w ≠ EmptyString -> w ≠ "auto" ->
  getAttribute e "height" = Some hs ->
  hs ≠ EmptyString ->
  parseLength L hs = Some h ->
  h ≠ EmptyString ->
  if bool_decide (getLengthUnits L w = getLengthUnits L h)
  then outcome_of (applyLayout_ L e) = Ok RESPONSIVE
       ∧ childNodes (state_of (applyLayout_ L e)) = sizer_node :: childNodes e
       ∧ sizerElement_ (state_of (applyLayout_ L e))
         = Some {| sizer_display := "block";
                   sizer_paddingTop := RatioPercent h w |}
  else applyLayout_ L e
       = (Throw (UserAssertError
                   "Length units should be the same for width and height: %s, %s"),
          e, []).
Proof.
  intros Hl Hs Hpl Hw Hws Hwa Hpw Hwn Hwna Hh Hhs Hph Hhn.
  assert (Ts : truthy (Some s) = true)
    by (apply negb_true_iff, bool_decide_eq_false_2; exact Hs).
  assert (Tws : truthy (Some ws) = true)
    by (apply negb_true_iff, bool_decide_eq_false_2; exact Hws).
  assert (Tw : truthy (Some w) = true)
    by (apply negb_true_iff, bool_decide_eq_false_2; exact Hwn).
  assert (Ths : truthy (Some hs) = true)
    by (apply negb_true_iff, bool_decide_eq_false_2; exact Hhs).
  assert (Th : truthy (Some h) = true)
    by (apply negb_true_iff, bool_decide_eq_false_2; exact Hhn).
  assert (Aws : is_auto (Some ws) = false)
    by (apply bool_decide_eq_false_2; congruence).
  assert (Aw : is_auto (Some w) = false)
    by (apply bool_decide_eq_false_2; congruence).
  unfold applyLayout_, bind, this, user_assert, skip, ret, throw, outcome_of,
    state_of.
  cbn [fst snd].
  rewrite Hl, Hw, Hh, Ts, Tws, Ths, Aws, Hpl, Hpw, Hph.
  cbn -[truthy is_auto in_layouts getLengthUnits classList_add_this
        style_set assign].
  rewrite Tw, Th.
  rewrite (bool_decide_eq_false_2 (Some RESPONSIVE = Some FIXED)),
    (bool_decide_eq_false_2 (Some RESPONSIVE = Some FIXED_HEIGHT))
    by discriminate.
  cbn -[truthy is_auto getLengthUnits classList_add_this style_set assign].
  rewrite Tw, Th, Aw.
  cbn -[truthy is_auto getLengthUnits classList_add_this style_set assign].
  destruct (bool_decide (getLengthUnits L w = getLengthUnits L h));
    [|reflexivity].
  unfold classList_add_this, assign.
  destruct (isLayoutSizeDefined L RESPONSIVE); simpl; auto.
Qed.

Lemma applyLayout_responsive_units_witness :
  (outcome_of
     (applyLayout_ sample_collaborators (img_explicit_responsive "300" "200"))
   = Ok RESPONSIVE
   ∧ childNodes
       (state_of
          (applyLayout_ sample_collaborators
             (img_explicit_responsive "300" "200")))
     = sizer_node :: []
   ∧ sizerElement_
       (state_of
          (applyLayout_ sample_collaborators
             (img_explicit_responsive "300" "200")))
     = Some {| sizer_display := "block";
               sizer_paddingTop := RatioPercent "200px" "300px" |})
  ∧ applyLayout_ unit_collaborators (img_explicit_responsive "300px" "200")
    = (Throw (UserAssertError
                "Length units should be the same for width and height: %s, %s"),
       img_explicit_responsive "300px" "200", []).
Proof.
  split.
  - apply (applyLayout_responsive_units sample_collaborators
             (img_explicit_responsive "300" "200")
             "responsive" "300" "200" "300px" "200px");
      first [reflexivity | discriminate].
  - apply (applyLayout_responsive_units unit_collaborators
             (img_explicit_responsive "300px" "200")
             "responsive" "300px" "200" "300px" "200");
      first [reflexivity | discriminate].
Defined.

(** ** Attachment, further *)

#[local] Instance keeps_closed {B} (f : Element -> B) : Closed (keeps f).
Proof.
  split.
  - intros s. reflexivity.
  - intros s s1 s2 t1 t2 H1 H2. unfold keeps in *. congruence.
Qed.

Lemma sat_respects {A} (T : Element -> Element -> list Event -> Prop)
  (m : M A) s (Q : Outcome A -> Element -> list Event -> Prop) :
  respects T m -> (∀ r s' t, T s s' t -> Q r s' t) -> sat m s Q.
Proof. intros Hm HQ. apply HQ, Hm. Qed.

Lemma applyLayout_keeps {B} (f : Element -> B) (L : Collaborators) :
  (∀ s c st ch sz,
      f (set_sizerElement_ sz
           (set_childNodes ch (set_style st (set_classList c s)))) = f s) ->
  respects (keeps f) (applyLayout_ L).
Proof.
  intros Hf s. destruct (applyLayout_ui_frame L s) as [_ H].
  unfold keeps. rewrite H. apply Hf.
Qed.

Lemma firstAttachedCallback_keeps_attach (L : Collaborators) :
  respects (keeps (λ e, (everAttached e, isInTemplate_ e)))
    (firstAttachedCallback_ L).
Proof.
  unfold firstAttachedCallback_.
  repeat (respects_step
          || (apply applyLayout_keeps; intros; reflexivity));
    reflexivity.
Qed.

Lemma attachedCallback_state (L : Collaborators) (closestTemplate : bool)
  (e : Element) :
  sat (attachedCallback L closestTemplate) e
    (λ _ s' _,
       isInTemplate_ s' = isInTemplate_ (attach_entry L closestTemplate e)
       ∧ (in_template s' = false -> everAttached s' = true)).
Proof.
  unfold attachedCallback, attach_entry, in_template.
  destruct (TEMPLATE_TAG_SUPPORTED L); sat_run.
  all: try (simpl; split; [reflexivity|]; intros; congruence).
  all: try (apply (sat_respects _ _ _ _ (firstAttachedCallback_keeps_attach L));
            intros r s' t [= Ha Ht]; simpl in Ha, Ht;
            destruct r; sat_run; rewrite Ha, Ht; simpl; auto).
  all: split; [reflexivity|]; intros Hout; simpl in *; try congruence;
    repeat match goal with
           | H : negb _ = false |- _ => apply negb_false_iff in H
           end; congruence.
Qed.

(** X13: the first-attach work is done on the first attachment only.  Once
    [attachedCallback] has run outside a template the element is marked as
    attached, whether or not its first-attach hook or its layout failed;
    [detachedCallback] then only stops the resource tracking and forwards
    to the implementation, leaving the element as it is; and a later
    [attachedCallback] does nothing but register the element with the
    resources again: no layout resolution, no hook, no event dispatched. *)
Theorem reattach_skips_first_attach (L : Collaborators)
  (closestTemplate again : bool) (e : Element) :
  let s1 := state_of (attachedCallback L closestTemplate e) in
  in_template s1 = false ->
  (TEMPLATE_TAG_SUPPORTED L = false -> again = false) ->
  everAttached s1 = true
  ∧ detachedCallback s1
    = (detachedCallback_hook (impl_class (implementation_ s1)), s1,
       [EvResourcesRemove; EvHook H_detachedCallback])
  ∧ attachedCallback L again s1 = (Ok tt, s1, [EvResourcesAdd]).
Proof.
  intros s1 Ht Hagain.
  destruct (attachedCallback_state L closestTemplate e) as [Htpl Hatt].
  fold s1 in Htpl, Hatt. specialize (Hatt Ht).
  split; [exact Hatt|]. unfold in_template in Ht. split.
  - unfold detachedCallback. js_unfold. rewrite Ht. simpl.
    destruct (detachedCallback_hook _); reflexivity.
  - unfold attachedCallback. js_unfold.
    destruct (TEMPLATE_TAG_SUPPORTED L) eqn:Hsup; simpl.
    + rewrite Ht, Hatt. reflexivity.
    + rewrite (Hagain eq_refl). simpl. rewrite Hatt. simpl.
      unfold attach_entry in Htpl. rewrite Hsup in Htpl. simpl in Htpl.
      rewrite Htpl in Ht. simpl in Ht. subst closestTemplate.
      replace (set_isInTemplate_ (Some false) s1) with s1; [reflexivity|].
      destruct s1; simpl in *. rewrite Htpl. reflexivity.
Qed.

Lemma reattach_skips_first_attach_witness :
  let s1 := state_of (attachedCallback sample_collaborators false fresh_flaky)
  in
  In (EvHook H_firstAttachedCallback)
    (events_of (attachedCallback sample_collaborators false fresh_flaky))
  ∧ attachedCallback sample_collaborators false s1
    = (Ok tt, s1, [EvResourcesAdd]).
Proof.
  intros s1. split; [vm_compute; auto|].
  refine (proj2 (proj2 (reattach_skips_first_attach sample_collaborators
                          false false fresh_flaky _ _))).
  - vm_compute. reflexivity.
  - intros _. reflexivity.
Defined.

(** ** Inside a template *)



(** ** Layout *)

(** The run of [layoutCallback] outside a template. *)
Lemma layoutCallback_run (e : Element) :
  in_template e = false ->
  layoutCallback e
  = if upgraded e && built_ e
    then
      match layoutCallback_hook (impl_class (implementation_ e)) with
      | Throw err =>
          (Throw err, e,
           [EvDispatch "amp:load:start"; EvHook H_layoutCallback])
      | Ok promise =>
          match preconnectCallback_hook (impl_class (implementation_ e)) true
          with
          | Throw err =>
              (Throw err, e,
               [EvDispatch "amp:load:start"; EvHook H_layoutCallback;
                EvHook (H_preconnectCallback true)])
          | Ok _ =>
              (Ok tt,
               set_classList (classList_add "-amp-layout" (classList e)) e,
               [EvDispatch "amp:load:start"; EvHook H_layoutCallback;
                EvHook (H_preconnectCallback true);
                EvPromiseThen match promise with
                              | Ok _ => T_layoutResolved
                              | Throw reason => T_layoutRejected reason
                              end])
          end
      end
    else
      (Throw (DevAssertError
                "Must be upgraded and built to receive viewport events"),
       e, []).
Proof.
  unfold in_template, upgraded. intros Ht.
  unfold layoutCallback. js_unfold. rewrite Ht. simpl.
  destruct (isElementStub (impl_class (implementation_ e))); simpl;
    [reflexivity|].
  destruct (built_ e); simpl; [|reflexivity].
  destruct (layoutCallback_hook _) as [promise|err]; simpl; [|reflexivity].
  destruct (preconnectCallback_hook _ true); simpl; reflexivity.
Qed.

(** X15: [layoutCallback] is guarded by "upgraded and built": otherwise it
    fails its assertion before anything happens.  On an upgraded and built
    element it dispatches "amp:load:start" and then calls the layout hook;
    when the hook throws, that is what [layoutCallback] throws, with the
    element untouched; when it returns its promise, the preconnect hook is
    called, and when that returns the class [-amp-layout] is set and the
    completion is left to the promise: the layout count and the ready state
    are not written by the call itself. *)
Theorem layoutCallback_guard_and_start (e : Element) :
  in_template e = false ->
  let c := impl_class (implementation_ e) in
  if upgraded e && built_ e
  then
    match layoutCallback_hook c with
    | Throw err =>
        layoutCallback e
        = (Throw err, e, [EvDispatch "amp:load:start"; EvHook H_layoutCallback])
    | Ok promise =>
        match preconnectCallback_hook c true with
        | Throw err =>
            layoutCallback e
            = (Throw err, e,
               [EvDispatch "amp:load:start"; EvHook H_layoutCallback;
                EvHook (H_preconnectCallback true)])
        | Ok _ =>
            layoutCallback e
            = (Ok tt,
               set_classList (classList_add "-amp-layout" (classList e)) e,
               [EvDispatch "amp:load:start"; EvHook H_layoutCallback;
                EvHook (H_preconnectCallback true);
                EvPromiseThen match promise with
                              | Ok _ => T_layoutResolved
                              | Throw reason => T_layoutRejected reason
                              end])
        end
    end
  else
    layoutCallback e
    = (Throw (DevAssertError
                "Must be upgraded and built to receive viewport events"),
       e, []).
Proof.
  intros Ht. cbv zeta. rewrite (layoutCallback_run e Ht).
  destruct (upgraded e && built_ e); [|reflexivity].
  destruct (layoutCallback_hook _) as [promise|err]; [|reflexivity].
  destruct (preconnectCallback_hook _ true); reflexivity.
Qed.

Lemma layoutCallback_guard_and_start_witness :
  layoutCallback fresh_sample
  = (Throw (DevAssertError
              "Must be upgraded and built to receive viewport events"),
     fresh_sample, []).
Proof.
  apply (layoutCallback_guard_and_start fresh_sample). reflexivity.
Defined.

(** The fulfilment callback of the layout, outside a template. *)
Lemma layoutResolved_run (L : Collaborators) (e : Element) :
  in_template e = false ->
  layoutResolved L e
  = (if Nat.eqb (layoutCount_ e) 0
     then firstLayoutCompleted_hook (impl_class (implementation_ e))
     else Ok tt,
     set_loadingState_ (Some false)
       (set_layoutCount_ (S (layoutCount_ e)) (set_readyState RS_complete e)),
     (if bool_decide (is_Some (loadingContainer_ e))
      then [EvVsyncMutate (T_toggleLoading true)] else [])
     ++ (if Nat.eqb (layoutCount_ e) 0
         then [EvHook H_firstLayoutCompleted] else [])).
Proof.
  unfold in_template. intros Ht.
  unfold layoutResolved, toggleLoading_. js_unfold. simpl. rewrite Ht. simpl.
  destruct (bool_decide (is_Some (loadingContainer_ e))); simpl;
    destruct (layoutCount_ e) as [|n]; simpl;
    try destruct (firstLayoutCompleted_hook _) as [[]|err]; auto.
Qed.

(** X16: when the promise of the layout is fulfilled, outside a template:
    the ready state becomes complete, the layout count grows by exactly
    one, the loading state is switched off, and a hiding of the indicator
    with cleanup is handed to vsync exactly when a loading container
    exists; the first-layout hook is called exactly when the count was 0,
    that is when it becomes 1, and it is the only thing that can make the
    callback throw. *)
Theorem layoutResolved_completes (L : Collaborators) (e : Element) :
  in_template e = false ->
  let r := layoutResolved L e in
  state_of r
  = set_loadingState_ (Some false)
      (set_layoutCount_ (S (layoutCount_ e)) (set_readyState RS_complete e))
  ∧ events_of r
    = (if bool_decide (is_Some (loadingContainer_ e))
       then [EvVsyncMutate (T_toggleLoading true)] else [])
      ++ (if Nat.eqb (layoutCount_ e) 0
          then [EvHook H_firstLayoutCompleted] else [])
  ∧ outcome_of r
    = (if Nat.eqb (layoutCount_ e) 0
       then firstLayoutCompleted_hook (impl_class (implementation_ e))
       else Ok tt).
Proof.
  intros Ht. cbv zeta. rewrite (layoutResolved_run L e Ht).
  unfold state_of, events_of, outcome_of. cbn [fst snd]. auto.
Qed.

Lemma layoutResolved_completes_witness :
  layoutCount_ (state_of (layoutResolved sample_collaborators fresh_sample))
  = 1%nat
  ∧ events_of (layoutResolved sample_collaborators fresh_sample)
    = [EvHook H_firstLayoutCompleted].
Proof.
  destruct (layoutResolved_completes sample_collaborators fresh_sample)
    as (Hs & Hev & _).
  - reflexivity.
  - split; [rewrite Hs; reflexivity | exact Hev].
Defined.

(** X17: when the promise of the layout is rejected, outside a template:
    the callback throws the very reason of the rejection, the layout count
    and the ready state stay as they were, no hook of the implementation is
    called, the loading state is switched off and the hiding of the
    indicator with cleanup is handed to vsync exactly when a loading
    container exists. *)
Theorem layoutRejected_keeps_count (L : Collaborators) (reason : JsError)
  (e : Element) :
  in_template e = false ->
  layoutRejected L reason e
  = (Throw reason, set_loadingState_ (Some false) e,
     if bool_decide (is_Some (loadingContainer_ e))
     then [EvVsyncMutate (T_toggleLoading true)] else [])
  ∧ layoutCount_ (state_of (layoutRejected L reason e)) = layoutCount_ e
  ∧ readyState (state_of (layoutRejected L reason e)) = readyState e.
Proof.
  unfold in_template. intros Ht.
  assert (Hrun : layoutRejected L reason e
                 = (Throw reason, set_loadingState_ (Some false) e,
                    if bool_decide (is_Some (loadingContainer_ e))
                    then [EvVsyncMutate (T_toggleLoading true)] else [])).
  { unfold layoutRejected, toggleLoading_. js_unfold. rewrite Ht. simpl.
    destruct (bool_decide (is_Some (loadingContainer_ e))); reflexivity. }
  rewrite Hrun. auto.
Qed.

Lemma layoutRejected_keeps_count_witness :
  layoutRejected sample_collaborators (HookError 7) fresh_sample
  = (Throw (HookError 7), set_loadingState_ (Some false) fresh_sample, []).
Proof.
  apply (layoutRejected_keeps_count sample_collaborators (HookError 7)
           fresh_sample).
  reflexivity.
Defined.

(** X18: the first-layout hook is tied to the count, not to the history of
    the element: on a built and upgraded element whose [unlayoutCallback]
    hook asks for a new layout, the count goes back to 0 whatever it was,
    and the next fulfilled layout brings it to 1 and calls
    [firstLayoutCompleted] again. *)
Theorem first_layout_hook_again_after_unlayout (L : Collaborators)
  (e : Element) :
  in_template e = false ->
  built_ e = true ->
  upgraded e = true ->
  unlayoutCallback_hook (impl_class (implementation_ e)) = Ok true ->
  let s1 := state_of (unlayoutCallback e) in
  let r := layoutResolved L s1 in
  layoutCount_ s1 = 0%nat
  ∧ layoutCount_ (state_of r) = 1%nat
  ∧ In (EvHook H_firstLayoutCompleted) (events_of r)
  ∧ outcome_of r = firstLayoutCompleted_hook (impl_class (implementation_ e)).
Proof.
  unfold in_template, upgraded. intros Ht Hb Hu Hh. cbv zeta.
  apply negb_true_iff in Hu.
  assert (Hrun : unlayoutCallback e = (Ok true, set_layoutCount_ 0%nat e,
                                       [EvHook H_unlayoutCallback])).
  { unfold unlayoutCallback. js_unfold. rewrite Ht. simpl.
    rewrite Hb, Hu. simpl. rewrite Hh. reflexivity. }
  replace (state_of (unlayoutCallback e)) with (set_layoutCount_ 0%nat e)
    by (rewrite Hrun; reflexivity).
  rewrite (layoutResolved_run L (set_layoutCount_ 0%nat e) Ht).
  unfold state_of, events_of, outcome_of. cbn [fst snd]. simpl.
  repeat split; auto.
  apply in_app_iff. right. left. reflexivity.
Qed.

Lemma first_layout_hook_again_after_unlayout_witness :
  layoutCount_ laid_out_built = 3%nat
  ∧ In (EvHook H_firstLayoutCompleted)
      (events_of (layoutResolved sample_collaborators
                    (state_of (unlayoutCallback laid_out_built)))).
Proof.
  split; [reflexivity|].
  refine (proj1 (proj2 (proj2 (first_layout_hook_again_after_unlayout
                                 sample_collaborators laid_out_built
                                 _ _ _ _)))); reflexivity.
Defined.

(** ** Build, further *)

(** X19: what a [build] that returns has done on an element that was not
    built.  The element was upgraded and outside a template; it is now
    built and has lost its two not-built classes; the build hook was called
    first and the early preconnect was handed to the timer; the viewport
    hook was called with [true] exactly when the element was already in the
    viewport; the drain of the action queue was scheduled exactly when the
    queue was not empty, an empty queue being dropped at once; and the
    implementation was asked for a placeholder exactly when the element had
    none, the placeholder it returned being appended as last child. *)
Theorem build_completes (e : Element) :
  built_ e = false ->
  outcome_of (build e) = Ok tt ->
  let s' := state_of (build e) in
  let c := impl_class (implementation_ e) in
  upgraded e = true
  ∧ in_template e = false
  ∧ built_ s' = true
  ∧ classList s'
    = classList_remove "amp-notbuilt"
        (classList_remove "-amp-notbuilt" (classList e))
  ∧ actionQueue_ s'
    = match actionQueue_ e with
      | Some [] => None
      | q => q
      end
  ∧ events_of (build e)
    = [EvHook H_buildCallback; EvTimerDelay T_preconnect 1]
      ++ (if isInViewport_ e then [EvHook (H_viewportCallback true)] else [])
      ++ match actionQueue_ e with
         | Some (_ :: _) => [EvTimerDelay T_dequeueActions 1]
         | _ => []
         end
      ++ match lastChildElementByAttr e "placeholder" with
         | Some _ => []
         | None => [EvHook H_createPlaceholderCallback]
         end
  ∧ childNodes s'
    = childNodes e
      ++ match lastChildElementByAttr e "placeholder",
               createPlaceholderCallback_hook c with
         | None, Ok (Some p) => [p]
         | _, _ => []
         end.
Proof.
  intros Hb. cbv zeta. unfold build, upgraded, in_template. js_unfold.
  destruct (truthyb (isInTemplate_ e)) eqn:Ht; simpl; [discriminate|].
  rewrite Hb.
  destruct (isElementStub (impl_class (implementation_ e))); simpl;
    [discriminate|].
  destruct (buildCallback_hook (impl_class (implementation_ e))); simpl;
    [|discriminate].
  unfold lastChildElementByAttr. simpl.
  destruct (isInViewport_ e) eqn:Hv; simpl;
    try (destruct (viewportCallback_hook _ true); simpl; [|discriminate]);
    destruct (actionQueue_ e) as [[|i q]|] eqn:Hq; simpl;
    destruct (last (filter _ (childNodes e))) eqn:Hp; simpl;
    try (destruct (createPlaceholderCallback_hook _) as [[p|]|]; simpl);
    intros Hok; try discriminate Hok;
    rewrite ?Hq, ?Hv, ?Hp, ?app_nil_r; repeat split; reflexivity.
Qed.

Lemma build_completes_witness :
  built_ (state_of (build fresh_sample)) = true
  ∧ events_of (build fresh_sample)
    = [EvHook H_buildCallback; EvTimerDelay T_preconnect 1;
       EvHook H_createPlaceholderCallback].
Proof.
  destruct (build_completes fresh_sample)
    as (_ & _ & Hb & _ & _ & Hev & _);
    [reflexivity | reflexivity |].
  split; [exact Hb | exact Hev].
Defined.

(** X20: only the build hook and the preconnect are inside the try block of
    [build].  When the element is already in the viewport and the viewport
    hook throws during the flush that follows, [build] throws that error
    without reporting it, and the element is nevertheless built: the two
    not-built classes are gone, the action queue is as it was and no drain
    of it has been scheduled, and a further [build] does nothing. *)
Theorem build_viewport_error_leaves_built (e : Element) (err : JsError) :
  upgraded e = true ->
  built_ e = false ->
  in_template e = false ->
  buildCallback_hook (impl_class (implementation_ e)) = Ok tt ->
  isInViewport_ e = true ->
  viewportCallback_hook (impl_class (implementation_ e)) true = Throw err ->
  let s' := state_of (build e) in
  outcome_of (build e) = Throw err
  ∧ events_of (build e)
    = [EvHook H_buildCallback; EvTimerDelay T_preconnect 1;
       EvHook (H_viewportCallback true)]
  ∧ built_ s' = true
  ∧ classList s'
    = classList_remove "amp-notbuilt"
        (classList_remove "-amp-notbuilt" (classList e))
  ∧ actionQueue_ s' = actionQueue_ e
  ∧ build s' = (Ok tt, s', []).
Proof.
  unfold upgraded, in_template. intros Hu Hb Ht Hh Hv Hvh. cbv zeta.
  apply negb_true_iff in Hu.
  assert (Hrun : build e
                 = (Throw err,
                    set_implementation_
                      (set_impl_inViewport_ (Some true) (implementation_ e))
                      (set_classList
                         (classList_remove "amp-notbuilt"
                            (classList_remove "-amp-notbuilt" (classList e)))
                         (set_built_ true e)),
                    [EvHook H_buildCallback; EvTimerDelay T_preconnect 1;
                     EvHook (H_viewportCallback true)])).
  { unfold build. js_unfold. rewrite Ht. simpl. rewrite Hb, Hu. simpl.
    rewrite Hh. simpl. rewrite Hv. simpl. rewrite Hvh. reflexivity. }
  rewrite Hrun. unfold outcome_of, events_of, state_of. cbn [fst snd].
  repeat split; try reflexivity.
  rewrite build_when_built by reflexivity.
  unfold in_template. simpl. rewrite Ht. reflexivity.
Qed.

Lemma build_viewport_error_leaves_built_witness :
  outcome_of (build in_viewport_unbuilt) = Throw (HookError 4)
  ∧ built_ (state_of (build in_viewport_unbuilt)) = true
  ∧ actionQueue_ (state_of (build in_viewport_unbuilt))
    = Some [action "play"].
Proof.
  destruct (build_viewport_error_leaves_built in_viewport_unbuilt
              (HookError 4))
    as (Ho & _ & Hb & _ & Hq & _); try reflexivity.
  split; [exact Ho|]. split; [exact Hb | exact Hq].
Defined.

(** ** Viewport *)

(** The run of [viewportCallback] outside a template. *)
Lemma viewportCallback_run (L : Collaborators) (inViewport : bool)
  (e : Element) :
  in_template e = false ->
  let ready := upgraded e && built_ e in
  let s0 := set_isInViewport_ inViewport e in
  let s1 := if Nat.eqb (layoutCount_ e) 0 && negb inViewport
            then set_loadingState_ (Some false) s0 else s0 in
  viewportCallback L inViewport e
  = (if ready
     then viewportCallback_hook (impl_class (implementation_ e)) inViewport
     else Ok tt,
     if ready
     then set_implementation_
            (set_impl_inViewport_ (Some inViewport) (implementation_ e)) s1
     else s1,
     (if Nat.eqb (layoutCount_ e) 0
      then if inViewport then [EvTimerDelay T_viewportLoading 100]
           else if bool_decide (is_Some (loadingContainer_ e))
                then [EvVsyncMutate (T_toggleLoading false)] else []
      else [])
     ++ (if ready then [EvHook (H_viewportCallback inViewport)] else [])).
Proof.
  unfold in_template, upgraded. intros Ht. cbv zeta.
  unfold viewportCallback, toggleLoading_. js_unfold. rewrite Ht. simpl.
  destruct (Nat.eqb (layoutCount_ e) 0); simpl;
    destruct inViewport; simpl; rewrite ?Ht; simpl;
    try destruct (bool_decide (is_Some (loadingContainer_ e))); simpl;
    destruct (isElementStub (impl_class (implementation_ e))); simpl;
    destruct (built_ e); simpl;
    try destruct (viewportCallback_hook _ _) as [[]|err]; reflexivity.
Qed.

(** X21: [viewportCallback] outside a template.  The new viewport state is
    always recorded on the element, built or not; the viewport hook of the
    implementation is called exactly when the element is both upgraded and
    built, with the state recorded on the implementation as well, and its
    outcome is that of the call; the indicator is never switched on by the
    call itself: entering the viewport with no layout completed only hands
    the 100 ms check to the timer, and once a layout has completed nothing
    at all is scheduled; the layout count and the built flag are not
    written. *)
Theorem viewportCallback_records_and_forwards (L : Collaborators)
  (inViewport : bool) (e : Element) :
  in_template e = false ->
  let r := viewportCallback L inViewport e in
  isInViewport_ (state_of r) = inViewport
  ∧ layoutCount_ (state_of r) = layoutCount_ e
  ∧ built_ (state_of r) = built_ e
  ∧ (In (EvHook (H_viewportCallback inViewport)) (events_of r)
     <-> upgraded e && built_ e = true)
  ∧ (upgraded e && built_ e = true ->
     impl_inViewport_ (implementation_ (state_of r)) = Some inViewport
     ∧ outcome_of r
       = viewportCallback_hook (impl_class (implementation_ e)) inViewport)
  ∧ (upgraded e && built_ e = false ->
     implementation_ (state_of r) = implementation_ e
     ∧ outcome_of r = Ok tt)
  ∧ scheduled (events_of r)
    = (if Nat.eqb (layoutCount_ e) 0
       then if inViewport then [T_viewportLoading]
            else if bool_decide (is_Some (loadingContainer_ e))
                 then [T_toggleLoading false] else []
       else []).
Proof.
  intros Ht. cbv zeta. rewrite (viewportCallback_run L inViewport e Ht).
  unfold state_of, events_of, outcome_of. cbn [fst snd].
  destruct (upgraded e && built_ e) eqn:Hready;
    destruct (Nat.eqb (layoutCount_ e) 0); destruct inViewport;
    try destruct (bool_decide (is_Some (loadingContainer_ e)));
    simpl; repeat split; auto; try discriminate;
    try (intros [H|H]; try discriminate H; try destruct H as [H|H];
         try discriminate H; try destruct H);
    try (intros H; destruct H).
Qed.

Lemma viewportCallback_records_and_forwards_witness :
  isInViewport_
    (state_of (viewportCallback sample_collaborators true fresh_sample))
  = true
  ∧ scheduled
      (events_of (viewportCallback sample_collaborators true fresh_sample))
    = [T_viewportLoading].
Proof.
  destruct (viewportCallback_records_and_forwards sample_collaborators true
              fresh_sample) as (Hv & _ & _ & _ & _ & _ & Hs).
  - reflexivity.
  - split; [exact Hv | exact Hs].
Defined.

(** X22: a stale 100 ms check is harmless.  When the element enters the
    viewport and leaves it again, the check that the first call handed to
    the timer finds the element out of the viewport when it fires: it
    leaves the element as it is and schedules nothing, whatever the hooks
    of the implementation did in between. *)
Theorem viewport_exit_cancels_loading_check (L : Collaborators)
  (e : Element) :
  in_template e = false ->
  let s1 := state_of (viewportCallback L true e) in
  let s2 := state_of (viewportCallback L false s1) in
  (layoutCount_ e = 0%nat ->
   In (EvTimerDelay T_viewportLoading 100)
     (events_of (viewportCallback L true e)))
  ∧ runTask L T_viewportLoading s2 = (Ok tt, s2, []).
Proof.
  intros Ht. cbv zeta. split.
  - intros Hc. rewrite (viewportCallback_run L true e Ht).
    unfold events_of. cbn [fst snd]. rewrite Hc. simpl. left. reflexivity.
  - assert (Ht1 : in_template (state_of (viewportCallback L true e)) = false).
    { rewrite (viewportCallback_run L true e Ht).
      unfold state_of, in_template in *. cbn [fst snd].
      destruct (upgraded e && built_ e);
        destruct (Nat.eqb (layoutCount_ e) 0); simpl; exact Ht. }
    assert (Hv : isInViewport_
                   (state_of
                      (viewportCallback L false
                         (state_of (viewportCallback L true e)))) = false).
    { rewrite (viewportCallback_run L false _ Ht1).
      unfold state_of at 1. cbn [fst snd].
      repeat match goal with
             | |- context [if ?c then _ else _] => destruct c
             end; reflexivity. }
    simpl. unfold viewportLoading. js_unfold. rewrite Hv.
    rewrite andb_false_r. reflexivity.
Qed.

Lemma viewport_exit_cancels_loading_check_witness :
  let s2 :=
    state_of (viewportCallback sample_collaborators false
                (state_of (viewportCallback sample_collaborators true
                             fresh_sample))) in
  runTask sample_collaborators T_viewportLoading s2 = (Ok tt, s2, []).
Proof.
  intros s2.
  refine (proj2 (viewport_exit_cancels_loading_check sample_collaborators
                   fresh_sample _)).
  reflexivity.
Defined.

(** ** The loading indicator, from show to removal *)

Lemma isLoadingEnabled_run (L : Collaborators) (e : Element) :
  isLoadingEnabled_ L e = (Ok (loading_allowed L e), noloading_cached e, []).
Proof.
  unfold isLoadingEnabled_, loading_allowed, noloading_cached,
    isInternalOrServiceNode, hasAttribute. js_unfold.
  destruct (loadingDisabled_ e) as [d|]; simpl;
    match goal with
    | |- context [if ?c then _ else _] => destruct c
    end; reflexivity.
Qed.

Lemma loading_allowed_ext (L : Collaborators) (s e : Element) :
  (loadingDisabled_ s = loadingDisabled_ e
   ∨ loadingDisabled_ s = loadingDisabled_ (noloading_cached e)) ->
  tagName s = tagName e ->
  attributes s = attributes e ->
  layoutWidth_ s = layoutWidth_ e ->
  layoutCount_ s = layoutCount_ e ->
  layout_ s = layout_ e ->
  loading_allowed L s = loading_allowed L e.
Proof.
  unfold loading_allowed, noloading_cached, isInternalOrServiceNode,
    hasAttribute.
  intros Hd -> -> -> -> ->.
  destruct (loadingDisabled_ s) as [d|] eqn:Hs;
    destruct (loadingDisabled_ e) as [d'|] eqn:He;
    destruct Hd as [Hd|Hd]; simpl in *; rewrite ?Hs, ?He in *; simpl in *;
    try discriminate Hd; try (injection Hd as ->); reflexivity.
Qed.






(** ** Upgrade, further *)

Lemma sat_construct (c : ImplClass) s
  (Q : Outcome unit -> Element -> list Event -> Prop) :
  match constructor_hook c with
  | Ok _ => Q (Ok tt) (set_implementation_ (new_Impl c) s) [EvHook H_constructor]
  | Throw err => Q (Throw err) s [EvHook H_constructor]
  end ->
  sat (construct c) s Q.
Proof.
  unfold sat, construct, outcome_of, state_of, events_of.
  destruct (constructor_hook c); exact id.
Qed.

(** The run of [upgrade] outside a template, up to its layout check. *)
Lemma upgrade_installs (c : ImplClass) (e : Element) :
  in_template e = false ->
  constructor_hook c = Ok tt ->
  sat (upgrade c) e
    (λ r s' t,
       impl_class (implementation_ s') = c
       ∧ classList s'
         = classList_remove "-amp-unresolved"
             (classList_remove "amp-unresolved" (classList e))
       ∧ built_ s' = built_ e
       ∧ everAttached s' = everAttached e
       ∧ layout_ s' = layout_ e
       ∧ actionQueue_ s' = actionQueue_ e
       ∧ (createdCallback_hook c = Ok tt ->
          layout_ e ≠ NODISPLAY ->
          isLayoutSupported_hook c (layout_ e) = false ->
          r = Throw (LayoutNotSupported "Layout not supported: " (layout_ e))
          ∧ t = [EvHook H_constructor; EvHook H_createdCallback]
          ∧ impl_layout_ (implementation_ s') = None)).
Proof.
  unfold in_template. intros Ht Hctor.
  unfold upgrade. sat_step. sat_step. rewrite Ht. cbv iota.
  sat_step. apply sat_construct. rewrite Hctor.
  sat_run.
  all: simpl in *; repeat (split; [reflexivity|]).
  all: intros.
  all: try congruence.
  all: try (match goal with
            | Hsup : isLayoutSupported_hook _ _ = false,
              H : bool_decide _ && negb _ = false |- _ =>
                rewrite Hsup in H; simpl in H; rewrite andb_true_r in H;
                apply bool_decide_eq_false_1 in H; contradiction
            end).
  all: repeat split; reflexivity.
Qed.

(** X24: [upgrade] is only atomic with respect to the constructor.  Outside
    a template, when the constructor of the new class throws, the element
    is untouched; once it has returned, the new implementation is installed
    and the two unresolved classes are removed whatever happens next: in
    particular when the layout of the element is not supported by the new
    class, [upgrade] throws "Layout not supported" after the creation hook,
    and the element is left with the new implementation, to which its
    layout has not been handed; the built flag, the attachment flag, the
    layout and the action queue are never written. *)
Theorem upgrade_installs_before_layout_check (c : ImplClass) (e : Element) :
  in_template e = false ->
  match constructor_hook c with
  | Throw err => upgrade c e = (Throw err, e, [EvHook H_constructor])
  | Ok _ =>
      let s' := state_of (upgrade c e) in
      impl_class (implementation_ s') = c
      ∧ classList s'
        = classList_remove "-amp-unresolved"
            (classList_remove "amp-unresolved" (classList e))
      ∧ built_ s' = built_ e
      ∧ everAttached s' = everAttached e
      ∧ layout_ s' = layout_ e
      ∧ actionQueue_ s' = actionQueue_ e
      ∧ (createdCallback_hook c = Ok tt ->
         layout_ e ≠ NODISPLAY ->
         isLayoutSupported_hook c (layout_ e) = false ->
         outcome_of (upgrade c e)
         = Throw (LayoutNotSupported "Layout not supported: " (layout_ e))
         ∧ events_of (upgrade c e)
           = [EvHook H_constructor; EvHook H_createdCallback]
         ∧ impl_layout_ (implementation_ s') = None)
  end.
Proof.
  intros Ht. destruct (constructor_hook c) as [[]|err] eqn:Hctor.
  - exact (upgrade_installs c e Ht Hctor).
  - unfold in_template in Ht. unfold upgrade. js_unfold. rewrite Ht, Hctor.
    reflexivity.
Qed.

Lemma upgrade_installs_before_layout_check_witness :
  outcome_of (upgrade failing_class fixed_stub)
  = Throw (LayoutNotSupported "Layout not supported: " FIXED)
  ∧ impl_class (implementation_ (state_of (upgrade failing_class fixed_stub)))
    = failing_class.
Proof.
  pose proof (upgrade_installs_before_layout_check failing_class fixed_stub
                eq_refl) as H.
  simpl in H. destruct H as (Hc & _ & _ & _ & _ & _ & Hthrow).
  destruct Hthrow as (Ho & _ & _);
    [reflexivity | discriminate | reflexivity |].
  split; [exact Ho | exact Hc].
Defined.

(** ** The unresolved classes *)

#[local] Instance classes_kept_closed : Closed classes_kept.
Proof.
  split.
  - intros s c Hc. exact Hc.
  - intros s s1 s2 t1 t2 H1 H2 c Hc. apply H2, H1, Hc.
Qed.

Lemma elem_of_classList_add (c d : string) (l : list string) :
  c ∈ classList_add d l <-> c = d ∨ c ∈ l.
Proof.
  unfold classList_add. destruct (bool_decide (d ∈ l)) eqn:H.
  - apply bool_decide_eq_true_1 in H. split; [auto|].
    intros [->|Hc]; assumption.
  - rewrite elem_of_app, list_elem_of_singleton. tauto.
Qed.

Lemma classList_contains_removed (c d : string) (l : list string) :
  c = d ∨ classList_contains c l = false ->
  classList_contains c (classList_remove d l) = false.
Proof.
  unfold classList_contains, classList_remove. intros H.
  apply bool_decide_eq_false_2. rewrite list_elem_of_filter.
  intros [Hne Hin]. destruct H as [->|H]; [congruence|].
  apply bool_decide_eq_false_1 in H. contradiction.
Qed.

Lemma applyLayout_classes_kept (L : Collaborators) :
  respects classes_kept (applyLayout_ L).
Proof.
  unfold applyLayout_. respects_run.
  all: intros c Hc; simpl; try exact Hc.
  all: apply elem_of_classList_add; right; exact Hc.
Qed.

Lemma respects_and {A} (T1 T2 : Element -> Element -> list Event -> Prop)
  (m : M A) :
  respects T1 m -> respects T2 m ->
  respects (λ s s' t, T1 s s' t ∧ T2 s s' t) m.
Proof. intros H1 H2 s. split; [apply H1 | apply H2]. Qed.

Lemma attachedCallback_marks_stub (L : Collaborators)
  (closestTemplate : bool) (e : Element) :
  upgraded e = false ->
  everAttached e = false ->
  in_template (attach_entry L closestTemplate e) = false ->
  sat (attachedCallback L closestTemplate) e
    (λ _ s' _,
       classList_contains "amp-unresolved" (classList s') = true
       ∧ classList_contains "-amp-unresolved" (classList s') = true
       ∧ isInTemplate_ s' = isInTemplate_ (attach_entry L closestTemplate e)).
Proof.
  unfold upgraded, attach_entry, in_template. intros Hu Ha Ht.
  apply negb_false_iff in Hu.
  unfold attachedCallback.
  destruct (TEMPLATE_TAG_SUPPORTED L); sat_run.
  all: simpl in *; rewrite ?Ha in *; simpl in *; try congruence.
  all: unfold firstAttachedCallback_; sat_run.
  all: simpl in *; rewrite ?Hu in *; simpl in *; try discriminate.
  all: apply (sat_respects _ _ _ _
                (respects_and _ _ _ (applyLayout_classes_kept L)
                   (applyLayout_keeps isInTemplate_ L
                      (λ _ _ _ _ _, eq_refl))));
    intros r s' t [Hkept Htpl]; unfold keeps in Htpl; simpl in Htpl.
  all: assert (H1 : "amp-unresolved" ∈ classList s')
    by (apply Hkept; simpl; rewrite !elem_of_classList_add; auto).
  all: assert (H2 : "-amp-unresolved" ∈ classList s')
    by (apply Hkept; simpl; rewrite !elem_of_classList_add; auto).
  all: apply (bool_decide_eq_true_2 _) in H1.
  all: apply (bool_decide_eq_true_2 _) in H2.
  all: destruct r; sat_run; simpl; auto.
Qed.

(** X25: the two unresolved classes mark exactly the attached elements
    that wait for their implementation.  The first attachment of a stubbed
    element outside a template puts [amp-unresolved] and [-amp-unresolved]
    on the element, and they stay whatever layout resolution and the hooks
    do, even when the attachment fails; an [upgrade] whose constructor
    returns then takes both away and installs the new class, whether or not
    the rest of the upgrade goes through. *)
Theorem unresolved_classes_until_upgrade (L : Collaborators)
  (closestTemplate : bool) (c : ImplClass) (e : Element) :
  upgraded e = false ->
  everAttached e = false ->
  in_template (attach_entry L closestTemplate e) = false ->
  constructor_hook c = Ok tt ->
  let s1 := state_of (attachedCallback L closestTemplate e) in
  let s2 := state_of (upgrade c s1) in
  classList_contains "amp-unresolved" (classList s1) = true
  ∧ classList_contains "-amp-unresolved" (classList s1) = true
  ∧ classList_contains "amp-unresolved" (classList s2) = false
  ∧ classList_contains "-amp-unresolved" (classList s2) = false
  ∧ impl_class (implementation_ s2) = c.
Proof.
  intros Hu Ha Ht Hctor. cbv zeta.
  destruct (attachedCallback_marks_stub L closestTemplate e Hu Ha Ht)
    as (H1 & H2 & Htpl).
  split; [exact H1|]. split; [exact H2|].
  assert (Ht1 : in_template (state_of (attachedCallback L closestTemplate e))
                = false).
  { unfold in_template in *. rewrite Htpl. exact Ht. }
  destruct (upgrade_installs c _ Ht1 Hctor) as (Hc & Hcl & _).
  rewrite Hcl. split; [|split; [|exact Hc]].
  - apply classList_contains_removed. right.
    apply classList_contains_removed. left. reflexivity.
  - apply classList_contains_removed. left. reflexivity.
Qed.

Lemma unresolved_classes_until_upgrade_witness :
  let s1 := state_of (attachedCallback sample_collaborators false
                        fresh_stub) in
  classList_contains "amp-unresolved" (classList s1) = true
  ∧ classList_contains "amp-unresolved"
      (classList (state_of (upgrade sample_class s1))) = false.
Proof.
  intros s1.
  destruct (unresolved_classes_until_upgrade sample_collaborators false
              sample_class fresh_stub) as (H1 & _ & H3 & _);
    try reflexivity.
  split; [exact H1 | exact H3].
Defined.

(** ** Actions on a built element *)

(** On a built element outside a template [enqueAction] executes at once,
    without the deferred flag, and never throws. *)
Lemma enqueAction_built (e : Element) (i : ActionInvocation) :
  built_ e = true ->
  in_template e = false ->
  enqueAction i e
  = (Ok tt, e, action_events (impl_class (implementation_ e)) false i).
Proof.
  unfold in_template. intros Hb Ht. unfold enqueAction.
  unfold bind at 1. unfold assertNotTemplate_, dev_assert, bind at 1, this.
  cbn [fst snd]. rewrite Ht. cbn [negb]. unfold skip, ret. cbn [fst snd].
  unfold bind at 1. unfold isBuilt, bind at 1, this, ret. cbn [fst snd].
  rewrite Hb. cbn [negb]. rewrite executionAction_run. reflexivity.
Qed.

Lemma executed_app (t1 t2 : list Event) :
  executed (t1 ++ t2) = executed t1 ++ executed t2.
Proof. unfold executed. apply omap_app. Qed.

Lemma executed_one (c : ImplClass) (deferred : bool) (i : ActionInvocation) :
  executed (action_events c deferred i) = [i].
Proof.
  unfold executed, action_events. simpl.
  destruct (executeAction_hook c i deferred); reflexivity.
Qed.

(** X26: the queue only orders the actions that arrive before the build.
    After a [build] that returned with a non-empty queue [q], and before
    the drain that it handed to the timer has run, an action [i] that
    arrives is executed at once, without the deferred flag; it does not
    throw even when the action does, and it leaves the queue alone; the
    drain then executes [q]: the implementation sees [i] before the
    invocations that were enqueued earlier. *)
Theorem action_after_build_overtakes_queue (L : Collaborators)
  (e : Element) (q : list ActionInvocation) (i : ActionInvocation) :
  built_ e = false ->
  actionQueue_ e = Some q ->
  q ≠ [] ->
  outcome_of (build e) = Ok tt ->
  let s1 := state_of (build e) in
  let r2 := enqueAction i s1 in
  let r3 := runTask L T_dequeueActions (state_of r2) in
  In (EvTimerDelay T_dequeueActions 1) (events_of (build e))
  ∧ r2 = (Ok tt, s1, action_events (impl_class (implementation_ e)) false i)
  ∧ actionQueue_ (state_of r2) = Some q
  ∧ executed (events_of r2 ++ events_of r3) = i :: q.
Proof.
  intros Hb Hq Hne Hok. cbv zeta.
  destruct (build_ok_built e Hok) as [Hb1 Ht1].
  destruct (build_ok_schedules_drain e q Hb Hq Hne Hok) as (Hq1 & Hc1 & Hocc).
  rewrite (enqueAction_built _ i Hb1 Ht1), Hc1.
  change (state_of (Ok tt, state_of (build e),
                    action_events (impl_class (implementation_ e)) false i))
    with (state_of (build e)).
  change (events_of (Ok tt, state_of (build e),
                     action_events (impl_class (implementation_ e)) false i))
    with (action_events (impl_class (implementation_ e)) false i).
  cbn [runTask]. rewrite (dequeueActions_run _ q Hq1), Hc1.
  change (events_of (Ok tt, set_actionQueue_ None (state_of (build e)),
                     flat_map
                       (action_events (impl_class (implementation_ e)) true)
                       q))
    with (flat_map (action_events (impl_class (implementation_ e)) true) q).
  split; [|split; [reflexivity|split; [exact Hq1|]]].
  - unfold occurrences in Hocc.
    destruct (filter (λ x, x = EvTimerDelay T_dequeueActions 1)
                (events_of (build e))) as [|ev l] eqn:Hf; [discriminate|].
    assert (Hin : ev ∈ filter (λ x, x = EvTimerDelay T_dequeueActions 1)
                         (events_of (build e)))
      by (rewrite Hf; left).
    apply list_elem_of_filter in Hin as [-> Hin].
    apply list_elem_of_In. exact Hin.
  - rewrite executed_app, executed_one, executed_action_events. reflexivity.
Qed.

Lemma action_after_build_overtakes_queue_witness :
  let s0 := state_of (enqueAction (action "first") fresh_sample) in
  let s1 := state_of (build s0) in
  executed
    (events_of (enqueAction (action "second") s1)
     ++ events_of (runTask sample_collaborators T_dequeueActions
                     (state_of (enqueAction (action "second") s1))))
  = [action "second"; action "first"].
Proof.
  intros s0 s1.
  refine (proj2 (proj2 (proj2 (action_after_build_overtakes_queue
                                 sample_collaborators s0
                                 [action "first"] (action "second")
                                 _ _ _ _)))).
  - reflexivity.
  - reflexivity.
  - discriminate.
  - vm_compute. reflexivity.
Defined.

(** ** First attachment, further *)

Lemma applyLayout_returns (L : Collaborators) (s : Element) (layout : Layout) :
  outcome_of (applyLayout_ L s) = Ok layout ->
  applyLayout_ L s = (Ok layout, state_of (applyLayout_ L s), [])
  ∧ implementation_ (state_of (applyLayout_ L s)) = implementation_ s.
Proof.
  intros Hok. destruct (applyLayout_run L s) as [Hev _].
  destruct (applyLayout_ui_frame L s) as [_ Hui].
  split.
  - destruct (applyLayout_ L s) as [[o s1] t1].
    unfold outcome_of, events_of, state_of in *. simpl in *. congruence.
  - unfold only_ui_changed in Hui. rewrite Hui. destruct s; reflexivity.
Qed.

(** X27: the first attachment once layout resolution has returned [layout].
    The layout is stored on the element before it is checked, so it stays
    there when the check fails.  When the implementation does not support
    it (and it is not NODISPLAY), [firstAttachedCallback_] reports and
    throws "Layout not supported for", the first-attach hook is not called
    and the layout is not handed to the implementation.  Otherwise the
    layout is handed to the implementation and the hook is called; when the
    hook returns, exactly one event is dispatched, "amp:stubbed" for a stub
    and "amp:attached" for an upgraded element; when it throws, the error
    is reported and thrown and nothing is dispatched. *)
Theorem first_attach_checks_and_dispatches (L : Collaborators) (e : Element)
  (layout : Layout) :
  outcome_of (applyLayout_ L (unresolved_marked e)) = Ok layout ->
  let r := firstAttachedCallback_ L e in
  let c := impl_class (implementation_ e) in
  layout_ (state_of r) = layout
  ∧ if bool_decide (layout ≠ NODISPLAY) && negb (isLayoutSupported_hook c layout)
    then
      outcome_of r
      = Throw (LayoutNotSupported "Layout not supported for: " layout)
      ∧ events_of r
        = [EvReportError
             (LayoutNotSupported "Layout not supported for: " layout)]
      ∧ implementation_ (state_of r) = implementation_ e
    else
      impl_layout_ (implementation_ (state_of r)) = Some layout
      ∧ match firstAttachedCallback_hook c with
        | Ok _ =>
            outcome_of r = Ok tt
            ∧ events_of r
              = [EvHook H_firstAttachedCallback;
                 EvDispatch (if upgraded e then "amp:attached"
                             else "amp:stubbed")]
        | Throw err =>
            outcome_of r = Throw err
            ∧ events_of r
              = [EvHook H_firstAttachedCallback; EvReportError err]
        end.
Proof.
  intros Hok. cbv zeta.
  destruct (applyLayout_returns L _ layout Hok) as [Hrun Himpl].
  revert Hrun Himpl.
  set (s1 := state_of (applyLayout_ L (unresolved_marked e))).
  unfold unresolved_marked, upgraded, firstAttachedCallback_. js_unfold.
  destruct (isElementStub (impl_class (implementation_ e))) eqn:Hstub;
    simpl; intros -> Himpl;
    repeat (progress (simpl; rewrite ?Himpl, ?Hstub));
    destruct (bool_decide (layout ≠ NODISPLAY)
              && negb (isLayoutSupported_hook
                         (impl_class (implementation_ e)) layout));
    repeat (progress (simpl; rewrite ?Himpl, ?Hstub)); auto;
    destruct (firstAttachedCallback_hook _) as [[]|err];
    repeat (progress (simpl; rewrite ?Himpl, ?Hstub)); auto.
Qed.

Lemma first_attach_checks_and_dispatches_witness :
  events_of (firstAttachedCallback_ sample_collaborators fresh_stub)
  = [EvHook H_firstAttachedCallback; EvDispatch "amp:stubbed"]
  ∧ layout_ (state_of (firstAttachedCallback_ sample_collaborators fresh_stub))
    = FIXED.
Proof.
  pose proof (first_attach_checks_and_dispatches sample_collaborators
                fresh_stub FIXED) as H.
  destruct H as [Hl Hrest]; [vm_compute; reflexivity|].
  split; [exact (proj2 (proj2 Hrest)) | exact Hl].
Defined.

(** ** Measurement *)

Lemma loading_allowed_cached (L : Collaborators) (s : Element) :
  loading_allowed L (noloading_cached s) = loading_allowed L s.
Proof.
  apply loading_allowed_ext; [right; reflexivity|..];
    unfold noloading_cached; destruct (loadingDisabled_ s); reflexivity.
Qed.

Lemma loading_allowed_state (L : Collaborators) (v : option bool)
  (s : Element) :
  loading_allowed L (set_loadingState_ v s) = loading_allowed L s.
Proof. apply loading_allowed_ext; auto. Qed.

Lemma loading_allowed_impl (L : Collaborators) (i : Impl) (s : Element) :
  loading_allowed L (set_implementation_ i s) = loading_allowed L s.
Proof. apply loading_allowed_ext; auto. Qed.

Lemma updateLayoutBox_run (L : Collaborators) (layoutBox : LayoutRect)
  (e : Element) :
  in_template e = false ->
  onLayoutMeasure_hook (impl_class (implementation_ e)) = Ok tt ->
  sat (updateLayoutBox L layoutBox) e
    (λ r s' t,
       r = Ok tt
       ∧ layoutWidth_ s' = rect_width layoutBox
       ∧ impl_layoutWidth_ (implementation_ s')
         = (if upgraded e then Some (rect_width layoutBox)
            else impl_layoutWidth_ (implementation_ e))
       ∧ t = EvHook H_onLayoutMeasure
             :: (if loading_allowed L
                      (set_layoutWidth_ (rect_width layoutBox) e)
                 then
                   if isInViewport_ e
                   then [EvVsyncMutate (T_toggleLoading false)]
                   else if Z.ltb (rect_top layoutBox)
                             PREPARE_LOADING_THRESHOLD_
                           && Z.leb 0 (rect_top layoutBox)
                   then [EvVsyncMutate T_prepareLoading]
                   else []
                 else [])).
Proof.
  unfold in_template, upgraded. intros Ht Hh.
  unfold updateLayoutBox, toggleLoading_.
  repeat (sat_step
          || (eapply sat_eq; [apply isLoadingEnabled_run|];
              cbv beta iota)).
  all: repeat (progress (rewrite ?loading_allowed_cached,
                           ?loading_allowed_state,
                           ?loading_allowed_impl in * )).
  all: unfold noloading_cached in *.
  all: destruct (loadingDisabled_ e) eqn:Hd; simpl in *;
    rewrite ?Hd in *; simpl in *.
  all: try congruence.
  all: repeat match goal with
              | H : negb _ = true |- _ => apply negb_true_iff in H
              | H : negb _ = false |- _ => apply negb_false_iff in H
              end.
  all: repeat match goal with
              | H : ?x = _ |- context [?x] => rewrite H
              end; simpl.
  all: try congruence.
  all: repeat split; reflexivity.
Qed.

(** X28: [updateLayoutBox] outside a template, the measure hook returning.
    The measured width is always stored on the element, and on the
    implementation exactly when the element is upgraded; the measure hook
    is called first in every case, also on a stub.  With the new width, when
    the six conditions of [isLoadingEnabled_] hold: an element in the
    viewport gets a show handed to vsync at once; an element out of the
    viewport whose top lies in [0, 1000) only gets its container prepared;
    and nothing is scheduled otherwise, nor when the conditions fail. *)
Theorem updateLayoutBox_measures (L : Collaborators) (layoutBox : LayoutRect)
  (e : Element) :
  in_template e = false ->
  onLayoutMeasure_hook (impl_class (implementation_ e)) = Ok tt ->
  let r := updateLayoutBox L layoutBox e in
  outcome_of r = Ok tt
  ∧ layoutWidth_ (state_of r) = rect_width layoutBox
  ∧ impl_layoutWidth_ (implementation_ (state_of r))
    = (if upgraded e then Some (rect_width layoutBox)
       else impl_layoutWidth_ (implementation_ e))
  ∧ events_of r
    = EvHook H_onLayoutMeasure
      :: (if loading_allowed L (set_layoutWidth_ (rect_width layoutBox) e)
          then
            if isInViewport_ e then [EvVsyncMutate (T_toggleLoading false)]
            else if Z.ltb (rect_top layoutBox) PREPARE_LOADING_THRESHOLD_
                    && Z.leb 0 (rect_top layoutBox)
            then [EvVsyncMutate T_prepareLoading]
            else []
          else []).
Proof.
  intros Ht Hh. exact (updateLayoutBox_run L layoutBox e Ht Hh).
Qed.

Lemma updateLayoutBox_measures_witness :
  events_of (updateLayoutBox sample_collaborators
               {| rect_width := 300; rect_top := 40 |} attached_img)
  = [EvHook H_onLayoutMeasure; EvVsyncMutate T_prepareLoading].
Proof.
  refine (proj2 (proj2 (proj2 (updateLayoutBox_measures sample_collaborators
                                 {| rect_width := 300; rect_top := 40 |}
                                 attached_img _ _)))); reflexivity.
Defined.

(** ** The layout count over the life of the element *)

Lemma resolve_free_app (t1 t2 : list Event) :
  resolve_free (t1 ++ t2) = resolve_free t1 && resolve_free t2.
Proof. unfold resolve_free. rewrite scheduled_app. apply forallb_app. Qed.

#[local] Instance layout_frame_closed : Closed layout_frame.
Proof.
  split.
  - intros s. repeat split.
  - intros s s1 s2 t1 t2 (H1 & H2 & H3) (H4 & H5 & H6).
    repeat split; try congruence.
    rewrite resolve_free_app, H3, H6. reflexivity.
Qed.

Ltac layout_leaf := try (split; [reflexivity | split; reflexivity]).

Lemma applyLayout_layout_frame (L : Collaborators) :
  respects layout_frame (applyLayout_ L).
Proof.
  intros s. destruct (applyLayout_ui_frame L s) as [-> H].
  unfold only_ui_changed in H. rewrite H. destruct s; repeat split.
Qed.

Lemma isLoadingEnabled_layout_frame (L : Collaborators) :
  respects layout_frame (isLoadingEnabled_ L).
Proof. unfold isLoadingEnabled_. respects_run; layout_leaf. Qed.

Lemma prepareLoading_layout_frame (L : Collaborators) :
  respects layout_frame (prepareLoading_ L).
Proof. unfold prepareLoading_. respects_run; layout_leaf. Qed.

Lemma toggleLoading_layout_frame (L : Collaborators)
  (state opt_cleanup : bool) :
  respects layout_frame (toggleLoading_ L state opt_cleanup).
Proof.
  unfold toggleLoading_.
  repeat (respects_step || apply isLoadingEnabled_layout_frame); layout_leaf.
Qed.

Lemma toggleLoading_mutate_layout_frame (L : Collaborators)
  (opt_cleanup : bool) :
  respects layout_frame (toggleLoading_mutate L opt_cleanup).
Proof.
  unfold toggleLoading_mutate.
  repeat (respects_step || apply isLoadingEnabled_layout_frame
          || apply prepareLoading_layout_frame); layout_leaf.
Qed.

Lemma construct_layout_frame (c : ImplClass) :
  respects layout_frame (construct c).
Proof.
  intros s. unfold construct, state_of, events_of.
  destruct (constructor_hook c); simpl; repeat split.
Qed.

Lemma upgrade_layout_frame (c : ImplClass) :
  respects layout_frame (upgrade c).
Proof.
  unfold upgrade.
  repeat (respects_step || apply construct_layout_frame); layout_leaf.
Qed.

Lemma firstAttachedCallback_layout_frame (L : Collaborators) :
  respects layout_frame (firstAttachedCallback_ L).
Proof.
  unfold firstAttachedCallback_.
  repeat (respects_step || apply applyLayout_layout_frame); layout_leaf.
Qed.

Lemma attachedCallback_layout_frame (L : Collaborators)
  (closestTemplate : bool) :
  respects layout_frame (attachedCallback L closestTemplate).
Proof.
  unfold attachedCallback.
  repeat (respects_step || apply firstAttachedCallback_layout_frame);
    layout_leaf.
Qed.

Lemma detachedCallback_layout_frame : respects layout_frame detachedCallback.
Proof. unfold detachedCallback. respects_run; layout_leaf. Qed.

Lemma layoutRejected_layout_frame (L : Collaborators) (reason : JsError) :
  respects layout_frame (layoutRejected L reason).
Proof.
  unfold layoutRejected.
  repeat (respects_step || apply toggleLoading_layout_frame); layout_leaf.
Qed.

Lemma viewportLoading_layout_frame (L : Collaborators) :
  respects layout_frame (viewportLoading L).
Proof.
  unfold viewportLoading.
  repeat (respects_step || apply toggleLoading_layout_frame); layout_leaf.
Qed.

Lemma viewportCallback_layout_frame (L : Collaborators) (inViewport : bool) :
  respects layout_frame (viewportCallback L inViewport).
Proof.
  unfold viewportCallback.
  repeat (respects_step || apply toggleLoading_layout_frame); layout_leaf.
Qed.

Lemma updateLayoutBox_layout_frame (L : Collaborators)
  (layoutBox : LayoutRect) :
  respects layout_frame (updateLayoutBox L layoutBox).
Proof.
  unfold updateLayoutBox.
  repeat (respects_step || apply toggleLoading_layout_frame
          || apply isLoadingEnabled_layout_frame); layout_leaf.
Qed.

Lemma pauseCallback_layout_frame : respects layout_frame pauseCallback.
Proof. unfold pauseCallback. respects_run; layout_leaf. Qed.

Lemma resumeCallback_layout_frame : respects layout_frame resumeCallback.
Proof. unfold resumeCallback. respects_run; layout_leaf. Qed.

Lemma executionAction_layout_frame (i : ActionInvocation) (deferred : bool) :
  respects layout_frame (executionAction_ i deferred).
Proof. unfold executionAction_. respects_run; layout_leaf. Qed.

Lemma enqueAction_layout_frame (i : ActionInvocation) :
  respects layout_frame (enqueAction i).
Proof.
  unfold enqueAction.
  repeat (respects_step || apply executionAction_layout_frame); layout_leaf.
Qed.

Lemma forEach_respects {A} (T : Element -> Element -> list Event -> Prop)
  `{!Closed T} (l : list A) (f : A -> M unit) :
  (∀ x, respects T (f x)) -> respects T (forEach l f).
Proof.
  intros Hf. induction l as [|x l IH]; simpl.
  - apply respects_ret. exact _.
  - apply respects_bind; [exact _ | apply Hf | intros _; exact IH].
Qed.

Lemma dequeueActions_layout_frame : respects layout_frame dequeueActions_.
Proof.
  unfold dequeueActions_.
  repeat (respects_step
          || (apply forEach_respects; [exact _ | intros ?])
          || apply executionAction_layout_frame); layout_leaf.
Qed.

Lemma build_layout_frame : respects layout_frame build.
Proof. unfold build. respects_run; layout_leaf. Qed.

Lemma layout_frame_step (e e' : Element) (t : list Event) :
  layout_frame e e' t -> layout_step e e' t.
Proof.
  intros (Hc & Hr & Hf). unfold layout_step. rewrite Hc, Hr, Hf.
  split; [auto|]. split; [auto | discriminate].
Qed.

Lemma layoutCallback_layout_step (e : Element) :
  layout_step e (state_of (layoutCallback e)) (events_of (layoutCallback e)).
Proof.
  destruct (in_template e) eqn:Ht.
  - assert (Hrun : layoutCallback e
                   = (Throw (DevAssertError "Must never be called in template"),
                      e, [])).
    { unfold in_template in Ht. unfold layoutCallback. js_unfold.
      rewrite Ht. reflexivity. }
    rewrite Hrun. apply layout_frame_step. repeat split.
  - rewrite (layoutCallback_run e Ht).
    destruct (upgraded e && built_ e) eqn:Hready;
      [|apply layout_frame_step; repeat split].
    apply andb_true_iff in Hready as [_ Hb].
    destruct (layoutCallback_hook _) as [promise|err];
      [|apply layout_frame_step; repeat split].
    destruct (preconnectCallback_hook _ true);
      [|apply layout_frame_step; repeat split].
    unfold layout_step, state_of, events_of. simpl. auto.
Qed.

Lemma unlayoutCallback_layout_step (e : Element) :
  sat unlayoutCallback e
    (λ _ s' t,
       (layoutCount_ s' = layoutCount_ e ∨ layoutCount_ s' = 0%nat)
       ∧ readyState s' = readyState e
       ∧ resolve_free t = true).
Proof. unfold unlayoutCallback. sat_run; simpl; auto. Qed.

Lemma layoutResolved_layout (L : Collaborators) (e : Element) :
  sat (layoutResolved L) e
    (λ _ s' t,
       layoutCount_ s' = S (layoutCount_ e)
       ∧ readyState s' = RS_complete
       ∧ resolve_free t = true).
Proof.
  unfold layoutResolved. sat_step. sat_step. sat_step. sat_step. sat_step.
  apply (sat_respects _ _ _ _ (toggleLoading_layout_frame L false true)).
  intros r s' t (Hc & Hr & Hf). simpl in Hc, Hr.
  destruct r; sat_run; simpl; rewrite ?resolve_free_app, ?Hf; auto.
Qed.

Lemma run_op_layout_step (L : Collaborators) (op : Op) (e : Element) :
  layout_step e (state_of (run_op L op e)) (events_of (run_op L op e)).
Proof.
  destruct op; simpl;
    try (apply layout_frame_step;
         first [ apply upgrade_layout_frame | apply build_layout_frame
               | apply updateLayoutBox_layout_frame
               | apply attachedCallback_layout_frame
               | apply detachedCallback_layout_frame
               | apply viewportCallback_layout_frame
               | apply pauseCallback_layout_frame
               | apply resumeCallback_layout_frame
               | apply enqueAction_layout_frame ]).
  - apply layoutCallback_layout_step.
  - change (sat (let* _ := unlayoutCallback in skip) e
              (λ _ s' t, layout_step e s' t)).
    sat_step. eapply sat_mono; [apply unlayoutCallback_layout_step|].
    intros r s' t (Hc & Hr & Hf). unfold layout_step.
    destruct r; sat_run; rewrite ?app_nil_r, Hr, Hf;
      (split; [auto|]; split; [tauto | discriminate]).
Qed.

Lemma runTask_layout_step (L : Collaborators) (task : Task) (e : Element) :
  (task = T_layoutResolved -> built_ e = true) ->
  layout_step e (state_of (runTask L task e)) (events_of (runTask L task e)).
Proof.
  intros Hb. destruct task; simpl;
    try (apply layout_frame_step;
         first [ apply dequeueActions_layout_frame
               | apply viewportLoading_layout_frame
               | apply prepareLoading_layout_frame
               | apply toggleLoading_mutate_layout_frame
               | apply layoutRejected_layout_frame ]).
  - apply layout_frame_step.
    assert (H : respects layout_frame
                  (call (H_preconnectCallback false)
                     (λ c, preconnectCallback_hook c false))).
    { respects_run; layout_leaf. }
    apply H.
  - destruct (layoutResolved_layout L e) as (Hc & Hr & Hf).
    unfold layout_step. rewrite Hr, Hf. specialize (Hb eq_refl).
    split; [auto|]. split; [auto | discriminate].
Qed.

Lemma resolve_scheduled (t : list Event) :
  T_layoutResolved ∈ scheduled t -> resolve_free t = false.
Proof.
  unfold resolve_free. induction (scheduled t) as [|task l IH]; intros Hin.
  - apply elem_of_nil in Hin. contradiction.
  - apply elem_of_cons in Hin as [<-|Hin]; simpl.
    + reflexivity.
    + rewrite (IH Hin). apply andb_false_r.
Qed.

Lemma layout_invariant_preserved (e e' : Element) (p p' : list Task)
  (t : list Event) :
  layout_invariant {| elem := e; pending := p |} ->
  layout_step e e' t ->
  (built_ e = true -> built_ e' = true) ->
  (∀ task, task ∈ p' -> task ∈ p ∨ task ∈ scheduled t) ->
  layout_invariant {| elem := e'; pending := p' |}.
Proof.
  unfold layout_invariant, layout_step. simpl.
  intros [Hlaid Hwait] (Hready & Hcount & Hsched) Hmono Hp. split.
  - intros Hpos. destruct Hcount as [Hc|[Hc|[Hr Hb]]].
    + rewrite Hc in Hpos. destruct (Hlaid Hpos) as [Hr Hb]. auto.
    + rewrite Hc in Hpos. lia.
    + auto.
  - intros Hin. destruct (Hp _ Hin) as [Hold|Hnew].
    + auto.
    + apply Hmono, Hsched, resolve_scheduled, Hnew.
Qed.

Lemma step_layout_invariant (L : Collaborators) (s s' : Sys)
  (t : list Event) :
  queue_invariant s -> layout_invariant s -> step L s t s' ->
  layout_step (elem s) (elem s') t ∧ layout_invariant s'.
Proof.
  intros Hq Hinv Hstep.
  destruct (step_queue_step L s s' t Hq Hstep) as [(Hmono & _) _].
  destruct Hstep as [op s|task before after s Hp].
  - pose proof (run_op_layout_step L op (elem s)) as Hl. split; [exact Hl|].
    destruct s as [e p]. simpl in *.
    eapply layout_invariant_preserved; [exact Hinv | exact Hl | exact Hmono |].
    intros task Hin. apply elem_of_app in Hin. exact Hin.
  - assert (Hl : layout_step (elem s) (state_of (runTask L task (elem s)))
                   (events_of (runTask L task (elem s)))).
    { apply runTask_layout_step. intros ->. apply Hinv. rewrite Hp.
      apply elem_of_app. right. apply elem_of_cons. auto. }
    split; [exact Hl|]. destruct s as [e p]. simpl in *. subst p.
    eapply layout_invariant_preserved; [exact Hinv | exact Hl | exact Hmono |].
    intros task' Hin. rewrite !elem_of_app in Hin. rewrite elem_of_app.
    rewrite elem_of_cons. tauto.
Qed.

(** X29: the layout count and the ready state are written by the layout
    alone.  Of all the calls on the element only [unlayoutCallback] can
    change the count, and it can only reset it to 0; no call writes the
    ready state; of all the waiting callbacks only the fulfilment of the
    layout writes either, adding exactly one to the count and setting the
    state to complete; and a fulfilment callback is only ever scheduled by
    [layoutCallback], on an element that is upgraded and built. *)
Theorem layout_count_written_by_layout_only (L : Collaborators)
  (e : Element) :
  (∀ op, layoutCount_ (state_of (run_op L op e)) = layoutCount_ e
         ∨ (op = Op_unlayoutCallback
            ∧ layoutCount_ (state_of (run_op L op e)) = 0%nat))
  ∧ (∀ op, readyState (state_of (run_op L op e)) = readyState e)
  ∧ (∀ task, task ≠ T_layoutResolved ->
             layoutCount_ (state_of (runTask L task e)) = layoutCount_ e
             ∧ readyState (state_of (runTask L task e)) = readyState e)
  ∧ (layoutCount_ (state_of (runTask L T_layoutResolved e))
     = S (layoutCount_ e)
     ∧ readyState (state_of (runTask L T_layoutResolved e)) = RS_complete)
  ∧ (∀ op, T_layoutResolved ∈ scheduled (events_of (run_op L op e)) ->
           op = Op_layoutCallback ∧ upgraded e = true ∧ built_ e = true)
  ∧ (∀ task, T_layoutResolved ∉ scheduled (events_of (runTask L task e))).
Proof.
  assert (Hop : ∀ op,
             op ≠ Op_layoutCallback -> op ≠ Op_unlayoutCallback ->
             layout_frame e (state_of (run_op L op e))
               (events_of (run_op L op e))).
  { intros op H1 H2. destruct op; simpl; try congruence;
      first [ apply upgrade_layout_frame | apply build_layout_frame
            | apply updateLayoutBox_layout_frame
            | apply attachedCallback_layout_frame
            | apply detachedCallback_layout_frame
            | apply viewportCallback_layout_frame
            | apply pauseCallback_layout_frame
            | apply resumeCallback_layout_frame
            | apply enqueAction_layout_frame ]. }
  assert (Hun : (layoutCount_ (state_of (run_op L Op_unlayoutCallback e))
                 = layoutCount_ e
                 ∨ layoutCount_ (state_of (run_op L Op_unlayoutCallback e))
                   = 0%nat)
                ∧ readyState (state_of (run_op L Op_unlayoutCallback e))
                  = readyState e
                ∧ resolve_free (events_of (run_op L Op_unlayoutCallback e))
                  = true).
  { change (sat (let* _ := unlayoutCallback in skip) e
              (λ _ s' t, (layoutCount_ s' = layoutCount_ e
                          ∨ layoutCount_ s' = 0%nat)
                         ∧ readyState s' = readyState e
                         ∧ resolve_free t = true)).
    sat_step. eapply sat_mono; [apply unlayoutCallback_layout_step|].
    intros r s' t (Hc & Hr & Hf).
    destruct r; sat_run; rewrite ?app_nil_r; auto. }
  assert (Hlc : layoutCount_ (state_of (layoutCallback e)) = layoutCount_ e
                ∧ readyState (state_of (layoutCallback e)) = readyState e
                ∧ (resolve_free (events_of (layoutCallback e)) = false ->
                   upgraded e = true ∧ built_ e = true)).
  { destruct (in_template e) eqn:Ht.
    - assert (Hrun : layoutCallback e
                     = (Throw (DevAssertError
                                 "Must never be called in template"), e, [])).
      { unfold in_template in Ht. unfold layoutCallback. js_unfold.
        rewrite Ht. reflexivity. }
      rewrite Hrun. repeat split; discriminate.
    - rewrite (layoutCallback_run e Ht).
      destruct (upgraded e && built_ e) eqn:Hready;
        [|repeat split; discriminate].
      apply andb_true_iff in Hready.
      destruct (layoutCallback_hook _) as [promise|err];
        [|repeat split; discriminate].
      destruct (preconnectCallback_hook _ true);
        [|repeat split; discriminate].
      repeat split; tauto. }
  assert (Htask : ∀ task, task ≠ T_layoutResolved ->
             layout_frame e (state_of (runTask L task e))
               (events_of (runTask L task e))).
  { intros task Hne. destruct task; simpl; try congruence;
      first [ apply dequeueActions_layout_frame
            | apply viewportLoading_layout_frame
            | apply prepareLoading_layout_frame
            | apply toggleLoading_mutate_layout_frame
            | apply layoutRejected_layout_frame
            | idtac ].
    assert (H : respects layout_frame
                  (call (H_preconnectCallback false)
                     (λ c, preconnectCallback_hook c false))).
    { respects_run; layout_leaf. }
    apply H. }
  pose proof (layoutResolved_layout L e) as (Hrc & Hrr & Hrf).
  assert (Hcases : ∀ op : Op,
             op = Op_unlayoutCallback ∨ op = Op_layoutCallback
             ∨ (op ≠ Op_layoutCallback ∧ op ≠ Op_unlayoutCallback)).
  { intros op. destruct op; auto; right; right; split; discriminate. }
  split; [|split; [|split; [|split; [|split]]]].
  - intros op. destruct (Hcases op) as [->|[->|[Hne' Hne]]].
    + destruct Hun as ([Hc|Hc] & _); auto.
    + left. apply Hlc.
    + left. apply (Hop op Hne' Hne).
  - intros op. destruct (Hcases op) as [->|[->|[Hne' Hne]]].
    + apply Hun.
    + apply Hlc.
    + apply (Hop op Hne' Hne).
  - intros task Hne. destruct (Htask task Hne) as (Hc & Hr & _). auto.
  - auto.
  - intros op Hin. apply resolve_scheduled in Hin.
    destruct (Hcases op) as [->|[->|[Hne' Hne]]].
    + destruct Hun as (_ & _ & Hf). congruence.
    + destruct Hlc as (_ & _ & Hb). split; [reflexivity|]. apply Hb, Hin.
    + destruct (Hop op Hne' Hne) as (_ & _ & Hf). congruence.
  - intros task Hin. apply resolve_scheduled in Hin.
    destruct (decide (task = T_layoutResolved)) as [->|Hne].
    { simpl in Hin. congruence. }
    destruct (Htask task Hne) as (_ & _ & Hf). congruence.
Qed.

Lemma layout_count_written_by_layout_only_witness :
  layoutCount_
    (state_of (runTask sample_collaborators T_viewportLoading measured_img))
  = layoutCount_ measured_img
  ∧ scheduled (events_of (run_op sample_collaborators Op_layoutCallback
                            measured_img))
    = [T_layoutResolved].
Proof.
  split.
  - apply (proj1 (proj2 (proj2 (layout_count_written_by_layout_only
                                  sample_collaborators measured_img)))
             T_viewportLoading).
    discriminate.
  - reflexivity.
Defined.

Lemma sys_laid_out_reachable : reachable sample_collaborators sys_laid_out.
Proof.
  eapply reachable_step.
  - eapply reachable_step.
    + eapply reachable_step.
      * apply (reachable_created sample_collaborators
                 (sample_dom "AMP-IMG" [("width", "300"); ("height", "200")])
                 sample_class fresh_sample
                 [EvHook H_constructor; EvHook H_createdCallback]).
        reflexivity.
      * apply (step_call sample_collaborators Op_build sys_fresh).
    + apply (step_call sample_collaborators Op_layoutCallback
               (after_call sample_collaborators Op_build sys_fresh)).
  - apply (step_fire sample_collaborators T_layoutResolved [T_preconnect] []
             sys_laying_out).
    reflexivity.
Qed.

(** X30: in every state that an element reaches after its [createdCallback]
    returned, by calls of its methods and by its waiting callbacks firing:
    an element that counts a completed layout is in the ready state
    complete and is built, and the fulfilment callback of a layout is only
    ever waiting on a built element; so no layout is counted on an element
    that was never built. *)
Theorem laid_out_element_is_complete_and_built (L : Collaborators)
  (s : Sys) :
  reachable L s ->
  ((0 < layoutCount_ (elem s))%nat ->
   readyState (elem s) = RS_complete ∧ built_ (elem s) = true)
  ∧ (T_layoutResolved ∈ pending s -> built_ (elem s) = true).
Proof.
  induction 1 as [node Ctor e t Hc|s s' t Hr IH Hstep].
  - unfold createdCallback in Hc.
    destruct (constructor_hook Ctor); [|discriminate].
    destruct (createdCallback_hook Ctor); [|discriminate].
    injection Hc as <- _. split; simpl.
    + lia.
    + intros Hin. apply elem_of_nil in Hin. contradiction.
  - apply (step_layout_invariant L s s' t
             (reachable_queue_invariant L s Hr) IH Hstep).
Qed.

Lemma laid_out_element_is_complete_and_built_witness :
  layoutCount_ (elem sys_laid_out) = 1%nat
  ∧ readyState (elem sys_laid_out) = RS_complete
  ∧ built_ (elem sys_laid_out) = true.
Proof.
  split; [reflexivity|].
  apply (proj1 (laid_out_element_is_complete_and_built sample_collaborators
                  sys_laid_out sys_laid_out_reachable)).
  vm_compute. lia.
Defined.
